(** * School management front end: API client, role routing and CRUD views

    A shallow embedding of the browser-side code of the school management
    system: the axios client of [services/api.js] with its two interceptors,
    the role-driven [Dashboard] router, the [Layout] gate, and the
    [HolidaysEvents] and [ClassesManagement] views.

    JavaScript values are a small inductive type with the language's
    truthiness and string conversion; [localStorage], HTTP headers and query
    parameters are finite maps; asynchronous code is written in a state and
    exception monad over an explicit world (storage, location, the trace of
    observable effects and the backend). *)

From Stdlib Require Import ZArith Ascii String.
From stdpp Require Import gmap strings list fin_maps pretty.

Set Warnings "-register-all".
Local Open Scope string_scope.
Local Open Scope Z_scope.

(** ** JavaScript values *)

Module Js.

Inductive value :=
  | undefined
  | null
  | bool (b : Datatypes.bool)
  | num (z : Z)
  | nan
  | str (s : string)
  | arr (items : list value)
  | obj (props : list (string * value))
  | formdata (entries : list (string * value)).

(** ToBoolean: the test of [if (v)], [v ? a : b] and [v || w]. *)
Definition truthy (v : value) : Datatypes.bool :=
  match v with
  | undefined | null | nan => false
  | bool b => b
  | num z => negb (z =? 0)
  | str s => negb (String.eqb s "")
  | arr _ | obj _ | formdata _ => true
  end.

(** [a || b] *)
Definition or (a b : value) : value := if truthy a then a else b.

(** A default parameter [x = d] replaces [undefined] only. *)
Definition default (d v : value) : value :=
  match v with undefined => d | _ => v end.

Fixpoint assoc (k : string) (props : list (string * value)) : value :=
  match props with
  | [] => undefined
  | (k', v) :: rest => if String.eqb k k' then v else assoc k rest
  end.

(** [v?.k]: property read with optional chaining; the later binding of a
    key wins, as in an object literal. *)
Definition get (k : string) (v : value) : value :=
  match v with
  | obj props => assoc k (rev props)
  | _ => undefined
  end.

(** [Number.isSafeInteger] of an integer: up to 2^53 - 1 in magnitude.
    A number is kept here as the integer it is. The numbers of the language
    are doubles: they hold the safe integers exactly and print them in
    plain decimal digits (the exponent form starts at 1e21), so on a safe
    integer [to_string] and [parseInt] below are those of the language;
    the ids this program converts are database keys. *)
Definition isSafeInteger (z : Z) : Datatypes.bool := Z.abs z <=? 2 ^ 53 - 1.

(** ToString, as used by template literals and by [alert]; a number is
    written in plain decimal digits. *)
Fixpoint to_string (v : value) : string :=
  match v with
  | undefined => "undefined"
  | null => "null"
  | bool true => "true"
  | bool false => "false"
  | num z => pretty z
  | nan => "NaN"
  | str s => s
  | arr items =>
      String.concat ","
        (map (λ x, match x with undefined | null => "" | _ => to_string x end) items)
  | obj _ => "[object Object]"
  | formdata _ => "[object FormData]"
  end.

Definition is_space (c : Ascii.ascii) : Datatypes.bool :=
  match Ascii.N_of_ascii c with
  | 9%N | 10%N | 11%N | 12%N | 13%N | 32%N => true
  | _ => false
  end.

(** Value of a character as a digit of some radix up to 36. *)
Definition digit_val (c : Ascii.ascii) : option Z :=
  let n := Z.of_N (Ascii.N_of_ascii c) in
  if (48 <=? n) && (n <=? 57) then Some (n - 48)
  else if (97 <=? n) && (n <=? 122) then Some (n - 87)
  else if (65 <=? n) && (n <=? 90) then Some (n - 55)
  else None.

Fixpoint skip_spaces (s : string) : string :=
  match s with
  | String c rest => if is_space c then skip_spaces rest else s
  | EmptyString => s
  end.

(** The longest prefix of digits of the radix, read as a number; [None]
    when the string does not start with such a digit. *)
Fixpoint digits (radix : Z) (acc : option Z) (s : string) : option Z :=
  match s with
  | String c rest =>
      match digit_val c with
      | Some d =>
          if d <? radix
          then digits radix (Some (radix * from_option id 0 acc + d)) rest
          else acc
      | None => acc
      end
  | EmptyString => acc
  end.

Definition strip_sign (s : string) : Z * string :=
  match s with
  | String "-"%char rest => (-1, rest)
  | String "+"%char rest => (1, rest)
  | _ => (1, s)
  end.

Definition strip_hex (s : string) : option string :=
  match s with
  | String "0"%char (String "x"%char rest)
  | String "0"%char (String "X"%char rest) => Some rest
  | _ => None
  end.

(** [parseInt(v, radix)] for radix 10 ([Some 10]) and for an omitted radix
    ([None]), where a [0x] prefix selects base 16. The integer read is
    returned as it is, which is the language's result when it is a safe
    integer. *)
Definition parseInt (v : value) (radix : option Z) : value :=
  let '(sign, s) := strip_sign (skip_spaces (to_string v)) in
  let r :=
    match radix, strip_hex s with
    | None, Some rest => digits 16 None rest
    | _, _ => digits 10 None s
    end in
  match r with
  | Some n => num (sign * n)
  | None => nan
  end.

End Js.

(** ** HTTP messages and the world the client runs in *)

Inductive Method := GET | POST | PUT | DELETE.

Record Request := mkRequest {
  baseURL : string;
  method : Method;
  url : string;
  params : gmap string Js.value;
  body : Js.value;
  headers : gmap string string;
}.

Record Response := mkResponse {
  status : Z;
  data : Js.value;
}.

(** What comes back from the network: nothing (the transport failed, the
    error has no [response]) or an HTTP response of any status. *)
Inductive NetResult :=
  | NetFail
  | NetReply (r : Response).

(** The rejection value of a failed axios call; [response] is
    [error.response]. *)
Record AxiosError := mkAxiosError {
  response : option Response;
}.

(** Observable effects, in the order they happen. A console entry keeps
    the label of the message, a state entry the name of the React setter
    that was called. *)
Inductive Event :=
  | EvPreventDefault
  | EvRequest (r : Request)
  | EvAlert (text : string)
  | EvConsoleError (label : string)
  | EvSet (setter : string).

Record World := mkWorld {
  localStorage : gmap string string;
  location_href : string;
  trace : list Event;
  backend : list Request → Request → NetResult;
}.

(** The requests sent so far, oldest first: the history the backend's
    answer may depend on. *)
Definition sent (w : World) : list Request :=
  omap (λ e, match e with EvRequest r => Some r | _ => None end) (trace w).

Definition emit (e : Event) (w : World) : World :=
  mkWorld (localStorage w) (location_href w) (trace w ++ [e]) (backend w).

(** ** Effects: state passing with exceptions

    [Eff Σ A] is a computation over a state [Σ] that returns an [A] or
    throws an [AxiosError]; the state reached survives a throw, as side
    effects do in JavaScript. [await] of a promise is sequencing. *)

Definition Eff (Σ A : Type) : Type := Σ → Σ * (AxiosError + A).

Global Instance Eff_ret {Σ} : MRet (Eff Σ) := λ A x σ, (σ, inr x).

Global Instance Eff_bind {Σ} : MBind (Eff Σ) := λ A B f m σ,
  match m σ with
  | (σ', inr x) => f x σ'
  | (σ', inl e) => (σ', inl e)
  end.

Definition throw {Σ A} (e : AxiosError) : Eff Σ A := λ σ, (σ, inl e).

Definition modify {Σ} (f : Σ → Σ) : Eff Σ unit := λ σ, (f σ, inr tt).

Definition gets {Σ A} (f : Σ → A) : Eff Σ A := λ σ, (σ, inr (f σ)).

(** [try { m } catch (err) { h err }] *)
Definition try_catch {Σ A} (m : Eff Σ A) (h : AxiosError → Eff Σ A) : Eff Σ A :=
  λ σ, match m σ with
       | (σ', inl e) => h e σ'
       | r => r
       end.

(** [try { m } finally { f }]: [f] runs on both exits and a throw of [f]
    replaces the outcome of [m]. *)
Definition try_finally {Σ A} (m : Eff Σ A) (f : Eff Σ unit) : Eff Σ A :=
  λ σ, match m σ with
       | (σ', r) =>
           match f σ' with
           | (σ'', inl e) => (σ'', inl e)
           | (σ'', inr _) => (σ'', r)
           end
       end.

(** [Promise.all([a, b])]: both calls are made, in this order, whether or
    not the first one fails; the result is the pair of their values, or a
    rejection when one of them rejects. The calls are taken one after the
    other: the second is made in the world the first has left. *)
Definition promise_all2 {Σ A B} (a : Eff Σ A) (b : Eff Σ B) : Eff Σ (A * B) :=
  λ σ, match a σ with
       | (σ1, ra) =>
           match b σ1 with
           | (σ2, rb) =>
               match ra, rb with
               | inr x, inr y => (σ2, inr (x, y))
               | inl e, _ => (σ2, inl e)
               | _, inl e => (σ2, inl e)
               end
           end
       end.

(** Three calls at once, as [fetchInitialData] of the classes view does. *)
Definition promise_all3 {Σ A B C} (a : Eff Σ A) (b : Eff Σ B) (c : Eff Σ C)
  : Eff Σ (A * B * C) :=
  λ σ, match a σ with
       | (σ1, ra) =>
           match b σ1 with
           | (σ2, rb) =>
               match c σ2 with
               | (σ3, rc) =>
                   match ra, rb, rc with
                   | inr x, inr y, inr z => (σ3, inr (x, y, z))
                   | inl e, _, _ => (σ3, inl e)
                   | _, inl e, _ => (σ3, inl e)
                   | _, _, inl e => (σ3, inl e)
                   end
               end
           end
       end.

(** ** services/api.js: the axios instance and its interceptors *)

Module api.

Definition API_BASE_URL : string := "http://localhost:8000".

(** [headers] of [axios.create]. *)
Definition instance_headers : gmap string string :=
  {[ "Content-Type" := "application/json" ]}.

(** The header axios itself puts on every request. *)
Definition common_headers : gmap string string :=
  {[ "Accept" := "application/json, text/plain, */*" ]}.

(** The defaults of the instance: what [axios.create] was given, over the
    defaults of the library. *)
Definition default_headers : gmap string string :=
  instance_headers ∪ common_headers.

(** [localStorage.getItem(k)]: the stored string, or [null]. *)
Definition getItem (k : string) (w : World) : Js.value :=
  match localStorage w !! k with
  | Some s => Js.str s
  | None => Js.null
  end.

Definition removeItem (k : string) : Eff World unit :=
  modify (λ w, mkWorld (delete k (localStorage w)) (location_href w) (trace w) (backend w)).

(** [window.location.href = target] *)
Definition navigate (target : string) : Eff World unit :=
  modify (λ w, mkWorld (localStorage w) target (trace w) (backend w)).

Definition set_header (k v : string) (config : Request) : Request :=
  mkRequest (baseURL config) (method config) (url config) (params config)
            (body config) (<[k := v]> (headers config)).

(** The [if (token)] of the request interceptor: the header is set for a
    truthy token, and the config is returned as it came otherwise. *)
Definition attach_token (token : Js.value) (config : Request) : Request :=
  if Js.truthy token
  then set_header "Authorization" ("Bearer " ++ Js.to_string token) config
  else config.

(** Request interceptor: add the token to the request if available. *)
Definition request_interceptor (config : Request) : Eff World Request :=
  token ← gets (getItem "token");
  mret (attach_token token config).

(** Response interceptor, success side: the response passes unchanged. *)
Definition response_fulfilled (response : Response) : Eff World Response :=
  mret response.

(** [error.response?.status === 401] *)
Definition is_401 (error : AxiosError) : bool :=
  match response error with
  | Some r => status r =? 401
  | None => false
  end.

(** Response interceptor, failure side: on a 401 the token and the user
    are cleared and the browser is sent to the login page; the error is
    rejected again in every case. *)
Definition response_rejected {A} (error : AxiosError) : Eff World A :=
  (if is_401 error
   then removeItem "token" ;; removeItem "user" ;; navigate "/login"
   else mret tt) ;;
  throw error.

(** axios' default [validateStatus]: the instance does not override it. *)
Definition validateStatus (st : Z) : bool := (200 <=? st) && (st <? 300).

(** The adapter: the request goes out, and what comes back settles the
    promise. *)
Definition dispatch (config : Request) : Eff World Response :=
  λ w, let w' := emit (EvRequest config) w in
       match backend w (sent w) config with
       | NetFail => (w', inl (mkAxiosError None))
       | NetReply r =>
           if validateStatus (status r)
           then (w', inr r)
           else (w', inl (mkAxiosError (Some r)))
       end.

(** The config of one call: the per-call headers over the defaults of
    the instance. *)
Definition config_of (m : Method) (path : string) (query : gmap string Js.value)
    (payload : Js.value) (hdrs : gmap string string) : Request :=
  mkRequest API_BASE_URL m path query payload (hdrs ∪ default_headers).

(** One call through the instance: the request interceptor, the network,
    the response interceptor. *)
Definition request (m : Method) (path : string) (query : gmap string Js.value)
    (payload : Js.value) (hdrs : gmap string string) : Eff World Response :=
  try_catch
    (config ← request_interceptor (config_of m path query payload hdrs);
     r ← dispatch config;
     response_fulfilled r)
    response_rejected.

(** [api.get(url, { params })]; a call without a config is a call with no
    parameters. *)
Definition get (path : string) (query : gmap string Js.value) : Eff World Response :=
  request GET path query Js.undefined ∅.

Definition post (path : string) (payload : Js.value) (hdrs : gmap string string)
  : Eff World Response :=
  request POST path ∅ payload hdrs.

Definition put (path : string) (payload : Js.value) : Eff World Response :=
  request PUT path ∅ payload ∅.

Definition delete (path : string) : Eff World Response :=
  request DELETE path ∅ Js.undefined ∅.

End api.

(** [if (v) params[k] = v] *)
Definition set_if_truthy (k : string) (v : Js.value) (query : gmap string Js.value)
  : gmap string Js.value :=
  if Js.truthy v then <[k := v]> query else query.

(** [headers: { 'Content-Type': 'multipart/form-data' }] of the uploads. *)
Definition multipart : gmap string string :=
  {[ "Content-Type" := "multipart/form-data" ]}.

(** [new FormData()] with the file appended under ["file"]. *)
Definition file_form (file : Js.value) : Js.value := Js.formdata [("file", file)].

(** ** Auth API *)

Module authAPI.

Definition login (email password : Js.value) : Eff World Js.value :=
  response ← api.post "/auth/login-json"
               (Js.obj [("email", email); ("password", password)]) ∅;
  mret (data response).

Definition setPassword (token password : Js.value) : Eff World Js.value :=
  response ← api.post "/auth/set-password"
               (Js.obj [("token", token); ("password", password)]) ∅;
  mret (data response).

End authAPI.

(** ** Schools API *)

Module schoolsAPI.

Definition getAll (search : Js.value) : Eff World Js.value :=
  let search := Js.default Js.null search in
  let query : gmap string Js.value :=
    if Js.truthy search then {[ "search" := search ]} else ∅ in
  response ← api.get "/schools/" query;
  mret (data response).

Definition getById (schoolId : Js.value) : Eff World Js.value :=
  response ← api.get ("/schools/" ++ Js.to_string schoolId) ∅;
  mret (data response).

Definition create (schoolData : Js.value) : Eff World Js.value :=
  response ← api.post "/schools/" schoolData ∅;
  mret (data response).

Definition update (schoolId schoolData : Js.value) : Eff World Js.value :=
  response ← api.put ("/schools/" ++ Js.to_string schoolId) schoolData;
  mret (data response).

Definition delete (schoolId : Js.value) : Eff World Js.value :=
  api.delete ("/schools/" ++ Js.to_string schoolId) ;;
  mret (Js.bool true).

End schoolsAPI.

(** ** Admins API *)

Module adminsAPI.

Definition getAll (search schoolId : Js.value) : Eff World Js.value :=
  let search := Js.default Js.null search in
  let schoolId := Js.default Js.null schoolId in
  let query : gmap string Js.value := ∅ in
  let query := set_if_truthy "search" search query in
  let query := set_if_truthy "school_id" schoolId query in
  response ← api.get "/schools/admins" query;
  mret (data response).

Definition getById (adminId : Js.value) : Eff World Js.value :=
  response ← api.get ("/schools/admins/" ++ Js.to_string adminId) ∅;
  mret (data response).

Definition getBySchool (schoolId : Js.value) : Eff World Js.value :=
  response ← api.get ("/schools/" ++ Js.to_string schoolId ++ "/admins") ∅;
  mret (data response).

(** Invite an admin by email. [adminData] is the object the form holds:
    its three fields are read with [Js.get], as they are from an object
    (reading them from [null] or [undefined] throws in the language). *)
Definition invite (adminData : Js.value) : Eff World Js.value :=
  response ← api.post "/super/invite-admin"
               (Js.obj [("name", Js.get "name" adminData);
                        ("email", Js.get "email" adminData);
                        ("school_id", Js.parseInt (Js.get "school_id" adminData) None)]) ∅;
  mret (data response).

(** The legacy create endpoint. *)
Definition create (schoolId adminData : Js.value) : Eff World Js.value :=
  response ← api.post ("/schools/" ++ Js.to_string schoolId ++ "/admins") adminData ∅;
  mret (data response).

Definition update (adminId adminData : Js.value) : Eff World Js.value :=
  response ← api.put ("/schools/admins/" ++ Js.to_string adminId) adminData;
  mret (data response).

Definition delete (adminId : Js.value) : Eff World Js.value :=
  api.delete ("/schools/admins/" ++ Js.to_string adminId) ;;
  mret (Js.bool true).

End adminsAPI.

(** ** Dashboard API *)

Module dashboardAPI.

Definition getStats : Eff World Js.value :=
  response ← api.get "/dashboard/stats" ∅;
  mret (data response).

Definition getUsers (search role schoolId : Js.value) : Eff World Js.value :=
  let search := Js.default Js.null search in
  let role := Js.default Js.null role in
  let schoolId := Js.default Js.null schoolId in
  let query : gmap string Js.value := ∅ in
  let query := set_if_truthy "search" search query in
  let query := set_if_truthy "role" role query in
  let query := set_if_truthy "school_id" schoolId query in
  response ← api.get "/dashboard/users" query;
  mret (data response).

Definition getUserById (userId : Js.value) : Eff World Js.value :=
  response ← api.get ("/dashboard/users/" ++ Js.to_string userId) ∅;
  mret (data response).

End dashboardAPI.

(** ** School admin API *)

Module schoolAdminAPI.

(** Dashboard stats *)

Definition getDashboardStats : Eff World Js.value :=
  response ← api.get "/admin/dashboard/stats" ∅;
  mret (data response).

(** Teachers *)

Definition getTeachers (search : Js.value) : Eff World Js.value :=
  let search := Js.default Js.null search in
  let query : gmap string Js.value := ∅ in
  let query := set_if_truthy "search" search query in
  response ← api.get "/admin/teachers" query;
  mret (data response).

Definition createTeacher (teacherData : Js.value) : Eff World Js.value :=
  response ← api.post "/admin/teachers" teacherData ∅;
  mret (data response).

Definition updateTeacher (teacherId teacherData : Js.value) : Eff World Js.value :=
  response ← api.put ("/admin/teachers/" ++ Js.to_string teacherId) teacherData;
  mret (data response).

Definition deleteTeacher (teacherId : Js.value) : Eff World Js.value :=
  response ← api.delete ("/admin/teachers/" ++ Js.to_string teacherId);
  mret (data response).

Definition uploadTeachersExcel (file : Js.value) : Eff World Js.value :=
  let formData := file_form file in
  response ← api.post "/admin/teachers/upload-excel" formData multipart;
  mret (data response).

(** Students *)

Definition getStudents (search grade : Js.value) : Eff World Js.value :=
  let search := Js.default Js.null search in
  let grade := Js.default Js.null grade in
  let query : gmap string Js.value := ∅ in
  let query := set_if_truthy "search" search query in
  let query := set_if_truthy "grade" grade query in
  response ← api.get "/admin/students" query;
  mret (data response).

Definition createStudent (studentData : Js.value) : Eff World Js.value :=
  response ← api.post "/admin/students" studentData ∅;
  mret (data response).

Definition updateStudent (studentId studentData : Js.value) : Eff World Js.value :=
  response ← api.put ("/admin/students/" ++ Js.to_string studentId) studentData;
  mret (data response).

Definition deleteStudent (studentId : Js.value) : Eff World Js.value :=
  response ← api.delete ("/admin/students/" ++ Js.to_string studentId);
  mret (data response).

Definition uploadStudentsExcel (file : Js.value) : Eff World Js.value :=
  let formData := file_form file in
  response ← api.post "/admin/students/upload-excel" formData multipart;
  mret (data response).

(** Parents *)

Definition getParents (search : Js.value) : Eff World Js.value :=
  let search := Js.default Js.null search in
  let query : gmap string Js.value := ∅ in
  let query := set_if_truthy "search" search query in
  response ← api.get "/admin/parents" query;
  mret (data response).

Definition createParent (parentData : Js.value) : Eff World Js.value :=
  response ← api.post "/admin/parents" parentData ∅;
  mret (data response).

Definition updateParent (parentId parentData : Js.value) : Eff World Js.value :=
  response ← api.put ("/admin/parents/" ++ Js.to_string parentId) parentData;
  mret (data response).

Definition deleteParent (parentId : Js.value) : Eff World Js.value :=
  response ← api.delete ("/admin/parents/" ++ Js.to_string parentId);
  mret (data response).

Definition uploadParentsExcel (file : Js.value) : Eff World Js.value :=
  let formData := file_form file in
  response ← api.post "/admin/parents/upload-excel" formData multipart;
  mret (data response).

(** Subjects *)

Definition getSubjects : Eff World Js.value :=
  response ← api.get "/admin/subjects" ∅;
  mret (data response).

Definition createSubject (subjectData : Js.value) : Eff World Js.value :=
  response ← api.post "/admin/subjects" subjectData ∅;
  mret (data response).

(** Classes *)

Definition getClasses : Eff World Js.value :=
  response ← api.get "/admin/classes" ∅;
  mret (data response).

Definition createClass (classData : Js.value) : Eff World Js.value :=
  response ← api.post "/admin/classes" classData ∅;
  mret (data response).

Definition assignStudentToClass (classId studentId : Js.value) : Eff World Js.value :=
  response ← api.post ("/admin/classes/" ++ Js.to_string classId ++ "/students/" ++ Js.to_string studentId) Js.undefined ∅;
  mret (data response).

Definition getClassStudents (classId : Js.value) : Eff World Js.value :=
  response ← api.get ("/admin/classes/" ++ Js.to_string classId ++ "/students") ∅;
  mret (data response).

Definition removeStudentFromClass (classId studentId : Js.value) : Eff World Js.value :=
  response ← api.delete ("/admin/classes/" ++ Js.to_string classId ++ "/students/" ++ Js.to_string studentId);
  mret (data response).

(** Timetable *)

Definition getTimetable (classId : Js.value) : Eff World Js.value :=
  let classId := Js.default Js.null classId in
  let query : gmap string Js.value := ∅ in
  let query := set_if_truthy "class_id" classId query in
  response ← api.get "/admin/timetable" query;
  mret (data response).

Definition createTimetableSlot (slotData : Js.value) : Eff World Js.value :=
  response ← api.post "/admin/timetable" slotData ∅;
  mret (data response).

(** Holidays *)

Definition getHolidays : Eff World Js.value :=
  response ← api.get "/admin/holidays" ∅;
  mret (data response).

Definition createHoliday (holidayData : Js.value) : Eff World Js.value :=
  response ← api.post "/admin/holidays" holidayData ∅;
  mret (data response).

(** Events *)

Definition getEvents : Eff World Js.value :=
  response ← api.get "/admin/events" ∅;
  mret (data response).

Definition createEvent (eventData : Js.value) : Eff World Js.value :=
  response ← api.post "/admin/events" eventData ∅;
  mret (data response).

(** Announcements *)

Definition getAnnouncements (targetAudience : Js.value) : Eff World Js.value :=
  let targetAudience := Js.default Js.null targetAudience in
  let query : gmap string Js.value := ∅ in
  let query := set_if_truthy "target_audience" targetAudience query in
  response ← api.get "/admin/announcements" query;
  mret (data response).

Definition createAnnouncement (announcementData : Js.value) : Eff World Js.value :=
  response ← api.post "/admin/announcements" announcementData ∅;
  mret (data response).

(** Lessons *)

Definition getLessons (classId : Js.value) : Eff World Js.value :=
  let classId := Js.default Js.null classId in
  let query : gmap string Js.value := ∅ in
  let query := set_if_truthy "class_id" classId query in
  response ← api.get "/admin/lessons" query;
  mret (data response).

(** Parent-student mapping *)

Definition getStudentParents (studentId : Js.value) : Eff World Js.value :=
  response ← api.get ("/admin/students/" ++ Js.to_string studentId ++ "/parents") ∅;
  mret (data response).

Definition getParentStudents (parentId : Js.value) : Eff World Js.value :=
  response ← api.get ("/admin/parents/" ++ Js.to_string parentId ++ "/students") ∅;
  mret (data response).

Definition createParentStudentLink (linkData : Js.value) : Eff World Js.value :=
  response ← api.post "/admin/parent-student/link" linkData ∅;
  mret (data response).

Definition deleteParentStudentLink (linkId : Js.value) : Eff World Js.value :=
  response ← api.delete ("/admin/parent-student/link/" ++ Js.to_string linkId);
  mret (data response).

Definition getStudentsWithParents (search : Js.value) : Eff World Js.value :=
  let search := Js.default Js.null search in
  let query : gmap string Js.value :=
    if Js.truthy search then {[ "search" := search ]} else ∅ in
  response ← api.get "/admin/students-with-parents" query;
  mret (data response).

Definition getParentsWithStudents (search : Js.value) : Eff World Js.value :=
  let search := Js.default Js.null search in
  let query : gmap string Js.value :=
    if Js.truthy search then {[ "search" := search ]} else ∅ in
  response ← api.get "/admin/parents-with-students" query;
  mret (data response).

Definition getParentStudentStats : Eff World Js.value :=
  response ← api.get "/admin/parent-student/stats" ∅;
  mret (data response).

Definition uploadStudentsParentsCombined (file : Js.value) : Eff World Js.value :=
  let formData := file_form file in
  response ← api.post "/admin/parent-student/upload-combined-excel" formData multipart;
  mret (data response).

(** Analytics *)

Definition getAnalytics : Eff World Js.value :=
  response ← api.get "/admin/analytics" ∅;
  mret (data response).

End schoolAdminAPI.

(** ** The auth context read by the components

    [useAuth()] yields the current user and the capability flags derived
    from it; the provider itself is outside the files embedded here, so a
    component takes the context value as its input. *)

Record User := mkUser {
  user_id : Z;
  user_name : string;
  email : string;
  role : string;
  school_id : option Z;
}.

Record AuthContext := mkAuth {
  user : option User;
  isSuperAdmin : bool;
}.

(** Modelled from the spec: the auth provider (context/AuthContext, not
    among the sources) holds the current user and the role flags derived
    from it; [isSuperAdmin] is the flag of the SUPER_ADMIN role. *)
Definition AuthProvider_value (u : option User) : AuthContext :=
  mkAuth u (match u with
            | Some x => String.eqb (role x) "SUPER_ADMIN"
            | None => false
            end).

(** [user?.role === r] *)
Definition role_is (r : string) (u : option User) : bool :=
  match u with
  | Some x => String.eqb (role x) r
  | None => false
  end.

(** ** components/Layout.jsx *)

Record MenuItem := mkMenuItem {
  item_id : string;
  label : string;
  icon : string;
  item_path : string;
}.

Definition menuItems : list MenuItem :=
  [ mkMenuItem "dashboard" "Dashboard" "📊" "/dashboard";
    mkMenuItem "schools" "Schools" "🏫" "/dashboard/schools";
    mkMenuItem "create-school" "Create School" "➕" "/dashboard/create-school";
    mkMenuItem "admins" "Admins" "👥" "/dashboard/admins";
    mkMenuItem "create-admin" "Create Admin" "➕" "/dashboard/create-admin";
    mkMenuItem "users" "All Users" "👤" "/dashboard/users" ].

(** [location.pathname === path || location.pathname.startsWith(path + '/')] *)
Definition isActive (pathname path : string) : bool :=
  String.eqb pathname path || String.prefix (path ++ "/") pathname.

Record NavButton := mkNavButton {
  nav_item : MenuItem;
  nav_active : bool;
  nav_label : option string;
}.

Record Sidebar := mkSidebar {
  brand : option string;
  user_info : string;
  nav : list NavButton;
  logout_label : option string;
}.

Record Header := mkHeader {
  header_title : string;
  header_email : option string;
}.

(** What [Layout] renders: the access-denied page, or the shell with the
    sidebar, the header and the wrapped children in its main area. *)
Inductive View (C : Type) :=
  | AccessDenied (heading message : string)
  | Shell (sidebar : Sidebar) (header : Header) (main : C).
Arguments AccessDenied {C} heading message.
Arguments Shell {C} sidebar header main.

(** [user?.role?.charAt(0) || 'A'] *)
Definition role_initial (u : option User) : string :=
  match u with
  | Some x => match role x with
              | String c _ => String c EmptyString
              | EmptyString => "A"
              end
  | None => "A"
  end.

(** The text node [{user?.role}]: nothing when there is no user. *)
Definition role_text (u : option User) : string :=
  match u with
  | Some x => role x
  | None => ""
  end.

Definition Layout {C} (auth : AuthContext) (pathname : string) (sidebarOpen : bool)
    (children : C) : View C :=
  if negb (isSuperAdmin auth)
  then AccessDenied "Access Denied" "You don't have permission to access this page."
  else
    Shell
      (mkSidebar
         (if sidebarOpen then Some "School Management" else None)
         (if sidebarOpen then role_text (user auth) else role_initial (user auth))
         (map (λ item, mkNavButton item (isActive pathname (item_path item))
                         (if sidebarOpen then Some (label item) else None))
              menuItems)
         (if sidebarOpen then Some "Logout" else None))
      (mkHeader "Super Admin Dashboard" (email <$> user auth))
      children.

(** ** components/Dashboard.jsx *)

Module Page.

(** The page components the routes mount. *)
Inductive Component :=
  | DashboardOverview | SchoolList | CreateSchool | EditSchool | SchoolDetails
  | AdminList | CreateAdmin | EditAdmin | ViewAllUsers
  | SchoolAdminDashboard | TeachersManagement | StudentsManagement
  | ParentsManagement | ClassesManagement | TimetableManagement
  | HolidaysEvents | Announcements | LessonsView | Analytics
  | TeacherDashboard | MyClasses | MyStudents | Attendance.

End Page.

Global Instance Component_eq_dec : EqDecision Page.Component.
Proof. solve_decision. Defined.

(** [<Route index element=.. />] has no path; the others carry theirs. *)
Record Route := mkRoute {
  path : option string;
  element : Page.Component;
}.

Global Instance Route_eq_dec : EqDecision Route.
Proof. solve_decision. Defined.

Definition school_admin_routes : list Route :=
  [ mkRoute None Page.SchoolAdminDashboard;
    mkRoute (Some "/teachers") Page.TeachersManagement;
    mkRoute (Some "/students") Page.StudentsManagement;
    mkRoute (Some "/parents") Page.ParentsManagement;
    mkRoute (Some "/classes") Page.ClassesManagement;
    mkRoute (Some "/timetable") Page.TimetableManagement;
    mkRoute (Some "/holidays-events") Page.HolidaysEvents;
    mkRoute (Some "/announcements") Page.Announcements;
    mkRoute (Some "/lessons") Page.LessonsView;
    mkRoute (Some "/analytics") Page.Analytics ].

Definition teacher_routes : list Route :=
  [ mkRoute None Page.TeacherDashboard;
    mkRoute (Some "/classes") Page.MyClasses;
    mkRoute (Some "/classes/:classId/students") Page.MyStudents;
    mkRoute (Some "/students") Page.MyStudents;
    mkRoute (Some "/attendance") Page.Attendance ].

Definition super_admin_routes : list Route :=
  [ mkRoute None Page.DashboardOverview;
    mkRoute (Some "/schools/:id/edit") Page.EditSchool;
    mkRoute (Some "/schools/:id") Page.SchoolDetails;
    mkRoute (Some "/schools") Page.SchoolList;
    mkRoute (Some "/create-school") Page.CreateSchool;
    mkRoute (Some "/admins/:id/edit") Page.EditAdmin;
    mkRoute (Some "/admins") Page.AdminList;
    mkRoute (Some "/create-admin") Page.CreateAdmin;
    mkRoute (Some "/users") Page.ViewAllUsers ].

(** The children of [<Routes>]: chosen by the two role tests alone. *)
Definition Dashboard_routes (u : option User) : list Route :=
  let isAdmin := role_is "ADMIN" u in
  let isTeacher := role_is "TEACHER" u in
  if isAdmin then school_admin_routes
  else if isTeacher then teacher_routes
  else super_admin_routes.

(** [<Layout><Routes>..</Routes></Layout>] *)
Definition Dashboard (auth : AuthContext) (pathname : string) (sidebarOpen : bool)
  : View (list Route) :=
  Layout auth pathname sidebarOpen (Dashboard_routes (user auth)).

(** The routes a rendered dashboard has mounted: the children of the
    shell, and none on the access-denied page, which renders no
    [<Routes>]. *)
Definition mounted (v : View (list Route)) : list Route :=
  match v with
  | Shell _ _ main => main
  | AccessDenied _ _ => []
  end.

(** ** Building blocks of the view components

    A component runs over its React state and the world. A setter records
    that it was called and updates the state; [alert] and [console.error]
    only leave their entry in the trace. *)

Definition liftW {S A} (m : Eff World A) : Eff (S * World) A :=
  λ σ, match m σ.2 with
       | (w', r) => ((σ.1, w'), r)
       end.

Definition set_state {S} (setter : string) (f : S → S) : Eff (S * World) unit :=
  modify (λ σ, (f σ.1, emit (EvSet setter) σ.2)).

Definition read_state {S A} (f : S → A) : Eff (S * World) A :=
  gets (λ σ, f σ.1).

Definition alert {S} (v : Js.value) : Eff (S * World) unit :=
  modify (λ σ, (σ.1, emit (EvAlert (Js.to_string v)) σ.2)).

Definition console_error {S} (label : string) : Eff (S * World) unit :=
  modify (λ σ, (σ.1, emit (EvConsoleError label) σ.2)).

Definition preventDefault {S} : Eff (S * World) unit :=
  modify (λ σ, (σ.1, emit EvPreventDefault σ.2)).

(** [err.response?.data?.detail] *)
Definition error_detail (err : AxiosError) : Js.value :=
  match response err with
  | Some r => Js.get "detail" (data r)
  | None => Js.undefined
  end.

(** A call that was started and not awaited: what is left of it once
    its synchronous beginning has run. The caller goes on to the end of its
    own synchronous code, and the rest runs after that. axios only sets a
    request up when a client function is called: the interceptors and the
    sending happen in a later turn of the event loop, so the requests of an
    un-awaited call belong to what is left. *)
Definition Pending (Σ : Type) : Type := Eff Σ unit.

(** *** Forms and the browser's submission

    A form as the JSX declares it: its controls with their [required]
    flags and current values, and its submit handler. A submission by the
    user first checks the constraints (unless [noValidate] is set); when a
    required control is empty the submit event is not fired. *)

Record Control := mkControl {
  control_type : string;
  required : bool;
  control_value : string;
}.

Record Form (Σ A : Type) := mkForm {
  noValidate : bool;
  controls : list Control;
  onSubmit : Eff Σ A;
}.
Arguments mkForm {Σ A} noValidate controls onSubmit.
Arguments noValidate {Σ A} f.
Arguments controls {Σ A} f.
Arguments onSubmit {Σ A} f.

Definition valueMissing (c : Control) : bool :=
  required c && String.eqb (control_value c) "".

Definition checkValidity {Σ A} (f : Form Σ A) : bool :=
  forallb (λ c, negb (valueMissing c)) (controls f).

Definition requestSubmit {Σ A} (f : Form Σ A) : Eff Σ (option A) :=
  if noValidate f || checkValidity f
  then x ← onSubmit f; mret (Some x)
  else mret None.

(** *** Rendering lists

    [v.length]: a number for an array or a string (counted in bytes
    here), the property of that name for an object, [undefined] for the other values, and a TypeError
    ([None]) for [null] and [undefined]. *)
Definition length_prop (v : Js.value) : option Js.value :=
  match v with
  | Js.undefined | Js.null => None
  | Js.arr items => Some (Js.num (Z.of_nat (length items)))
  | Js.str s => Some (Js.num (Z.of_nat (String.length s)))
  | Js.obj _ => Some (Js.get "length" v)
  | _ => Some Js.undefined
  end.

(** [v === 0] *)
Definition is_zero (v : Js.value) : bool :=
  match v with
  | Js.num 0 => true
  | _ => false
  end.

(** The text React puts for a child [{v}]: nothing for [undefined],
    [null] and booleans, the text of a string or a number, the children of
    an array one after the other; an object is not a valid child and makes
    the render throw ([None]). *)
Fixpoint child_text (v : Js.value) : option string :=
  match v with
  | Js.undefined | Js.null | Js.bool _ => Some ""
  | Js.num _ | Js.nan | Js.str _ => Some (Js.to_string v)
  | Js.arr items =>
      (fix children (l : list Js.value) : option string :=
         match l with
         | [] => Some ""
         | x :: rest =>
             match child_text x, children rest with
             | Some a, Some b => Some (a ++ b)
             | _, _ => None
             end
         end) items
  | Js.obj _ | Js.formdata _ => None
  end.

(** The body of a table: one placeholder row, or one row of cells per
    record. *)
Inductive Rows :=
  | Placeholder (text : string)
  | DataRows (rows : list (list string)).

(** [v.length === 0 ? placeholder : v.map(row)]; only an array has [map]. *)
Definition table_body (empty_text : string) (row : Js.value → option (list string))
    (v : Js.value) : option Rows :=
  len ← length_prop v;
  if is_zero len then Some (Placeholder empty_text)
  else match v with
       | Js.arr items => DataRows <$> mapM row items
       | _ => None
       end.

(** The cells of a row, each the text of its child expression. A record
    that is [null] or [undefined] cannot be read from. *)
Definition cells (record : Js.value) (exprs : list Js.value) : option (list string) :=
  match record with
  | Js.undefined | Js.null => None
  | _ => mapM child_text exprs
  end.

(** ** components/admin/HolidaysEvents.jsx *)

Module HolidaysEvents.

Record HolidayForm := mkHolidayForm {
  name : string;
  start_date : string;
  end_date : string;
  description : string;
}.

Record EventForm := mkEventForm {
  title : string;
  event_description : string;
  event_date : string;
  event_time : string;
  event_type : string;
}.

Record State := mkState {
  holidays : Js.value;
  events : Js.value;
  loading : bool;
  error : string;
  showHolidayForm : bool;
  showEventForm : bool;
  holidayForm : HolidayForm;
  eventForm : EventForm;
}.

Definition empty_holidayForm : HolidayForm := mkHolidayForm "" "" "" "".

Definition empty_eventForm : EventForm := mkEventForm "" "" "" "" "".

(** The [useState] initial values. *)
Definition initial : State :=
  mkState (Js.arr []) (Js.arr []) true "" false false empty_holidayForm empty_eventForm.

(** The form objects as they are handed to the API. *)
Definition holidayForm_js (f : HolidayForm) : Js.value :=
  Js.obj [ ("name", Js.str (name f));
           ("start_date", Js.str (start_date f));
           ("end_date", Js.str (end_date f));
           ("description", Js.str (description f)) ].

Definition eventForm_js (f : EventForm) : Js.value :=
  Js.obj [ ("title", Js.str (title f));
           ("description", Js.str (event_description f));
           ("event_date", Js.str (event_date f));
           ("event_time", Js.str (event_time f));
           ("event_type", Js.str (event_type f)) ].

Definition Σ : Type := State * World.

Definition setHolidays (v : Js.value) : Eff Σ unit :=
  set_state "setHolidays"
    (λ s, mkState v (events s) (loading s) (error s) (showHolidayForm s)
                  (showEventForm s) (holidayForm s) (eventForm s)).

Definition setEvents (v : Js.value) : Eff Σ unit :=
  set_state "setEvents"
    (λ s, mkState (holidays s) v (loading s) (error s) (showHolidayForm s)
                  (showEventForm s) (holidayForm s) (eventForm s)).

Definition setLoading (b : bool) : Eff Σ unit :=
  set_state "setLoading"
    (λ s, mkState (holidays s) (events s) b (error s) (showHolidayForm s)
                  (showEventForm s) (holidayForm s) (eventForm s)).

Definition setError (msg : string) : Eff Σ unit :=
  set_state "setError"
    (λ s, mkState (holidays s) (events s) (loading s) msg (showHolidayForm s)
                  (showEventForm s) (holidayForm s) (eventForm s)).

Definition setShowHolidayForm (b : bool) : Eff Σ unit :=
  set_state "setShowHolidayForm"
    (λ s, mkState (holidays s) (events s) (loading s) (error s) b
                  (showEventForm s) (holidayForm s) (eventForm s)).

Definition setShowEventForm (b : bool) : Eff Σ unit :=
  set_state "setShowEventForm"
    (λ s, mkState (holidays s) (events s) (loading s) (error s) (showHolidayForm s)
                  b (holidayForm s) (eventForm s)).

Definition setHolidayForm (f : HolidayForm) : Eff Σ unit :=
  set_state "setHolidayForm"
    (λ s, mkState (holidays s) (events s) (loading s) (error s) (showHolidayForm s)
                  (showEventForm s) f (eventForm s)).

Definition setEventForm (f : EventForm) : Eff Σ unit :=
  set_state "setEventForm"
    (λ s, mkState (holidays s) (events s) (loading s) (error s) (showHolidayForm s)
                  (showEventForm s) (holidayForm s) f).

Definition fetch_failed : string :=
  "Failed to load holidays and events. Please try again.".

(** The two list requests of [fetchData], started together. *)
Definition fetch_both : Eff Σ (Js.value * Js.value) :=
  liftW (promise_all2 schoolAdminAPI.getHolidays schoolAdminAPI.getEvents).

(** [fetchData], awaited to its end. *)
Definition fetchData : Eff Σ unit :=
  try_finally
    (try_catch
       (setLoading true ;;
        '(holidaysData, eventsData) ← fetch_both;
        setHolidays holidaysData ;;
        setEvents eventsData ;;
        setError "")
       (λ err,
          console_error "Error fetching holidays/events:" ;;
          setError fetch_failed))
    (setLoading false).

(** What is left of [fetchData] after its synchronous beginning: the two
    requests go out, and the try block goes on with their results. *)
Definition fetchData_resume : Pending Σ :=
  try_finally
    (try_catch
       ('(holidaysData, eventsData) ← fetch_both;
        setHolidays holidaysData ;;
        setEvents eventsData ;;
        setError "")
       (λ err,
          console_error "Error fetching holidays/events:" ;;
          setError fetch_failed))
    (setLoading false).

(** [fetchData()] called without [await] runs up to its [await]: the
    loading flag is raised and the two requests are set up, not yet sent.
    The caller goes on; the rest is left pending. *)
Definition fetchData_start : Eff Σ (Pending Σ) :=
  setLoading true ;;
  mret fetchData_resume.

(** The submit handler of the holiday form. On the success path it hands
    back the re-fetch it started, still pending. *)
Definition handleCreateHoliday : Eff Σ (option (Pending Σ)) :=
  preventDefault ;;
  form ← read_state holidayForm;
  try_catch
    (liftW (schoolAdminAPI.createHoliday (holidayForm_js form)) ;;
     setShowHolidayForm false ;;
     setHolidayForm (mkHolidayForm "" "" "" "") ;;
     pending ← fetchData_start;
     alert (Js.str "Holiday created successfully!") ;;
     mret (Some pending))
    (λ err,
       console_error "Error creating holiday:" ;;
       alert (Js.or (error_detail err) (Js.str "Failed to create holiday")) ;;
       mret None).

Definition handleCreateEvent : Eff Σ (option (Pending Σ)) :=
  preventDefault ;;
  form ← read_state eventForm;
  try_catch
    (liftW (schoolAdminAPI.createEvent (eventForm_js form)) ;;
     setShowEventForm false ;;
     setEventForm (mkEventForm "" "" "" "" "") ;;
     pending ← fetchData_start;
     alert (Js.str "Event created successfully!") ;;
     mret (Some pending))
    (λ err,
       console_error "Error creating event:" ;;
       alert (Js.or (error_detail err) (Js.str "Failed to create event")) ;;
       mret None).

(** The holiday form as rendered: absent while loading or while the form
    is closed. Name, start date and end date are [required]. *)
Definition holiday_form (s : State)
  : option (Form Σ (option (Pending Σ))) :=
  if loading s then None
  else if showHolidayForm s
  then Some (mkForm false
               [ mkControl "text" true (name (holidayForm s));
                 mkControl "date" true (start_date (holidayForm s));
                 mkControl "date" true (end_date (holidayForm s));
                 mkControl "textarea" false (description (holidayForm s)) ]
               handleCreateHoliday)
  else None.

(** The user presses "Create Holiday". *)
Definition submit_holiday_form
  : Eff Σ (option (option (Pending Σ))) :=
  λ σ, match holiday_form σ.1 with
       | Some f => requestSubmit f σ
       | None => (σ, inr None)
       end.

(** The event form as rendered: title, date and type are [required], time
    and description are not. *)
Definition event_form (s : State)
  : option (Form Σ (option (Pending Σ))) :=
  if loading s then None
  else if showEventForm s
  then Some (mkForm false
               [ mkControl "text" true (title (eventForm s));
                 mkControl "date" true (event_date (eventForm s));
                 mkControl "time" false (event_time (eventForm s));
                 mkControl "text" true (event_type (eventForm s));
                 mkControl "textarea" false (event_description (eventForm s)) ]
               handleCreateEvent)
  else None.

(** The user presses "Create Event". *)
Definition submit_event_form
  : Eff Σ (option (option (Pending Σ))) :=
  λ σ, match event_form σ.1 with
       | Some f => requestSubmit f σ
       | None => (σ, inr None)
       end.

(** The "Add Holiday" and "Add Event" buttons toggle their form; the
    Cancel buttons close it. *)
Definition onClick_addHoliday : Eff Σ unit :=
  shown ← read_state showHolidayForm;
  setShowHolidayForm (negb shown).

Definition onClick_addEvent : Eff Σ unit :=
  shown ← read_state showEventForm;
  setShowEventForm (negb shown).

Definition onClick_cancelHoliday : Eff Σ unit := setShowHolidayForm false.

Definition onClick_cancelEvent : Eff Σ unit := setShowEventForm false.

(** The [onChange] handlers of the holiday form: the form object is copied
    with one field replaced by the value typed. *)
Definition onChange_name (v : string) : Eff Σ unit :=
  form ← read_state holidayForm;
  setHolidayForm (mkHolidayForm v (start_date form) (end_date form) (description form)).

Definition onChange_start_date (v : string) : Eff Σ unit :=
  form ← read_state holidayForm;
  setHolidayForm (mkHolidayForm (name form) v (end_date form) (description form)).

Definition onChange_end_date (v : string) : Eff Σ unit :=
  form ← read_state holidayForm;
  setHolidayForm (mkHolidayForm (name form) (start_date form) v (description form)).

Definition onChange_description (v : string) : Eff Σ unit :=
  form ← read_state holidayForm;
  setHolidayForm (mkHolidayForm (name form) (start_date form) (end_date form) v).

(** The [onChange] handlers of the event form. *)
Definition onChange_title (v : string) : Eff Σ unit :=
  form ← read_state eventForm;
  setEventForm (mkEventForm v (event_description form) (event_date form)
                  (event_time form) (event_type form)).

Definition onChange_event_date (v : string) : Eff Σ unit :=
  form ← read_state eventForm;
  setEventForm (mkEventForm (title form) (event_description form) v
                  (event_time form) (event_type form)).

Definition onChange_event_time (v : string) : Eff Σ unit :=
  form ← read_state eventForm;
  setEventForm (mkEventForm (title form) (event_description form) (event_date form)
                  v (event_type form)).

Definition onChange_event_type (v : string) : Eff Σ unit :=
  form ← read_state eventForm;
  setEventForm (mkEventForm (title form) (event_description form) (event_date form)
                  (event_time form) v).

Definition onChange_event_description (v : string) : Eff Σ unit :=
  form ← read_state eventForm;
  setEventForm (mkEventForm (title form) v (event_date form)
                  (event_time form) (event_type form)).

(** The rows of the two tables. *)
Definition holiday_row (holiday : Js.value) : option (list string) :=
  cells holiday
    [ Js.get "name" holiday;
      Js.get "start_date" holiday;
      Js.get "end_date" holiday;
      Js.or (Js.get "description" holiday) (Js.str "-") ].

Definition event_row (event : Js.value) : option (list string) :=
  cells event
    [ Js.get "title" event;
      Js.get "event_type" event;
      Js.get "event_date" event;
      Js.or (Js.get "event_time" event) (Js.str "-");
      Js.or (Js.get "description" event) (Js.str "-") ].

(** What the component renders: the spinner while loading, else the page
    with the error banner (for a non-empty message), the open forms, and
    the two tables under their counts. [None] is a render that throws. *)
Inductive Page :=
  | Spinner (text : string)
  | Content (banner : option string) (holidayFormOpen eventFormOpen : bool)
            (holidayCount : string) (holidayRows : Rows)
            (eventCount : string) (eventRows : Rows).

Definition render (s : State) : option Page :=
  if loading s then Some (Spinner "Loading holidays and events...")
  else
    hn ← length_prop (holidays s);
    hc ← child_text hn;
    hr ← table_body "No holidays defined" holiday_row (holidays s);
    en ← length_prop (events s);
    ec ← child_text en;
    er ← table_body "No events defined" event_row (events s);
    Some (Content (if String.eqb (error s) "" then None else Some (error s))
            (showHolidayForm s) (showEventForm s) hc hr ec er).

End HolidaysEvents.

(** ** components/admin/ClassesManagement.jsx *)

Module ClassesManagement.

Record FormData := mkFormData {
  name : string;
  grade : string;
  subject_id : string;
  teacher_id : string;
  academic_year : string;
}.

Record State := mkState {
  classes : Js.value;
  subjects : Js.value;
  teachers : Js.value;
  loading : bool;
  error : string;
  showCreateForm : bool;
  formData : FormData;
}.

Definition initial : State :=
  mkState (Js.arr []) (Js.arr []) (Js.arr []) true "" false (mkFormData "" "" "" "" "").

Definition Σ : Type := State * World.

Definition setClasses (v : Js.value) : Eff Σ unit :=
  set_state "setClasses"
    (λ s, mkState v (subjects s) (teachers s) (loading s) (error s)
                  (showCreateForm s) (formData s)).

Definition setSubjects (v : Js.value) : Eff Σ unit :=
  set_state "setSubjects"
    (λ s, mkState (classes s) v (teachers s) (loading s) (error s)
                  (showCreateForm s) (formData s)).

Definition setTeachers (v : Js.value) : Eff Σ unit :=
  set_state "setTeachers"
    (λ s, mkState (classes s) (subjects s) v (loading s) (error s)
                  (showCreateForm s) (formData s)).

Definition setLoading (b : bool) : Eff Σ unit :=
  set_state "setLoading"
    (λ s, mkState (classes s) (subjects s) (teachers s) b (error s)
                  (showCreateForm s) (formData s)).

Definition setError (msg : string) : Eff Σ unit :=
  set_state "setError"
    (λ s, mkState (classes s) (subjects s) (teachers s) (loading s) msg
                  (showCreateForm s) (formData s)).

Definition setShowCreateForm (b : bool) : Eff Σ unit :=
  set_state "setShowCreateForm"
    (λ s, mkState (classes s) (subjects s) (teachers s) (loading s) (error s)
                  b (formData s)).

Definition setFormData (f : FormData) : Eff Σ unit :=
  set_state "setFormData"
    (λ s, mkState (classes s) (subjects s) (teachers s) (loading s) (error s)
                  (showCreateForm s) f).

Definition fetch_all : Eff Σ (Js.value * Js.value * Js.value) :=
  liftW (promise_all3 schoolAdminAPI.getClasses schoolAdminAPI.getSubjects
           (schoolAdminAPI.getTeachers Js.undefined)).


(** What is left of [fetchInitialData] after its synchronous beginning:
    the three requests go out, and the try block goes on with their
    results. *)
Definition fetchInitialData_resume : Pending Σ :=
  try_finally
    (try_catch
       ('(classesData, subjectsData, teachersData) ← fetch_all;
        setClasses classesData ;;
        setSubjects subjectsData ;;
        setTeachers teachersData ;;
        setError "")
       (λ err,
          console_error "Error fetching classes data:" ;;
          setError "Failed to load classes. Please try again."))
    (setLoading false).

(** [fetchInitialData()] called without [await], up to its [await]: the
    loading flag is raised, the requests are not yet sent. *)
Definition fetchInitialData_start : Eff Σ (Pending Σ) :=
  setLoading true ;;
  mret fetchInitialData_resume.

(** The payload of [createClass], built from the form fields. *)
Definition class_payload (f : FormData) : Js.value :=
  Js.obj [ ("name", Js.str (name f));
           ("grade", Js.str (grade f));
           ("subject_id", Js.parseInt (Js.str (subject_id f)) (Some 10));
           ("teacher_id", Js.parseInt (Js.str (teacher_id f)) (Some 10));
           ("academic_year", Js.or (Js.str (academic_year f)) Js.null) ].

Definition create_failed : string := "Failed to create class".

(** The submit handler of the class form. *)
Definition handleCreateClass
  : Eff Σ (option (Pending Σ)) :=
  preventDefault ;;
  form ← read_state formData;
  try_catch
    (liftW (schoolAdminAPI.createClass (class_payload form)) ;;
     setShowCreateForm false ;;
     setFormData (mkFormData "" "" "" "" "") ;;
     pending ← fetchInitialData_start;
     alert (Js.str "Class created successfully!") ;;
     mret (Some pending))
    (λ err,
       console_error "Error creating class:" ;;
       alert (Js.or (error_detail err) (Js.str create_failed)) ;;
       mret None).

(** The [onChange] handlers of the class form. *)
Definition onChange_name (v : string) : Eff Σ unit :=
  form ← read_state formData;
  setFormData (mkFormData v (grade form) (subject_id form) (teacher_id form)
                 (academic_year form)).

Definition onChange_grade (v : string) : Eff Σ unit :=
  form ← read_state formData;
  setFormData (mkFormData (name form) v (subject_id form) (teacher_id form)
                 (academic_year form)).

Definition onChange_subject_id (v : string) : Eff Σ unit :=
  form ← read_state formData;
  setFormData (mkFormData (name form) (grade form) v (teacher_id form)
                 (academic_year form)).

Definition onChange_teacher_id (v : string) : Eff Σ unit :=
  form ← read_state formData;
  setFormData (mkFormData (name form) (grade form) (subject_id form) v
                 (academic_year form)).

Definition onChange_academic_year (v : string) : Eff Σ unit :=
  form ← read_state formData;
  setFormData (mkFormData (name form) (grade form) (subject_id form) (teacher_id form) v).

(** The "Create Class" button toggles the form; Cancel closes it. *)
Definition onClick_createClass : Eff Σ unit :=
  shown ← read_state showCreateForm;
  setShowCreateForm (negb shown).

Definition onClick_cancel : Eff Σ unit := setShowCreateForm false.

(** An [<option value={v}>label</option>]: the value the select reports
    is the string of [v], or the label when [v] is missing. *)
Record Option := mkOption {
  option_value : string;
  option_label : string;
}.

Definition option_of (v : Js.value) (label : string) : Option :=
  mkOption (match v with
            | Js.undefined | Js.null => label
            | _ => Js.to_string v
            end) label.

(** [list.map(item => <option ..>)]: only an array has [map], and a
    [null] item cannot be read from. *)
Definition options_of (label : Js.value → list Js.value) (records : Js.value)
  : option (list Option) :=
  match records with
  | Js.arr items =>
      mapM (λ item,
              texts ← cells item (label item);
              Some (option_of (Js.get "id" item) (String.concat "" texts)))
           items
  | _ => None
  end.

(** The options of the two selects, after their placeholder. *)
Definition subject_options (s : State) : option (list Option) :=
  rest ← options_of (λ subject, [Js.get "name" subject]) (subjects s);
  Some (mkOption "" "Select subject" :: rest).

Definition teacher_options (s : State) : option (list Option) :=
  rest ← options_of (λ teacher, [Js.get "name" teacher; Js.str " (";
                                 Js.get "email" teacher; Js.str ")"])
                    (teachers s);
  Some (mkOption "" "Select teacher" :: rest).

(** The value a [<select value={v}>] reports. React selects the first
    option whose value is [v]; when no option has this value the first
    option stays selected, and the select reports that option's value. *)
Definition select_value (options : list Option) (v : string) : string :=
  if bool_decide (v ∈ option_value <$> options) then v
  else from_option option_value "" (head options).

(** The class form as rendered: name, grade, subject and teacher are
    [required], the academic year is not. The two selects are rendered
    with their options, which takes the lists of the view to be arrays. *)
Definition class_form (s : State)
  : option (Form Σ (option (Pending Σ))) :=
  if loading s then None
  else if showCreateForm s
  then
    subject_list ← subject_options s;
    teacher_list ← teacher_options s;
    Some (mkForm false
            [ mkControl "text" true (name (formData s));
              mkControl "text" true (grade (formData s));
              mkControl "select" true
                (select_value subject_list (subject_id (formData s)));
              mkControl "select" true
                (select_value teacher_list (teacher_id (formData s)));
              mkControl "text" false (academic_year (formData s)) ]
            handleCreateClass)
  else None.

(** The user presses "Create Class". *)
Definition submit_class_form
  : Eff Σ (option (option (Pending Σ))) :=
  λ σ, match class_form σ.1 with
       | Some f => requestSubmit f σ
       | None => (σ, inr None)
       end.

(** A row of the classes table. *)
Definition class_row (cls : Js.value) : option (list string) :=
  cells cls
    [ Js.get "id" cls;
      Js.get "name" cls;
      Js.get "grade" cls;
      Js.get "subject_id" cls;
      Js.get "teacher_id" cls;
      Js.or (Js.get "academic_year" cls) (Js.str "-") ].

End ClassesManagement.

(** ** The client functions, enumerated

    One constructor per exported function, with its arguments; [invoke]
    runs the function it names. *)

Inductive ApiCall :=
  | authAPI_login (email password : Js.value)
  | authAPI_setPassword (token password : Js.value)
  | schoolsAPI_getAll (search : Js.value)
  | schoolsAPI_getById (schoolId : Js.value)
  | schoolsAPI_create (schoolData : Js.value)
  | schoolsAPI_update (schoolId schoolData : Js.value)
  | schoolsAPI_delete (schoolId : Js.value)
  | adminsAPI_getAll (search schoolId : Js.value)
  | adminsAPI_getById (adminId : Js.value)
  | adminsAPI_getBySchool (schoolId : Js.value)
  | adminsAPI_invite (adminData : Js.value)
  | adminsAPI_create (schoolId adminData : Js.value)
  | adminsAPI_update (adminId adminData : Js.value)
  | adminsAPI_delete (adminId : Js.value)
  | dashboardAPI_getStats
  | dashboardAPI_getUsers (search role schoolId : Js.value)
  | dashboardAPI_getUserById (userId : Js.value)
  | schoolAdminAPI_getDashboardStats
  | schoolAdminAPI_getTeachers (search : Js.value)
  | schoolAdminAPI_createTeacher (teacherData : Js.value)
  | schoolAdminAPI_updateTeacher (teacherId teacherData : Js.value)
  | schoolAdminAPI_deleteTeacher (teacherId : Js.value)
  | schoolAdminAPI_uploadTeachersExcel (file : Js.value)
  | schoolAdminAPI_getStudents (search grade : Js.value)
  | schoolAdminAPI_createStudent (studentData : Js.value)
  | schoolAdminAPI_updateStudent (studentId studentData : Js.value)
  | schoolAdminAPI_deleteStudent (studentId : Js.value)
  | schoolAdminAPI_uploadStudentsExcel (file : Js.value)
  | schoolAdminAPI_getParents (search : Js.value)
  | schoolAdminAPI_createParent (parentData : Js.value)
  | schoolAdminAPI_updateParent (parentId parentData : Js.value)
  | schoolAdminAPI_deleteParent (parentId : Js.value)
  | schoolAdminAPI_uploadParentsExcel (file : Js.value)
  | schoolAdminAPI_getSubjects
  | schoolAdminAPI_createSubject (subjectData : Js.value)
  | schoolAdminAPI_getClasses
  | schoolAdminAPI_createClass (classData : Js.value)
  | schoolAdminAPI_assignStudentToClass (classId studentId : Js.value)
  | schoolAdminAPI_getClassStudents (classId : Js.value)
  | schoolAdminAPI_removeStudentFromClass (classId studentId : Js.value)
  | schoolAdminAPI_getTimetable (classId : Js.value)
  | schoolAdminAPI_createTimetableSlot (slotData : Js.value)
  | schoolAdminAPI_getHolidays
  | schoolAdminAPI_createHoliday (holidayData : Js.value)
  | schoolAdminAPI_getEvents
  | schoolAdminAPI_createEvent (eventData : Js.value)
  | schoolAdminAPI_getAnnouncements (targetAudience : Js.value)
  | schoolAdminAPI_createAnnouncement (announcementData : Js.value)
  | schoolAdminAPI_getLessons (classId : Js.value)
  | schoolAdminAPI_getStudentParents (studentId : Js.value)
  | schoolAdminAPI_getParentStudents (parentId : Js.value)
  | schoolAdminAPI_createParentStudentLink (linkData : Js.value)
  | schoolAdminAPI_deleteParentStudentLink (linkId : Js.value)
  | schoolAdminAPI_getStudentsWithParents (search : Js.value)
  | schoolAdminAPI_getParentsWithStudents (search : Js.value)
  | schoolAdminAPI_getParentStudentStats
  | schoolAdminAPI_uploadStudentsParentsCombined (file : Js.value)
  | schoolAdminAPI_getAnalytics.

Definition invoke (c : ApiCall) : Eff World Js.value :=
  match c with
  | authAPI_login email password => authAPI.login email password
  | authAPI_setPassword token password => authAPI.setPassword token password
  | schoolsAPI_getAll search => schoolsAPI.getAll search
  | schoolsAPI_getById schoolId => schoolsAPI.getById schoolId
  | schoolsAPI_create schoolData => schoolsAPI.create schoolData
  | schoolsAPI_update schoolId schoolData => schoolsAPI.update schoolId schoolData
  | schoolsAPI_delete schoolId => schoolsAPI.delete schoolId
  | adminsAPI_getAll search schoolId => adminsAPI.getAll search schoolId
  | adminsAPI_getById adminId => adminsAPI.getById adminId
  | adminsAPI_getBySchool schoolId => adminsAPI.getBySchool schoolId
  | adminsAPI_invite adminData => adminsAPI.invite adminData
  | adminsAPI_create schoolId adminData => adminsAPI.create schoolId adminData
  | adminsAPI_update adminId adminData => adminsAPI.update adminId adminData
  | adminsAPI_delete adminId => adminsAPI.delete adminId
  | dashboardAPI_getStats => dashboardAPI.getStats
  | dashboardAPI_getUsers search role schoolId => dashboardAPI.getUsers search role schoolId
  | dashboardAPI_getUserById userId => dashboardAPI.getUserById userId
  | schoolAdminAPI_getDashboardStats => schoolAdminAPI.getDashboardStats
  | schoolAdminAPI_getTeachers search => schoolAdminAPI.getTeachers search
  | schoolAdminAPI_createTeacher teacherData => schoolAdminAPI.createTeacher teacherData
  | schoolAdminAPI_updateTeacher teacherId teacherData => schoolAdminAPI.updateTeacher teacherId teacherData
  | schoolAdminAPI_deleteTeacher teacherId => schoolAdminAPI.deleteTeacher teacherId
  | schoolAdminAPI_uploadTeachersExcel file => schoolAdminAPI.uploadTeachersExcel file
  | schoolAdminAPI_getStudents search grade => schoolAdminAPI.getStudents search grade
  | schoolAdminAPI_createStudent studentData => schoolAdminAPI.createStudent studentData
  | schoolAdminAPI_updateStudent studentId studentData => schoolAdminAPI.updateStudent studentId studentData
  | schoolAdminAPI_deleteStudent studentId => schoolAdminAPI.deleteStudent studentId
  | schoolAdminAPI_uploadStudentsExcel file => schoolAdminAPI.uploadStudentsExcel file
  | schoolAdminAPI_getParents search => schoolAdminAPI.getParents search
  | schoolAdminAPI_createParent parentData => schoolAdminAPI.createParent parentData
  | schoolAdminAPI_updateParent parentId parentData => schoolAdminAPI.updateParent parentId parentData
  | schoolAdminAPI_deleteParent parentId => schoolAdminAPI.deleteParent parentId
  | schoolAdminAPI_uploadParentsExcel file => schoolAdminAPI.uploadParentsExcel file
  | schoolAdminAPI_getSubjects => schoolAdminAPI.getSubjects
  | schoolAdminAPI_createSubject subjectData => schoolAdminAPI.createSubject subjectData
  | schoolAdminAPI_getClasses => schoolAdminAPI.getClasses
  | schoolAdminAPI_createClass classData => schoolAdminAPI.createClass classData
  | schoolAdminAPI_assignStudentToClass classId studentId => schoolAdminAPI.assignStudentToClass classId studentId
  | schoolAdminAPI_getClassStudents classId => schoolAdminAPI.getClassStudents classId
  | schoolAdminAPI_removeStudentFromClass classId studentId => schoolAdminAPI.removeStudentFromClass classId studentId
  | schoolAdminAPI_getTimetable classId => schoolAdminAPI.getTimetable classId
  | schoolAdminAPI_createTimetableSlot slotData => schoolAdminAPI.createTimetableSlot slotData
  | schoolAdminAPI_getHolidays => schoolAdminAPI.getHolidays
  | schoolAdminAPI_createHoliday holidayData => schoolAdminAPI.createHoliday holidayData
  | schoolAdminAPI_getEvents => schoolAdminAPI.getEvents
  | schoolAdminAPI_createEvent eventData => schoolAdminAPI.createEvent eventData
  | schoolAdminAPI_getAnnouncements targetAudience => schoolAdminAPI.getAnnouncements targetAudience
  | schoolAdminAPI_createAnnouncement announcementData => schoolAdminAPI.createAnnouncement announcementData
  | schoolAdminAPI_getLessons classId => schoolAdminAPI.getLessons classId
  | schoolAdminAPI_getStudentParents studentId => schoolAdminAPI.getStudentParents studentId
  | schoolAdminAPI_getParentStudents parentId => schoolAdminAPI.getParentStudents parentId
  | schoolAdminAPI_createParentStudentLink linkData => schoolAdminAPI.createParentStudentLink linkData
  | schoolAdminAPI_deleteParentStudentLink linkId => schoolAdminAPI.deleteParentStudentLink linkId
  | schoolAdminAPI_getStudentsWithParents search => schoolAdminAPI.getStudentsWithParents search
  | schoolAdminAPI_getParentsWithStudents search => schoolAdminAPI.getParentsWithStudents search
  | schoolAdminAPI_getParentStudentStats => schoolAdminAPI.getParentStudentStats
  | schoolAdminAPI_uploadStudentsParentsCombined file => schoolAdminAPI.uploadStudentsParentsCombined file
  | schoolAdminAPI_getAnalytics => schoolAdminAPI.getAnalytics
  end.

(** The two functions that end in [return true]. *)
Definition returns_true (c : ApiCall) : bool :=
  match c with
  | schoolsAPI_delete _ | adminsAPI_delete _ => true
  | _ => false
  end.

(** ** Worlds and requests used in the examples *)

Global Instance Method_eq_dec : EqDecision Method.
Proof. solve_decision. Defined.

(** The holidays posted so far, oldest first. *)
Definition posted (path : string) (history : list Request) : list Js.value :=
  omap (λ r, if decide (method r = POST ∧ url r = path) then Some (body r) else None)
       history.

(** A small backend: holidays and events are kept and listed, creating a
    class fails for an unknown teacher, the statistics need a fresh login,
    the users list is down, and a delete is acknowledged. *)
Definition toy_backend (history : list Request) (r : Request) : NetResult :=
  match method r, url r with
  | GET, "/admin/holidays" => NetReply (mkResponse 200 (Js.arr (posted "/admin/holidays" history)))
  | GET, "/admin/events" => NetReply (mkResponse 200 (Js.arr (posted "/admin/events" history)))
  | POST, "/admin/holidays" => NetReply (mkResponse 201 (body r))
  | POST, "/admin/classes" =>
      NetReply (mkResponse 400 (Js.obj [("detail", Js.str "Teacher not found")]))
  | GET, "/dashboard/stats" =>
      NetReply (mkResponse 401 (Js.obj [("detail", Js.str "Could not validate credentials")]))
  | GET, "/dashboard/users" => NetFail
  | DELETE, _ => NetReply (mkResponse 200 (Js.obj [("message", Js.str "deleted")]))
  | _, _ => NetReply (mkResponse 200 Js.null)
  end.

(** A signed-in browser on the dashboard. *)
Definition signed_in : World :=
  mkWorld {[ "token" := "abc"; "user" := "admin@school.test" ]} "/dashboard" [] toy_backend.

(** A browser whose stored token is the empty string. *)
Definition empty_token : World :=
  mkWorld {[ "token" := "" ]} "/dashboard" [] toy_backend.

(** A backend that answers every class creation with an empty detail. *)
Definition blank_detail_backend (history : list Request) (r : Request) : NetResult :=
  NetReply (mkResponse 400 (Js.obj [("detail", Js.str "")])).

Definition blank_detail_world : World :=
  mkWorld {[ "token" := "abc" ]} "/dashboard/classes" [] blank_detail_backend.

Definition school_admin : User :=
  mkUser 7 "Asha" "asha@school.test" "ADMIN" (Some 3).

Definition new_year : HolidaysEvents.HolidayForm :=
  HolidaysEvents.mkHolidayForm "New Year" "2026-01-01" "2026-01-01" "".

(** The holidays view with the form open and filled in. *)
Definition holiday_view (f : HolidaysEvents.HolidayForm) : HolidaysEvents.State :=
  HolidaysEvents.mkState (Js.arr []) (Js.arr []) false "" true false f
    HolidaysEvents.empty_eventForm.

Definition grade5 : ClassesManagement.FormData :=
  ClassesManagement.mkFormData "Grade 5A" "5" "2" "99" "2025-2026".

(** The classes view with the form open and filled in. *)
Definition class_view : ClassesManagement.State :=
  ClassesManagement.mkState (Js.arr []) (Js.arr []) (Js.arr []) false "" true grade5.

(** The storage after the 401 handling, and the whole world after it. *)
Definition logged_out (w : World) : World :=
  mkWorld (delete "user" (delete "token" (localStorage w))) "/login" (trace w) (backend w).

(** An event of the trace in a line of text, for the examples. *)
Definition method_name (m : Method) : string :=
  match m with
  | GET => "GET"
  | POST => "POST"
  | PUT => "PUT"
  | DELETE => "DELETE"
  end.

Definition describe (e : Event) : string :=
  match e with
  | EvPreventDefault => "preventDefault"
  | EvRequest r => method_name (method r) ++ " " ++ url r
  | EvAlert text => "alert " ++ text
  | EvConsoleError label => "console.error " ++ label
  | EvSet setter => setter
  end.

(** The roles the dashboard tells apart, and the route tree of each. *)
Inductive DashRole := SUPER_ADMIN | ADMIN | TEACHER.

Global Instance DashRole_eq_dec : EqDecision DashRole.
Proof. solve_decision. Defined.

Definition role_name (R : DashRole) : string :=
  match R with
  | SUPER_ADMIN => "SUPER_ADMIN"
  | ADMIN => "ADMIN"
  | TEACHER => "TEACHER"
  end.

Definition route_tree (R : DashRole) : list Route :=
  match R with
  | SUPER_ADMIN => super_admin_routes
  | ADMIN => school_admin_routes
  | TEACHER => teacher_routes
  end.

(** The request as it leaves the browser: the config of the call after
    the request interceptor has seen the stored token. *)
Definition outgoing (m : Method) (path : string) (query : gmap string Js.value)
    (payload : Js.value) (hdrs : gmap string string) (w : World) : Request :=
  api.attach_token (api.getItem "token" w) (api.config_of m path query payload hdrs).

(** The [Authorization] header the interceptor leaves on a request whose
    own headers do not name it. *)
Definition token_header (w : World) : option string :=
  match localStorage w !! "token" with
  | Some t => if String.eqb t "" then None else Some ("Bearer " ++ t)
  | None => None
  end.

(** ** The earlier dashboard (one tree, no roles) *)

Module Legacy.

(** The children of [<Routes>] before roles were told apart. *)
Definition Dashboard_routes : list Route :=
  [ mkRoute None Page.DashboardOverview;
    mkRoute (Some "/schools/:id/edit") Page.EditSchool;
    mkRoute (Some "/schools/:id") Page.SchoolDetails;
    mkRoute (Some "/schools") Page.SchoolList;
    mkRoute (Some "/create-school") Page.CreateSchool;
    mkRoute (Some "/admins/:id/edit") Page.EditAdmin;
    mkRoute (Some "/admins") Page.AdminList;
    mkRoute (Some "/create-admin") Page.CreateAdmin;
    mkRoute (Some "/users") Page.ViewAllUsers ].

Definition Dashboard (auth : AuthContext) (pathname : string) (sidebarOpen : bool)
  : View (list Route) :=
  Layout auth pathname sidebarOpen Dashboard_routes.

End Legacy.


(** The sidebar toggle of [Layout]: [setSidebarOpen(!sidebarOpen)]. *)
Definition toggle_sidebar (sidebarOpen : bool) : bool := negb sidebarOpen.

(** The nav buttons of a rendered layout; none on the access-denied page. *)
Definition nav_of {C} (v : View C) : list NavButton :=
  match v with
  | Shell sidebar _ _ => nav sidebar
  | AccessDenied _ _ => []
  end.

(** The ids of the highlighted nav buttons. *)
Definition active_ids {C} (v : View C) : list string :=
  item_id ∘ nav_item <$> filter (λ b, nav_active b = true) (nav_of v).

(** What the invitation form holds: the school is chosen in a select, so
    its id is a string. *)
Definition invitation : Js.value :=
  Js.obj [ ("name", Js.str "Asha"); ("email", Js.str "asha@school.test");
           ("school_id", Js.str "3"); ("role", Js.str "ADMIN") ].

(** A super admin, for the examples. *)
Definition root_user : User :=
  mkUser 1 "Root" "root@school.test" "SUPER_ADMIN" None.

Definition parent_user : User :=
  mkUser 9 "Ravi" "ravi@home.test" "PARENT" (Some 3).

(** Two subjects, for the examples. *)
Definition maths : Js.value := Js.obj [("id", Js.num 2); ("name", Js.str "Maths")].
Definition physics : Js.value := Js.obj [("id", Js.num 11); ("name", Js.str "Physics")].

(** Holidays and events as the backend sends them: objects with an id and
    the fields of the record, an absent description or time being [null]. *)
Record Holiday := mkHoliday {
  holiday_id : Z;
  holiday_name : string;
  holiday_start : string;
  holiday_end : string;
  holiday_description : option string;
}.

Definition holiday_json (h : Holiday) : Js.value :=
  Js.obj [ ("id", Js.num (holiday_id h));
           ("name", Js.str (holiday_name h));
           ("start_date", Js.str (holiday_start h));
           ("end_date", Js.str (holiday_end h));
           ("description", from_option Js.str Js.null (holiday_description h)) ].

Record SchoolEvent := mkSchoolEvent {
  ev_id : Z;
  ev_title : string;
  ev_description : option string;
  ev_date : string;
  ev_time : option string;
  ev_type : string;
}.

Definition event_json (e : SchoolEvent) : Js.value :=
  Js.obj [ ("id", Js.num (ev_id e));
           ("title", Js.str (ev_title e));
           ("description", from_option Js.str Js.null (ev_description e));
           ("event_date", Js.str (ev_date e));
           ("event_time", from_option Js.str Js.null (ev_time e));
           ("event_type", Js.str (ev_type e)) ].

(** The text shown for an optional field: a dash when it is absent or
    empty. *)
Definition or_dash (o : option string) : string :=
  match o with
  | Some x => if String.eqb x "" then "-" else x
  | None => "-"
  end.

(** The rows expected for a list of records: the placeholder for the
    empty list. *)
Definition rows_of {A} (empty_text : string) (row : A → list string) (l : list A) : Rows :=
  match l with
  | [] => Placeholder empty_text
  | _ => DataRows (row <$> l)
  end.

(** A backend that answers every request with status 200 and the given
    body. *)
Definition constant_backend (v : Js.value) (history : list Request) (r : Request)
  : NetResult :=
  NetReply (mkResponse 200 v).

Definition answering (v : Js.value) : World :=
  mkWorld {[ "token" := "abc" ]} "/dashboard" [] (constant_backend v).

Definition mrs_rao : Js.value :=
  Js.obj [("id", Js.num 99); ("name", Js.str "Mrs Rao"); ("email", Js.str "rao@school.test")].

(** Subjects and teachers as the backend lists them. *)
Definition subject_json (x : Z * string) : Js.value :=
  Js.obj [("id", Js.num x.1); ("name", Js.str x.2)].

Definition teacher_json (x : Z * string * string) : Js.value :=
  Js.obj [("id", Js.num x.1.1); ("name", Js.str x.1.2); ("email", Js.str x.2)].

(** * Properties *)

(** ** JavaScript conversions on sample inputs *)

Example parseInt_select_value :
  Js.parseInt (Js.str "12") (Some 10) = Js.num 12 ∧
  Js.parseInt (Js.str "") (Some 10) = Js.nan ∧
  Js.parseInt (Js.str " 7th") (Some 10) = Js.num 7 ∧
  Js.parseInt (Js.str "0x1f") None = Js.num 31 ∧
  Js.parseInt (Js.num (-7)) None = Js.num (-7).
Proof. repeat split; vm_compute; reflexivity. Qed.

Example template_literal_path :
  "/schools/" ++ Js.to_string (Js.num 42) = "/schools/42" ∧
  "/schools/" ++ Js.to_string Js.undefined = "/schools/undefined" ∧
  Js.to_string (Js.arr [Js.num 1; Js.null; Js.str "a"]) = "1,,a".
Proof. repeat split; vm_compute; reflexivity. Qed.

(** ** The axios pipeline *)

Lemma request_interceptor_run (config : Request) (w : World) :
  api.request_interceptor config w
  = (w, inr (api.attach_token (api.getItem "token" w) config)).
Proof. reflexivity. Qed.

Lemma response_rejected_run {A} (error : AxiosError) (w : World) :
  api.response_rejected (A := A) error w
  = (if api.is_401 error then logged_out w else w, inl error).
Proof.
  unfold api.response_rejected. destruct (api.is_401 error); reflexivity.
Qed.

(** One call through the instance, spelled out by the answer of the
    backend. *)
Lemma request_run m path query payload hdrs (w : World) :
  api.request m path query payload hdrs w =
  let cfg := outgoing m path query payload hdrs w in
  let w1 := emit (EvRequest cfg) w in
  match backend w (sent w) cfg with
  | NetFail => (w1, inl (mkAxiosError None))
  | NetReply r =>
      if api.validateStatus (status r) then (w1, inr r)
      else (if status r =? 401 then logged_out w1 else w1, inl (mkAxiosError (Some r)))
  end.
Proof.
  unfold api.request, try_catch, outgoing, api.request_interceptor, api.dispatch,
    api.response_fulfilled, gets, mbind, mret, Eff_bind, Eff_ret.
  cbn zeta.
  destruct (backend w _ _) as [|r].
  - reflexivity.
  - destruct (api.validateStatus (status r)); [reflexivity|].
    rewrite response_rejected_run. reflexivity.
Qed.

Lemma bind_data_run (m : Eff World Response) (f : Response → Js.value) (w : World) :
  (response ← m; mret (f response)) w =
  match m w with
  | (w', inr r) => (w', inr (f r))
  | (w', inl e) => (w', inl e)
  end.
Proof.
  unfold mbind, mret, Eff_bind, Eff_ret.
  destruct (m w) as [w' [e|r]]; reflexivity.
Qed.

(** Every client function makes exactly one call through the instance,
    with headers of its own that never name [Authorization], and turns the
    response into its result: the body, or [true] for the two deletes. *)
Lemma invoke_one_request (c : ApiCall) :
  ∃ m path query payload hdrs,
    hdrs !! "Authorization" = None ∧
    ∀ w, invoke c w =
         match api.request m path query payload hdrs w with
         | (w', inr r) => (w', inr (if returns_true c then Js.bool true else data r))
         | (w', inl e) => (w', inl e)
         end.
Proof.
  destruct c; cbn [invoke returns_true];
    eexists _, _, _, _, _; (split; [| intros w; apply (bind_data_run (api.request _ _ _ _ _))]);
    (reflexivity || (unfold multipart; apply lookup_singleton_ne; discriminate)).
Qed.

Lemma attach_token_stored (config : Request) (w : World) :
  api.attach_token (api.getItem "token" w) config =
  match localStorage w !! "token" with
  | Some t => if String.eqb t "" then config
              else api.set_header "Authorization" ("Bearer " ++ t) config
  | None => config
  end.
Proof.
  unfold api.attach_token, api.getItem.
  destruct (localStorage w !! "token") as [t|]; [|reflexivity].
  cbn. destruct (String.eqb t ""); reflexivity.
Qed.

Lemma outgoing_authorization m path query payload hdrs (w : World) :
  hdrs !! "Authorization" = None →
  headers (outgoing m path query payload hdrs w) !! "Authorization" = token_header w.
Proof.
  intros Hnone. unfold outgoing, token_header. rewrite attach_token_stored.
  assert (Hcfg : headers (api.config_of m path query payload hdrs) !! "Authorization" = None).
  { cbn. apply lookup_union_None. split; [exact Hnone|]. reflexivity. }
  destruct (localStorage w !! "token") as [t|]; [|exact Hcfg].
  destruct (String.eqb t ""); [exact Hcfg|].
  cbn. apply lookup_insert_eq.
Qed.

(** A client function, spelled out by the answer of the backend to the
    one request it sends. *)
Lemma invoke_run (c : ApiCall) (w : World) :
  ∃ req,
    headers req !! "Authorization" = token_header w ∧
    let w1 := emit (EvRequest req) w in
    invoke c w =
    match backend w (sent w) req with
    | NetFail => (w1, inl (mkAxiosError None))
    | NetReply r =>
        if api.validateStatus (status r)
        then (w1, inr (if returns_true c then Js.bool true else data r))
        else (if status r =? 401 then logged_out w1 else w1, inl (mkAxiosError (Some r)))
    end.
Proof.
  destruct (invoke_one_request c) as (m & path & query & payload & hdrs & Hh & Hrun).
  exists (outgoing m path query payload hdrs w). split.
  - by apply outgoing_authorization.
  - cbn zeta. rewrite Hrun, request_run. cbn zeta.
    destruct (backend w _ _) as [|r]; [reflexivity|].
    destruct (api.validateStatus (status r)); reflexivity.
Qed.

(** ** Session expiry *)

Lemma logged_out_storage (w : World) :
  localStorage (logged_out w) !! "token" = None ∧
  localStorage (logged_out w) !! "user" = None ∧
  location_href (logged_out w) = "/login".
Proof.
  cbn. split; [|split]; [| |reflexivity].
  - rewrite lookup_delete_ne by discriminate. apply lookup_delete_eq.
  - apply lookup_delete_eq.
Qed.

(** C3. Whatever client function is called, a response with status 401
    makes the response interceptor delete the stored token and the stored
    user and send the browser to /login, and the call rejects with that
    response; after a response of any other status, or no response, the
    stored items and the location are as they were. The interceptor does so
    for every error it is handed, and hands a fulfilled response on
    untouched. *)
Theorem unauthorized_clears_session (w : World) :
  (∀ (error : AxiosError),
     api.response_rejected (A := Response) error w
     = (if api.is_401 error then logged_out w else w, inl error)) ∧
  (∀ r : Response, api.response_fulfilled r w = (w, inr r)) ∧
  (∀ c : ApiCall, ∃ req,
     trace (invoke c w).1 = (trace w ++ [EvRequest req])%list ∧
     match backend w (sent w) req with
     | NetReply r =>
         if status r =? 401
         then localStorage (invoke c w).1 = delete "user" (delete "token" (localStorage w))
              ∧ localStorage (invoke c w).1 !! "token" = None
              ∧ localStorage (invoke c w).1 !! "user" = None
              ∧ location_href (invoke c w).1 = "/login"
              ∧ (invoke c w).2 = inl (mkAxiosError (Some r))
         else localStorage (invoke c w).1 = localStorage w
              ∧ location_href (invoke c w).1 = location_href w
     | NetFail =>
         localStorage (invoke c w).1 = localStorage w
         ∧ location_href (invoke c w).1 = location_href w
     end).
Proof.
  split; [intros error; apply response_rejected_run|].
  split; [reflexivity|].
  intros c. destruct (invoke_run c w) as (req & _ & Hrun). cbn zeta in Hrun.
  exists req. rewrite Hrun.
  destruct (backend w (sent w) req) as [|r]; [by cbn|].
  destruct (status r =? 401) eqn:H401.
  - apply Z.eqb_eq in H401. unfold api.validateStatus. rewrite H401. cbn.
    split; [reflexivity|]. split; [reflexivity|].
    pose proof (logged_out_storage (emit (EvRequest req) w)) as (Ht & Hu & _).
    cbn in Ht, Hu. by rewrite Ht, Hu.
  - destruct (api.validateStatus (status r)); by cbn.
Qed.

(** ** The bearer token on outgoing requests *)

(** With the empty string under the token key there is no token to send:
    the interceptor returns the config as it came, and no [Authorization]
    header goes out. *)
Lemma empty_token_sends_no_header :
  localStorage empty_token !! "token" = Some "" ∧
  api.request_interceptor (api.config_of GET "/schools/" ∅ Js.undefined ∅) empty_token
  = (empty_token, inr (api.config_of GET "/schools/" ∅ Js.undefined ∅)) ∧
  headers (api.config_of GET "/schools/" ∅ Js.undefined ∅) !! "Authorization" = None.
Proof.
  split; [reflexivity|]. split; reflexivity.
Qed.

(** C4. The request interceptor sets [Authorization: Bearer t] when a
    token [t] is stored, a non-empty string under the token key, and
    returns the config unchanged when there is none: nothing under the
    key, or the empty string, which is no token. Hence the one request of
    every client function carries [Bearer t] in the first case and no
    [Authorization] header at all in the other. *)
Theorem request_carries_stored_token (w : World) :
  (∀ config : Request,
     api.request_interceptor config w =
     (w, inr match localStorage w !! "token" with
             | Some t => if String.eqb t "" then config
                         else api.set_header "Authorization" ("Bearer " ++ t) config
             | None => config
             end)) ∧
  (∀ c : ApiCall, ∃ req,
     trace (invoke c w).1 = (trace w ++ [EvRequest req])%list ∧
     headers req !! "Authorization" =
     match localStorage w !! "token" with
     | Some t => if String.eqb t "" then None else Some ("Bearer " ++ t)
     | None => None
     end).
Proof.
  split.
  - intros config. rewrite request_interceptor_run. by rewrite attach_token_stored.
  - intros c. destruct (invoke_run c w) as (req & Hh & Hrun). cbn zeta in Hrun.
    exists req. split; [|exact Hh].
    rewrite Hrun. destruct (backend w (sent w) req) as [|r]; [reflexivity|].
    destruct (api.validateStatus (status r)); [reflexivity|].
    destruct (status r =? 401); reflexivity.
Qed.

(** ** What the client functions return *)

Lemma outgoing_line m path query payload hdrs (w : World) :
  method (outgoing m path query payload hdrs w) = m ∧
  url (outgoing m path query payload hdrs w) = path ∧
  params (outgoing m path query payload hdrs w) = query ∧
  body (outgoing m path query payload hdrs w) = payload.
Proof.
  unfold outgoing, api.attach_token.
  destruct (Js.truthy _); cbn; auto.
Qed.

(** A delete of the super-admin client: one DELETE request to the path of
    the record, answered by [true] on success whatever the body says. *)
Lemma delete_run (path : string) (w : World) :
  ∃ req,
    method req = DELETE ∧ url req = path ∧
    (api.delete path ;; mret (Js.bool true)) w =
    match backend w (sent w) req with
    | NetFail => (emit (EvRequest req) w, inl (mkAxiosError None))
    | NetReply r =>
        if api.validateStatus (status r)
        then (emit (EvRequest req) w, inr (Js.bool true))
        else (if status r =? 401 then logged_out (emit (EvRequest req) w)
              else emit (EvRequest req) w, inl (mkAxiosError (Some r)))
    end.
Proof.
  exists (outgoing DELETE path ∅ Js.undefined ∅ w).
  destruct (outgoing_line DELETE path ∅ Js.undefined ∅ w) as (Hm & Hu & _).
  split; [exact Hm|]. split; [exact Hu|].
  unfold api.delete.
  rewrite (bind_data_run (api.request DELETE path ∅ Js.undefined ∅) (λ _, Js.bool true)).
  rewrite request_run. cbn zeta.
  destruct (backend w _ _) as [|r]; [reflexivity|].
  destruct (api.validateStatus (status r)); reflexivity.
Qed.

(** The backend acknowledges the delete of school 5 with a JSON body;
    [schoolsAPI.delete] and [adminsAPI.delete] return [true], which is not
    that body. *)
Lemma delete_returns_true_not_body :
  backend signed_in (sent signed_in)
          (outgoing DELETE "/schools/5" ∅ Js.undefined ∅ signed_in)
  = NetReply (mkResponse 200 (Js.obj [("message", Js.str "deleted")])) ∧
  (schoolsAPI.delete (Js.num 5) signed_in).2 = inr (Js.bool true) ∧
  (adminsAPI.delete (Js.num 5) signed_in).2 = inr (Js.bool true) ∧
  Js.bool true ≠ Js.obj [("message", Js.str "deleted")].
Proof.
  split; [vm_compute; reflexivity|].
  split; [vm_compute; reflexivity|].
  split; [vm_compute; reflexivity|discriminate].
Qed.

(** C7, amended. Every client function sends one request. When the
    response has a success status the function returns its parsed body,
    except [schoolsAPI.delete] and [adminsAPI.delete], which return [true];
    when the status is not a success status, or there is no response, the
    function throws the axios error of that call. The two deletes send a
    DELETE to the path of the record. *)
Theorem client_function_result (w : World) :
  (∀ c : ApiCall, ∃ req,
     trace (invoke c w).1 = (trace w ++ [EvRequest req])%list ∧
     match backend w (sent w) req with
     | NetReply r =>
         if api.validateStatus (status r)
         then (invoke c w).2 = inr (if returns_true c then Js.bool true else data r)
         else (invoke c w).2 = inl (mkAxiosError (Some r))
     | NetFail => (invoke c w).2 = inl (mkAxiosError None)
     end) ∧
  (∀ id : Js.value, ∃ req,
     method req = DELETE ∧ url req = "/schools/" ++ Js.to_string id ∧
     ∀ r, backend w (sent w) req = NetReply r →
          api.validateStatus (status r) = true →
          (schoolsAPI.delete id w).2 = inr (Js.bool true)) ∧
  (∀ id : Js.value, ∃ req,
     method req = DELETE ∧ url req = "/schools/admins/" ++ Js.to_string id ∧
     ∀ r, backend w (sent w) req = NetReply r →
          api.validateStatus (status r) = true →
          (adminsAPI.delete id w).2 = inr (Js.bool true)).
Proof.
  split; [|split].
  - intros c. destruct (invoke_run c w) as (req & _ & Hrun). cbn zeta in Hrun.
    exists req. rewrite Hrun.
    destruct (backend w (sent w) req) as [|r]; [by cbn|].
    destruct (api.validateStatus (status r)); [by cbn|].
    destruct (status r =? 401); by cbn.
  - intros id. destruct (delete_run ("/schools/" ++ Js.to_string id) w)
      as (req & Hm & Hu & Hrun).
    exists req. split; [exact Hm|]. split; [exact Hu|].
    intros r Hr Hok. unfold schoolsAPI.delete. rewrite Hrun, Hr, Hok. reflexivity.
  - intros id. destruct (delete_run ("/schools/admins/" ++ Js.to_string id) w)
      as (req & Hm & Hu & Hrun).
    exists req. split; [exact Hm|]. split; [exact Hu|].
    intros r Hr Hok. unfold adminsAPI.delete. rewrite Hrun, Hr, Hok. reflexivity.
Qed.

(** ** Falsy filters of the list queries *)

Lemma default_null_truthy (v : Js.value) :
  Js.truthy (Js.default Js.null v) = Js.truthy v.
Proof. destruct v; reflexivity. Qed.

Lemma set_if_truthy_falsy (k : string) (v : Js.value) (query : gmap string Js.value) :
  Js.truthy v = false → set_if_truthy k (Js.default Js.null v) query = query.
Proof.
  intros Hv. unfold set_if_truthy. by rewrite default_null_truthy, Hv.
Qed.

Lemma set_if_truthy_other (k k' : string) (v : Js.value) (query : gmap string Js.value) :
  k ≠ k' → set_if_truthy k v query !! k' = query !! k'.
Proof.
  intros Hne. unfold set_if_truthy.
  destruct (Js.truthy v); [by apply lookup_insert_ne|reflexivity].
Qed.

(** A list query sends one GET whose query string is the map it built. *)
Lemma get_data_trace (path : string) (query : gmap string Js.value) (w : World) :
  ∃ req,
    method req = GET ∧ url req = path ∧ params req = query ∧
    trace ((response ← api.get path query; mret (data response)) w).1
    = (trace w ++ [EvRequest req])%list.
Proof.
  exists (outgoing GET path query Js.undefined ∅ w).
  destruct (outgoing_line GET path query Js.undefined ∅ w) as (Hm & Hu & Hq & _).
  split; [exact Hm|]. split; [exact Hu|]. split; [exact Hq|].
  unfold api.get. rewrite bind_data_run, request_run. cbn zeta.
  destruct (backend w _ _) as [|r]; [reflexivity|].
  destruct (api.validateStatus (status r)); [reflexivity|].
  destruct (status r =? 401); reflexivity.
Qed.

(** The values the claim lists are falsy. *)
Lemma listed_values_falsy :
  Forall (λ v, Js.truthy v = false) [Js.null; Js.undefined; Js.str ""; Js.num 0].
Proof. repeat constructor. Qed.

(** C9. A falsy filter argument (null, undefined, the empty string, 0 and
    every other falsy value) is left out of the query string by
    [schoolsAPI.getAll], [adminsAPI.getAll] and [dashboardAPI.getUsers]: the
    request sent has no such parameter, and two calls that differ only in
    which falsy value they pass send the same request and end in the same
    world with the same result. *)
Theorem falsy_filter_omitted (v v' : Js.value) (w : World) :
  Js.truthy v = false →
  Js.truthy v' = false →
  (schoolsAPI.getAll v w = schoolsAPI.getAll v' w ∧
   ∃ req, trace (schoolsAPI.getAll v w).1 = (trace w ++ [EvRequest req])%list ∧
          params req !! "search" = None) ∧
  (∀ s, adminsAPI.getAll v s w = adminsAPI.getAll v' s w ∧
        ∃ req, trace (adminsAPI.getAll v s w).1 = (trace w ++ [EvRequest req])%list ∧
               params req !! "search" = None) ∧
  (∀ s, adminsAPI.getAll s v w = adminsAPI.getAll s v' w ∧
        ∃ req, trace (adminsAPI.getAll s v w).1 = (trace w ++ [EvRequest req])%list ∧
               params req !! "school_id" = None) ∧
  (∀ r s, dashboardAPI.getUsers v r s w = dashboardAPI.getUsers v' r s w ∧
          ∃ req, trace (dashboardAPI.getUsers v r s w).1 = (trace w ++ [EvRequest req])%list ∧
                 params req !! "search" = None) ∧
  (∀ q s, dashboardAPI.getUsers q v s w = dashboardAPI.getUsers q v' s w ∧
          ∃ req, trace (dashboardAPI.getUsers q v s w).1 = (trace w ++ [EvRequest req])%list ∧
                 params req !! "role" = None) ∧
  (∀ q r, dashboardAPI.getUsers q r v w = dashboardAPI.getUsers q r v' w ∧
          ∃ req, trace (dashboardAPI.getUsers q r v w).1 = (trace w ++ [EvRequest req])%list ∧
                 params req !! "school_id" = None).
Proof.
  intros Hv Hv'.
  assert (Hd : Js.truthy (Js.default Js.null v) = false) by by rewrite default_null_truthy.
  assert (Hd' : Js.truthy (Js.default Js.null v') = false) by by rewrite default_null_truthy.
  repeat split; intros.
  - unfold schoolsAPI.getAll; cbn zeta. by rewrite Hd, Hd'.
  - unfold schoolsAPI.getAll; cbn zeta. rewrite Hd.
    destruct (get_data_trace "/schools/" ∅ w) as (req & _ & _ & Hq & Ht).
    exists req. split; [exact Ht|]. by rewrite Hq.
  - unfold adminsAPI.getAll; cbn zeta.
    by rewrite (set_if_truthy_falsy "search" v), (set_if_truthy_falsy "search" v').
  - unfold adminsAPI.getAll; cbn zeta.
    destruct (get_data_trace "/schools/admins"
                (set_if_truthy "school_id" (Js.default Js.null s)
                   (set_if_truthy "search" (Js.default Js.null v) ∅)) w)
      as (req & _ & _ & Hq & Ht).
    exists req. split; [exact Ht|].
    rewrite Hq, set_if_truthy_other, set_if_truthy_falsy by done. done.
  - unfold adminsAPI.getAll; cbn zeta. 
    by rewrite (set_if_truthy_falsy "school_id" v), (set_if_truthy_falsy "school_id" v').
  - unfold adminsAPI.getAll; cbn zeta.
    destruct (get_data_trace "/schools/admins"
                (set_if_truthy "school_id" (Js.default Js.null v)
                   (set_if_truthy "search" (Js.default Js.null s) ∅)) w)
      as (req & _ & _ & Hq & Ht).
    exists req. split; [exact Ht|].
    rewrite Hq, set_if_truthy_falsy, set_if_truthy_other by done. done.
  - unfold dashboardAPI.getUsers; cbn zeta. 
    by rewrite (set_if_truthy_falsy "search" v), (set_if_truthy_falsy "search" v').
  - unfold dashboardAPI.getUsers; cbn zeta.
    destruct (get_data_trace "/dashboard/users"
                (set_if_truthy "school_id" (Js.default Js.null s)
                   (set_if_truthy "role" (Js.default Js.null r)
                      (set_if_truthy "search" (Js.default Js.null v) ∅))) w)
      as (req & _ & _ & Hq & Ht).
    exists req. split; [exact Ht|].
    rewrite Hq, !set_if_truthy_other, set_if_truthy_falsy by done. done.
  - unfold dashboardAPI.getUsers; cbn zeta. 
    by rewrite (set_if_truthy_falsy "role" v), (set_if_truthy_falsy "role" v').
  - unfold dashboardAPI.getUsers; cbn zeta.
    destruct (get_data_trace "/dashboard/users"
                (set_if_truthy "school_id" (Js.default Js.null s)
                   (set_if_truthy "role" (Js.default Js.null v)
                      (set_if_truthy "search" (Js.default Js.null q) ∅))) w)
      as (req & _ & _ & Hq & Ht).
    exists req. split; [exact Ht|].
    rewrite Hq, set_if_truthy_other, set_if_truthy_falsy, set_if_truthy_other by done. done.
  - unfold dashboardAPI.getUsers; cbn zeta. 
    by rewrite (set_if_truthy_falsy "school_id" v), (set_if_truthy_falsy "school_id" v').
  - unfold dashboardAPI.getUsers; cbn zeta.
    destruct (get_data_trace "/dashboard/users"
                (set_if_truthy "school_id" (Js.default Js.null v)
                   (set_if_truthy "role" (Js.default Js.null r)
                      (set_if_truthy "search" (Js.default Js.null q) ∅))) w)
      as (req & _ & _ & Hq & Ht).
    exists req. split; [exact Ht|].
    rewrite Hq, set_if_truthy_falsy, !set_if_truthy_other by done. done.
Qed.

Lemma falsy_filter_omitted_witness :
  Js.truthy (Js.str "") = false ∧
  Js.truthy Js.null = false ∧
  schoolsAPI.getAll (Js.str "") signed_in = schoolsAPI.getAll Js.null signed_in ∧
  (∀ s, adminsAPI.getAll s (Js.str "") signed_in = adminsAPI.getAll s Js.null signed_in).
Proof.
  split; [reflexivity|]. split; [reflexivity|].
  destruct (falsy_filter_omitted (Js.str "") Js.null signed_in eq_refl eq_refl)
    as ((Hs & _) & _ & Ha & _).
  split; [exact Hs|]. intros s. exact (proj1 (Ha s)).
Defined.

(** ** The holidays and events view *)

(** [fetchData] awaited to its end is its beginning followed by what the
    beginning leaves pending. *)
Lemma fetchData_split (σ : HolidaysEvents.Σ) :
  HolidaysEvents.fetchData σ
  = ((rest ← HolidaysEvents.fetchData_start; rest) : Eff HolidaysEvents.Σ unit) σ.
Proof.
  unfold HolidaysEvents.fetchData, HolidaysEvents.fetchData_start,
    HolidaysEvents.fetchData_resume, HolidaysEvents.fetch_both,
    try_finally, try_catch, throw, liftW, HolidaysEvents.setLoading, set_state, modify,
    mbind, mret, Eff_bind, Eff_ret.
  destruct σ as [s w]. cbn [fst snd].
  destruct (promise_all2 _ _ _) as [w' [e|[h e]]]; reflexivity.
Qed.

(** C10. [fetchData] raises the loading flag and starts both list
    requests. When both succeed the two lists are replaced by the bodies
    received and the error message is cleared; when [getHolidays] or
    [getEvents] rejects, the lists held before stay as they are and the
    error message is set. Either way the loading flag ends false, nothing
    else of the state changes, and [fetchData] itself does not throw. *)
Theorem fetchData_outcome (s : HolidaysEvents.State) (w : World) :
  match schoolAdminAPI.getHolidays (emit (EvSet "setLoading") w) with
  | (w1, rh) =>
      match schoolAdminAPI.getEvents w1 with
      | (w2, re) =>
          ∃ w',
            HolidaysEvents.fetchData (s, w) =
            ((match rh, re with
              | inr h, inr e =>
                  HolidaysEvents.mkState h e false ""
                    (HolidaysEvents.showHolidayForm s) (HolidaysEvents.showEventForm s)
                    (HolidaysEvents.holidayForm s) (HolidaysEvents.eventForm s)
              | _, _ =>
                  HolidaysEvents.mkState
                    (HolidaysEvents.holidays s) (HolidaysEvents.events s) false
                    HolidaysEvents.fetch_failed
                    (HolidaysEvents.showHolidayForm s) (HolidaysEvents.showEventForm s)
                    (HolidaysEvents.holidayForm s) (HolidaysEvents.eventForm s)
              end, w'), inr tt)
      end
  end.
Proof.
  unfold HolidaysEvents.fetchData, HolidaysEvents.fetch_both, try_finally, try_catch,
    liftW, promise_all2, HolidaysEvents.setLoading, HolidaysEvents.setHolidays,
    HolidaysEvents.setEvents, HolidaysEvents.setError, console_error, set_state,
    modify, mbind, mret, Eff_bind, Eff_ret.
  cbn [fst snd].
  destruct (schoolAdminAPI.getHolidays _) as [w1 [eh|h]];
    destruct (schoolAdminAPI.getEvents w1) as [w2 [ee|e]];
    cbn [fst snd]; eexists; reflexivity.
Qed.

Lemma post_data_trace (path : string) (payload : Js.value) (w : World) :
  ∃ req,
    method req = POST ∧ url req = path ∧ body req = payload ∧
    trace ((response ← api.post path payload ∅; mret (data response)) w).1
    = (trace w ++ [EvRequest req])%list.
Proof.
  exists (outgoing POST path ∅ payload ∅ w).
  destruct (outgoing_line POST path ∅ payload ∅ w) as (Hm & Hu & _ & Hb).
  split; [exact Hm|]. split; [exact Hu|]. split; [exact Hb|].
  unfold api.post. rewrite bind_data_run, request_run. cbn zeta.
  destruct (backend w _ _) as [|r]; [reflexivity|].
  destruct (api.validateStatus (status r)); [reflexivity|].
  destruct (status r =? 401); reflexivity.
Qed.

(** The two list requests go out in the order holidays, events. *)
Lemma fetch_pair_trace (w : World) :
  ∃ get_h get_e,
    (method get_h = GET ∧ url get_h = "/admin/holidays") ∧
    (method get_e = GET ∧ url get_e = "/admin/events") ∧
    trace (promise_all2 schoolAdminAPI.getHolidays schoolAdminAPI.getEvents w).1
    = (trace w ++ [EvRequest get_h; EvRequest get_e])%list.
Proof.
  destruct (get_data_trace "/admin/holidays" ∅ w) as (gh & Hm & Hu & _ & Hth).
  fold schoolAdminAPI.getHolidays in Hth.
  destruct (get_data_trace "/admin/events" ∅ (schoolAdminAPI.getHolidays w).1)
    as (ge & Hm' & Hu' & _ & Hte).
  fold schoolAdminAPI.getEvents in Hte.
  exists gh, ge. split; [done|]. split; [done|].
  unfold promise_all2.
  destruct (schoolAdminAPI.getHolidays w) as [w1 rh]. cbn [fst] in *.
  destruct (schoolAdminAPI.getEvents w1) as [w2 re]. cbn [fst] in *.
  assert (Hw2 : trace w2 = (trace w ++ [EvRequest gh; EvRequest ge])%list).
  { rewrite Hte, Hth, <-app_assoc. reflexivity. }
  destruct rh, re; exact Hw2.
Qed.

(** What the re-fetch does when it runs from a view whose loading flag is
    up: the holidays request, then the events request, and nothing else is
    sent; it does not throw and the loading flag ends false. When both
    requests succeed the lists of the view are the bodies received. *)
Lemma fetchData_resume_run (s : HolidaysEvents.State) (w : World) :
  ∃ get_h get_e s' w' rest,
    (method get_h = GET ∧ url get_h = "/admin/holidays") ∧
    (method get_e = GET ∧ url get_e = "/admin/events") ∧
    HolidaysEvents.fetchData_resume (s, w) = ((s', w'), inr tt) ∧
    trace w' = (trace w ++ EvRequest get_h :: EvRequest get_e :: rest)%list ∧
    (∀ r, EvRequest r ∉ rest) ∧
    HolidaysEvents.loading s' = false ∧
    ∀ w2 h e,
      promise_all2 schoolAdminAPI.getHolidays schoolAdminAPI.getEvents w = (w2, inr (h, e)) →
      s' = HolidaysEvents.mkState h e false ""
             (HolidaysEvents.showHolidayForm s) (HolidaysEvents.showEventForm s)
             (HolidaysEvents.holidayForm s) (HolidaysEvents.eventForm s) ∧
      rest = [EvSet "setHolidays"; EvSet "setEvents"; EvSet "setError"; EvSet "setLoading"].
Proof.
  destruct (fetch_pair_trace w) as (get_h & get_e & Hgh & Hge & Hgt).
  unfold HolidaysEvents.fetchData_resume, HolidaysEvents.fetch_both, try_finally,
    try_catch, liftW, console_error, HolidaysEvents.setLoading,
    HolidaysEvents.setHolidays, HolidaysEvents.setEvents, HolidaysEvents.setError,
    set_state, modify, mbind, mret, Eff_bind, Eff_ret.
  cbn [fst snd].
  destruct (promise_all2 schoolAdminAPI.getHolidays schoolAdminAPI.getEvents w)
    as [w2 [err | [h e]]]; cbn [fst snd] in *.
  - eexists get_h, get_e, _, _,
      [EvConsoleError "Error fetching holidays/events:"; EvSet "setError"; EvSet "setLoading"].
    split; [exact Hgh|]. split; [exact Hge|]. split; [reflexivity|].
    split; [cbn [emit trace]; rewrite Hgt, <-!app_assoc; reflexivity|].
    split; [intros r Hin; repeat (apply elem_of_cons in Hin as [Hin | Hin]; [discriminate|]);
            by apply elem_of_nil in Hin|].
    split; [reflexivity|]. intros ? ? ? [=].
  - eexists get_h, get_e, _, _,
      [EvSet "setHolidays"; EvSet "setEvents"; EvSet "setError"; EvSet "setLoading"].
    split; [exact Hgh|]. split; [exact Hge|]. split; [reflexivity|].
    split; [cbn [emit trace]; rewrite Hgt, <-!app_assoc; reflexivity|].
    split; [intros r Hin; repeat (apply elem_of_cons in Hin as [Hin | Hin]; [discriminate|]);
            by apply elem_of_nil in Hin|].
    split; [reflexivity|]. intros ? ? ? [= _ -> ->]. split; reflexivity.
Qed.

(** The holiday is stored, and the success alert is on the screen before
    the lists have been asked for again: up to the alert the only request
    sent is the POST, and the view still holds the old, empty list. The two
    list requests follow the alert, and only then is the holiday listed. *)
Lemma alert_shown_before_refetch :
  ∃ s1 w1 refetch s2 w2,
    HolidaysEvents.handleCreateHoliday (holiday_view new_year, signed_in)
    = ((s1, w1), inr (Some refetch)) ∧
    describe <$> trace w1
    = [ "preventDefault"; "POST /admin/holidays";
        "setShowHolidayForm"; "setHolidayForm"; "setLoading";
        "alert Holiday created successfully!" ] ∧
    HolidaysEvents.holidays s1 = Js.arr [] ∧
    refetch (s1, w1) = ((s2, w2), inr tt) ∧
    describe <$> trace w2
    = [ "preventDefault"; "POST /admin/holidays";
        "setShowHolidayForm"; "setHolidayForm"; "setLoading";
        "alert Holiday created successfully!";
        "GET /admin/holidays"; "GET /admin/events";
        "setHolidays"; "setEvents"; "setError"; "setLoading" ] ∧
    HolidaysEvents.holidays s2 = Js.arr [HolidaysEvents.holidayForm_js new_year].
Proof.
  eexists _, _, _, _, _.
  split; [vm_compute; reflexivity|].
  split; [vm_compute; reflexivity|].
  split; [reflexivity|].
  split; [vm_compute; reflexivity|].
  split; vm_compute; reflexivity.
Qed.

(** C6, amended. When [createHoliday] succeeds, the submit handler closes
    the holiday form, empties every field of the holiday form, starts the
    re-fetch without waiting for it (the loading flag goes up) and shows
    the success alert, in this order, and sends nothing but the POST. The
    re-fetch it has started runs after the alert: the holidays request,
    then the events request; it does not throw, leaves the loading flag
    down, and when both requests succeed the lists of the view are the
    bodies received. *)
Theorem holiday_created_sequence (s : HolidaysEvents.State) (w w1 : World)
    (created : Js.value) :
  schoolAdminAPI.createHoliday
    (HolidaysEvents.holidayForm_js (HolidaysEvents.holidayForm s))
    (emit EvPreventDefault w) = (w1, inr created) →
  ∃ post w' get_h get_e s'' w'' rest,
    (method post = POST ∧ url post = "/admin/holidays" ∧
     body post = HolidaysEvents.holidayForm_js (HolidaysEvents.holidayForm s)) ∧
    HolidaysEvents.handleCreateHoliday (s, w) =
      ((HolidaysEvents.mkState
          (HolidaysEvents.holidays s) (HolidaysEvents.events s) true
          (HolidaysEvents.error s) false (HolidaysEvents.showEventForm s)
          (HolidaysEvents.mkHolidayForm "" "" "" "") (HolidaysEvents.eventForm s),
        w'),
       inr (Some HolidaysEvents.fetchData_resume)) ∧
    trace w' =
      (trace w ++ [ EvPreventDefault; EvRequest post;
                    EvSet "setShowHolidayForm"; EvSet "setHolidayForm";
                    EvSet "setLoading";
                    EvAlert "Holiday created successfully!" ])%list ∧
    (method get_h = GET ∧ url get_h = "/admin/holidays") ∧
    (method get_e = GET ∧ url get_e = "/admin/events") ∧
    HolidaysEvents.fetchData_resume
      (HolidaysEvents.mkState
         (HolidaysEvents.holidays s) (HolidaysEvents.events s) true
         (HolidaysEvents.error s) false (HolidaysEvents.showEventForm s)
         (HolidaysEvents.mkHolidayForm "" "" "" "") (HolidaysEvents.eventForm s),
       w') = ((s'', w''), inr tt) ∧
    trace w'' = (trace w' ++ EvRequest get_h :: EvRequest get_e :: rest)%list ∧
    (∀ r, EvRequest r ∉ rest) ∧
    HolidaysEvents.loading s'' = false ∧
    ∀ w2 h e,
      promise_all2 schoolAdminAPI.getHolidays schoolAdminAPI.getEvents w' = (w2, inr (h, e)) →
      s'' = HolidaysEvents.mkState h e false "" false (HolidaysEvents.showEventForm s)
              (HolidaysEvents.mkHolidayForm "" "" "" "") (HolidaysEvents.eventForm s).
Proof.
  intros Hcreate.
  destruct (post_data_trace "/admin/holidays"
              (HolidaysEvents.holidayForm_js (HolidaysEvents.holidayForm s))
              (emit EvPreventDefault w)) as (post & Hpm & Hpu & Hpb & Hpt).
  fold (schoolAdminAPI.createHoliday
          (HolidaysEvents.holidayForm_js (HolidaysEvents.holidayForm s))) in Hpt.
  rewrite Hcreate in Hpt. cbn [fst emit trace] in Hpt.
  set (w' := emit (EvAlert "Holiday created successfully!")
               (emit (EvSet "setLoading")
                  (emit (EvSet "setHolidayForm") (emit (EvSet "setShowHolidayForm") w1)))).
  destruct (fetchData_resume_run
              (HolidaysEvents.mkState
                 (HolidaysEvents.holidays s) (HolidaysEvents.events s) true
                 (HolidaysEvents.error s) false (HolidaysEvents.showEventForm s)
                 (HolidaysEvents.mkHolidayForm "" "" "" "") (HolidaysEvents.eventForm s)) w')
    as (get_h & get_e & s'' & w'' & rest & Hgh & Hge & Hrun & Htrace & Hrest & Hloading & Hok).
  exists post, w', get_h, get_e, s'', w'', rest.
  split; [done|].
  split.
  { unfold HolidaysEvents.handleCreateHoliday, HolidaysEvents.fetchData_start,
      try_catch, liftW, preventDefault, read_state,
      alert, gets, HolidaysEvents.setShowHolidayForm, HolidaysEvents.setHolidayForm,
      HolidaysEvents.setLoading, set_state, modify, mbind, mret, Eff_bind, Eff_ret.
    cbn [fst snd]. rewrite Hcreate. cbn [fst snd]. reflexivity. }
  split.
  { subst w'. cbn [emit trace]. rewrite Hpt, <-!app_assoc. reflexivity. }
  split; [exact Hgh|]. split; [exact Hge|]. split; [exact Hrun|].
  split; [exact Htrace|]. split; [exact Hrest|]. split; [exact Hloading|].
  intros w2 h e Hall. exact (proj1 (Hok w2 h e Hall)).
Qed.

Lemma holiday_created_sequence_witness :
  schoolAdminAPI.createHoliday (HolidaysEvents.holidayForm_js new_year)
    (emit EvPreventDefault signed_in)
  = ((schoolAdminAPI.createHoliday (HolidaysEvents.holidayForm_js new_year)
        (emit EvPreventDefault signed_in)).1,
     inr (HolidaysEvents.holidayForm_js new_year)) ∧
  ∃ w' s'' w'',
    HolidaysEvents.handleCreateHoliday (holiday_view new_year, signed_in) =
      ((HolidaysEvents.mkState (Js.arr []) (Js.arr []) true "" false false
          (HolidaysEvents.mkHolidayForm "" "" "" "") HolidaysEvents.empty_eventForm,
        w'),
       inr (Some HolidaysEvents.fetchData_resume)) ∧
    HolidaysEvents.fetchData_resume
      (HolidaysEvents.mkState (Js.arr []) (Js.arr []) true "" false false
         (HolidaysEvents.mkHolidayForm "" "" "" "") HolidaysEvents.empty_eventForm,
       w') = ((s'', w''), inr tt) ∧
    HolidaysEvents.loading s'' = false.
Proof.
  assert (Hcreate :
    schoolAdminAPI.createHoliday (HolidaysEvents.holidayForm_js new_year)
      (emit EvPreventDefault signed_in)
    = ((schoolAdminAPI.createHoliday (HolidaysEvents.holidayForm_js new_year)
          (emit EvPreventDefault signed_in)).1,
       inr (HolidaysEvents.holidayForm_js new_year))).
  { vm_compute. reflexivity. }
  split; [exact Hcreate|].
  destruct (holiday_created_sequence (holiday_view new_year) signed_in _ _ Hcreate)
    as (post & w' & get_h & get_e & s'' & w'' & rest & _ & Hrun & _ & _ & _ & Hresume & _ & _
        & Hloading & _).
  exists w', s'', w''. split; [exact Hrun|]. split; [exact Hresume|exact Hloading].
Defined.

(** ** The classes view *)

(** The backend rejects the class with an empty detail: the alert shows
    the generic text, although the response carries a detail field. *)
Lemma empty_detail_shows_fallback :
  (∀ history r,
     backend blank_detail_world history r
     = NetReply (mkResponse 400 (Js.obj [("detail", Js.str "")]))) ∧
  last (trace (ClassesManagement.handleCreateClass (class_view, blank_detail_world)).1.2)
  = Some (EvAlert "Failed to create class") ∧
  "Failed to create class" ≠ "".
Proof.
  split; [reflexivity|]. split; [vm_compute; reflexivity|discriminate].
Qed.

(** C5, amended. When [createClass] rejects, the handler logs the error
    and alerts [detail || 'Failed to create class']: a detail that is a
    non-empty string is shown exactly, and the generic text is shown when
    the response has no detail or a falsy one (such as the empty string) or
    when there is no response. The state of the view is untouched: the form
    stays open with the values entered, and nothing is re-fetched. *)
Theorem class_creation_failure (s : ClassesManagement.State) (w w1 : World)
    (err : AxiosError) :
  schoolAdminAPI.createClass
    (ClassesManagement.class_payload (ClassesManagement.formData s))
    (emit EvPreventDefault w) = (w1, inl err) →
  ClassesManagement.handleCreateClass (s, w) =
    ((s, emit (EvAlert (Js.to_string
                          (Js.or (error_detail err) (Js.str ClassesManagement.create_failed))))
           (emit (EvConsoleError "Error creating class:") w1)),
     inr None) ∧
  (∀ r d, response err = Some r → Js.get "detail" (data r) = Js.str d → d ≠ "" →
          Js.to_string (Js.or (error_detail err) (Js.str ClassesManagement.create_failed)) = d) ∧
  (Js.truthy (error_detail err) = false →
   Js.to_string (Js.or (error_detail err) (Js.str ClassesManagement.create_failed))
   = "Failed to create class").
Proof.
  intros Hcreate. split; [|split].
  - unfold ClassesManagement.handleCreateClass, try_catch, liftW, preventDefault,
      read_state, alert, console_error, gets, modify, mbind, mret, Eff_bind, Eff_ret.
    cbn [fst snd]. rewrite Hcreate. cbn [fst snd]. by destruct s.
  - intros r d Hr Hd Hne. unfold error_detail, Js.or. rewrite Hr, Hd. cbn.
    destruct (String.eqb_spec d ""); [contradiction|reflexivity].
  - intros Hfalsy. unfold Js.or. rewrite Hfalsy. reflexivity.
Qed.

Lemma class_creation_failure_witness :
  ∃ w1 err,
    schoolAdminAPI.createClass (ClassesManagement.class_payload grade5)
      (emit EvPreventDefault signed_in) = (w1, inl err) ∧
    response err = Some (mkResponse 400 (Js.obj [("detail", Js.str "Teacher not found")])) ∧
    ClassesManagement.handleCreateClass (class_view, signed_in) =
      ((class_view, emit (EvAlert "Teacher not found")
                      (emit (EvConsoleError "Error creating class:") w1)),
       inr None).
Proof.
  set (run := schoolAdminAPI.createClass (ClassesManagement.class_payload grade5)
                (emit EvPreventDefault signed_in)).
  exists run.1,
    (mkAxiosError (Some (mkResponse 400 (Js.obj [("detail", Js.str "Teacher not found")])))).
  assert (Hcreate : run = (run.1, inl (mkAxiosError (Some (mkResponse 400
                        (Js.obj [("detail", Js.str "Teacher not found")])))))).
  { vm_compute. reflexivity. }
  split; [exact Hcreate|]. split; [reflexivity|].
  exact (proj1 (class_creation_failure class_view signed_in _ _ Hcreate)).
Defined.

(** ** Required fields of the holiday form *)

(** The validation is not vacuous: with the form shown and the three
    required fields filled in, the submission runs the handler. *)
Lemma filled_form_submits (s : HolidaysEvents.State) (w : World) :
  HolidaysEvents.loading s = false →
  HolidaysEvents.showHolidayForm s = true →
  HolidaysEvents.name (HolidaysEvents.holidayForm s) ≠ "" →
  HolidaysEvents.start_date (HolidaysEvents.holidayForm s) ≠ "" →
  HolidaysEvents.end_date (HolidaysEvents.holidayForm s) ≠ "" →
  HolidaysEvents.submit_holiday_form (s, w) =
  (x ← HolidaysEvents.handleCreateHoliday; mret (Some x)) (s, w).
Proof.
  intros Hl Hs Hn Hsd Hed.
  unfold HolidaysEvents.submit_holiday_form, HolidaysEvents.holiday_form.
  cbn [fst]. rewrite Hl, Hs.
  unfold requestSubmit, checkValidity, valueMissing. cbn.
  destruct (String.eqb_spec (HolidaysEvents.name (HolidaysEvents.holidayForm s)) "");
    [contradiction|].
  destruct (String.eqb_spec (HolidaysEvents.start_date (HolidaysEvents.holidayForm s)) "");
    [contradiction|].
  destruct (String.eqb_spec (HolidaysEvents.end_date (HolidaysEvents.holidayForm s)) "");
    [contradiction|].
  reflexivity.
Qed.

(** C8. A submission of the holiday form with an empty name, start date
    or end date is stopped by the required-field validation of the browser:
    the submit handler does not run, so the state and the world are as
    before and in particular no request has been sent. *)
Theorem required_fields_block_submit (s : HolidaysEvents.State) (w : World) :
  HolidaysEvents.name (HolidaysEvents.holidayForm s) = "" ∨
  HolidaysEvents.start_date (HolidaysEvents.holidayForm s) = "" ∨
  HolidaysEvents.end_date (HolidaysEvents.holidayForm s) = "" →
  HolidaysEvents.submit_holiday_form (s, w) = ((s, w), inr None) ∧
  sent (HolidaysEvents.submit_holiday_form (s, w)).1.2 = sent w.
Proof.
  intros Hempty.
  assert (Hrun : HolidaysEvents.submit_holiday_form (s, w) = ((s, w), inr None)).
  { unfold HolidaysEvents.submit_holiday_form, HolidaysEvents.holiday_form.
    cbn [fst].
    destruct (HolidaysEvents.loading s); [reflexivity|].
    destruct (HolidaysEvents.showHolidayForm s); [|reflexivity].
    unfold requestSubmit, checkValidity, valueMissing. cbn.
    destruct Hempty as [-> | [-> | ->]]; cbn;
      rewrite ?andb_false_r; reflexivity. }
  by rewrite Hrun.
Qed.

Lemma required_fields_block_submit_witness :
  HolidaysEvents.start_date (HolidaysEvents.mkHolidayForm "Diwali" "" "2026-11-09" "") = "" ∧
  HolidaysEvents.submit_holiday_form
    (holiday_view (HolidaysEvents.mkHolidayForm "Diwali" "" "2026-11-09" ""), signed_in)
  = ((holiday_view (HolidaysEvents.mkHolidayForm "Diwali" "" "2026-11-09" ""), signed_in),
     inr None).
Proof.
  split; [reflexivity|].
  apply (required_fields_block_submit
           (holiday_view (HolidaysEvents.mkHolidayForm "Diwali" "" "2026-11-09" ""))
           signed_in).
  right. left. reflexivity.
Defined.

(** ** The layout gate *)

(** The gate of [Layout]: a false flag gives the access-denied page. *)
Lemma layout_flag_false {C : Type} (auth : AuthContext) (pathname : string)
    (sidebarOpen : bool) (children : C) :
  isSuperAdmin auth = false →
  Layout auth pathname sidebarOpen children
  = AccessDenied "Access Denied" "You don't have permission to access this page.".
Proof. intros Hflag. unfold Layout. by rewrite Hflag. Qed.

(** C2. When the auth context says the viewer is not a super admin,
    [Layout] renders the access-denied page, whatever the location, the
    sidebar state and the children: never the shell with the sidebar, the
    header and the children in it. *)
Theorem layout_denies_non_super_admin {C : Type} (auth : AuthContext)
    (pathname : string) (sidebarOpen : bool) (children : C) :
  isSuperAdmin auth = false →
  Layout auth pathname sidebarOpen children
  = AccessDenied "Access Denied" "You don't have permission to access this page." ∧
  ∀ sidebar header main, Layout auth pathname sidebarOpen children ≠ Shell sidebar header main.
Proof.
  intros Hflag. rewrite (layout_flag_false auth pathname sidebarOpen children Hflag).
  split; [reflexivity|discriminate].
Qed.

Lemma layout_denies_non_super_admin_witness :
  isSuperAdmin (AuthProvider_value (Some school_admin)) = false ∧
  Layout (AuthProvider_value (Some school_admin)) "/dashboard/schools" true
         super_admin_routes
  = AccessDenied "Access Denied" "You don't have permission to access this page.".
Proof.
  split; [reflexivity|].
  apply (layout_denies_non_super_admin (AuthProvider_value (Some school_admin))
           "/dashboard/schools" true super_admin_routes).
  reflexivity.
Defined.

(** With the flag derived from the role as the provider does, every user
    whose role is not SUPER_ADMIN, and a missing user, is denied. *)
Lemma layout_denies_other_roles {C : Type} (u : option User) (pathname : string)
    (sidebarOpen : bool) (children : C) :
  (∀ x, u = Some x → role x ≠ "SUPER_ADMIN") →
  Layout (AuthProvider_value u) pathname sidebarOpen children
  = AccessDenied "Access Denied" "You don't have permission to access this page.".
Proof.
  intros Hrole. apply layout_flag_false. destruct u as [x|]; [|reflexivity].
  cbn. destruct (String.eqb_spec (role x) "SUPER_ADMIN") as [Heq|]; [|reflexivity].
  by destruct (Hrole x eq_refl).
Qed.

(** ** Role-based routing *)

Lemma role_is_name (R R' : DashRole) (u : User) :
  role u = role_name R → role_is (role_name R') (Some u) = bool_decide (R = R').
Proof.
  intros Hrole. cbn. rewrite Hrole. by destruct R, R'.
Qed.

Lemma dashboard_routes_tree (R : DashRole) (u : User) :
  role u = role_name R → Dashboard_routes (Some u) = route_tree R.
Proof.
  intros Hrole. unfold Dashboard_routes.
  change "ADMIN" with (role_name ADMIN). change "TEACHER" with (role_name TEACHER).
  rewrite !(role_is_name R) by exact Hrole. by destruct R.
Qed.

(** No page component, and so no route, belongs to the trees of two
    roles. *)
Lemma route_trees_disjoint (R R' : DashRole) :
  R' ≠ R →
  Forall (λ r, Forall (λ r', element r ≠ element r') (route_tree R')) (route_tree R).
Proof.
  intros Hne. destruct R, R'; try (by destruct Hne); compute_done.
Qed.

Lemma route_trees_apart (R R' : DashRole) (r r' : Route) :
  R' ≠ R → r ∈ route_tree R → r' ∈ route_tree R' →
  r ≠ r' ∧ element r ≠ element r'.
Proof.
  intros Hne Hr Hr'.
  pose proof (route_trees_disjoint R R' Hne) as Hall.
  rewrite Forall_forall in Hall. specialize (Hall r Hr).
  rewrite Forall_forall in Hall. specialize (Hall r' Hr').
  split; [intros ->; by apply Hall|exact Hall].
Qed.

(** The routes are the children of [Layout]: without the super-admin
    flag the dashboard shows the access-denied page, whatever tree was
    chosen. *)
Lemma dashboard_behind_layout (auth : AuthContext) (pathname : string)
    (sidebarOpen : bool) :
  isSuperAdmin auth = false →
  Dashboard auth pathname sidebarOpen
  = AccessDenied "Access Denied" "You don't have permission to access this page.".
Proof. intros Hflag. unfold Dashboard. by apply layout_flag_false. Qed.

(** Any role other than ADMIN and TEACHER, and a missing user, falls to
    the last branch: the super-admin tree. *)
Lemma dashboard_routes_default (u : option User) :
  role_is "ADMIN" u = false → role_is "TEACHER" u = false →
  Dashboard_routes u = super_admin_routes.
Proof. intros Ha Ht. unfold Dashboard_routes. by rewrite Ha, Ht. Qed.

(** The trees of the school admin and of the teacher use some of the same
    path patterns; the page mounted there differs with the role, and the
    super-admin tree has no such path. *)
Lemma shared_pattern_own_page :
  mkRoute (Some "/classes") Page.ClassesManagement ∈ route_tree ADMIN ∧
  mkRoute (Some "/classes") Page.MyClasses ∈ route_tree TEACHER ∧
  Forall (λ r, path r ≠ Some "/classes") (route_tree SUPER_ADMIN).
Proof.
  split; [compute_done|]. split; [compute_done|].
  repeat constructor; discriminate.
Qed.

(** A school admin opens the dashboard: the layout's check fails, the
    access-denied page is shown and no route is mounted, so the routes of
    the school-admin tree are not. *)
Lemma admin_dashboard_mounts_nothing :
  role school_admin = role_name ADMIN ∧
  isSuperAdmin (AuthProvider_value (Some school_admin)) = false ∧
  Dashboard (AuthProvider_value (Some school_admin)) "/dashboard/classes" true
  = AccessDenied "Access Denied" "You don't have permission to access this page." ∧
  mounted (Dashboard (AuthProvider_value (Some school_admin)) "/dashboard/classes" true)
  = [] ∧
  mkRoute (Some "/classes") Page.ClassesManagement ∈ route_tree ADMIN ∧
  mounted (Dashboard (AuthProvider_value (Some school_admin)) "/dashboard/classes" true)
  ≠ route_tree ADMIN.
Proof.
  split; [reflexivity|]. split; [reflexivity|]. split; [reflexivity|].
  split; [reflexivity|]. split; [compute_done|]. discriminate.
Qed.

(** C1, amended. For a user whose role is SUPER_ADMIN, ADMIN or TEACHER
    the dashboard chooses exactly the route tree of that role, by the role
    alone (ADMIN the school-admin tree, TEACHER the teacher tree,
    SUPER_ADMIN the super-admin tree), and renders it as the children of
    the layout. The tree is mounted when the layout's [isSuperAdmin] check
    passes; when it fails the access-denied page is shown and no route is
    mounted. The trees are disjoint as sets of route-to-page mappings, and
    even in their pages; so a route that is mounted is one of the role's
    own tree and belongs to no other role's tree, and its page is a page of
    no other role. *)
Theorem dashboard_routes_by_role (R : DashRole) (auth : AuthContext) (u : User)
    (pathname : string) (sidebarOpen : bool) :
  user auth = Some u →
  role u = role_name R →
  Dashboard_routes (user auth) = route_tree R ∧
  Dashboard auth pathname sidebarOpen = Layout auth pathname sidebarOpen (route_tree R) ∧
  mounted (Dashboard auth pathname sidebarOpen)
  = (if isSuperAdmin auth then route_tree R else []) ∧
  (isSuperAdmin auth = false →
   Dashboard auth pathname sidebarOpen
   = AccessDenied "Access Denied" "You don't have permission to access this page.") ∧
  (∀ u', role u' = role u → Dashboard_routes (Some u') = Dashboard_routes (Some u)) ∧
  (∀ R' r r', R' ≠ R → r ∈ route_tree R → r' ∈ route_tree R' →
              r ≠ r' ∧ element r ≠ element r') ∧
  (∀ r, r ∈ mounted (Dashboard auth pathname sidebarOpen) →
        r ∈ route_tree R ∧
        ∀ R', R' ≠ R →
              (r ∉ route_tree R') ∧ (∀ r', r' ∈ route_tree R' → element r' ≠ element r)).
Proof.
  intros Hu Hrole.
  pose proof (dashboard_routes_tree R u Hrole) as Htree.
  assert (Hdash : Dashboard auth pathname sidebarOpen
                  = Layout auth pathname sidebarOpen (route_tree R)).
  { unfold Dashboard. by rewrite Hu, Htree. }
  assert (Hmounted : mounted (Dashboard auth pathname sidebarOpen)
                     = if isSuperAdmin auth then route_tree R else []).
  { rewrite Hdash. unfold Layout. by destruct (isSuperAdmin auth). }
  split; [by rewrite Hu|]. split; [exact Hdash|]. split; [exact Hmounted|].
  split; [apply dashboard_behind_layout|].
  split; [|split].
  - intros u' Hsame. rewrite Htree. apply dashboard_routes_tree. by rewrite Hsame.
  - intros R' r r' Hne Hr Hr'. by apply (route_trees_apart R R').
  - intros r Hin. rewrite Hmounted in Hin.
    destruct (isSuperAdmin auth); [|by apply elem_of_nil in Hin].
    split; [exact Hin|]. intros R' Hne. split.
    + intros Hin'. by destruct (route_trees_apart R R' r r Hne Hin Hin').
    + intros r' Hr' Heq.
      destruct (route_trees_apart R R' r r' Hne Hin Hr') as [_ Hel]. by apply Hel.
Qed.

Lemma dashboard_routes_by_role_witness :
  (role root_user = role_name SUPER_ADMIN ∧
   mounted (Dashboard (AuthProvider_value (Some root_user)) "/dashboard/schools" true)
   = super_admin_routes ∧
   mkRoute (Some "/schools") Page.SchoolList ∉ route_tree ADMIN) ∧
  (role school_admin = role_name ADMIN ∧
   Dashboard_routes (Some school_admin) = school_admin_routes ∧
   Dashboard (AuthProvider_value (Some school_admin)) "/dashboard/classes" true
   = Layout (AuthProvider_value (Some school_admin)) "/dashboard/classes" true
       school_admin_routes ∧
   mounted (Dashboard (AuthProvider_value (Some school_admin)) "/dashboard/classes" true)
   = []).
Proof.
  split.
  - destruct (dashboard_routes_by_role SUPER_ADMIN (AuthProvider_value (Some root_user))
                root_user "/dashboard/schools" true eq_refl eq_refl)
      as (_ & _ & Hmounted & _ & _ & _ & Hown).
    split; [reflexivity|]. split; [exact Hmounted|].
    assert (Hin : mkRoute (Some "/schools") Page.SchoolList
                  ∈ mounted (Dashboard (AuthProvider_value (Some root_user))
                               "/dashboard/schools" true)).
    { rewrite Hmounted. cbn. do 3 apply list_elem_of_further. apply list_elem_of_here. }
    destruct (Hown _ Hin) as [_ Hother].
    refine (proj1 (Hother ADMIN _)). discriminate.
  - destruct (dashboard_routes_by_role ADMIN (AuthProvider_value (Some school_admin))
                school_admin "/dashboard/classes" true eq_refl eq_refl)
      as (Htree & Hdash & Hmounted & _).
    split; [reflexivity|]. split; [exact Htree|]. split; [exact Hdash|exact Hmounted].
Defined.

(** ** Numbers through strings and back *)

Lemma digit_val_pretty_char (d : N) :
  (d < 10)%N → Js.digit_val (pretty_N_char d) = Some (Z.of_N d).
Proof.
  intros Hd. remember (N.to_nat d) as n eqn:Hn.
  assert (Hdn : d = N.of_nat n) by lia. subst d. clear Hn.
  do 10 (destruct n as [|n]; [reflexivity|]). lia.
Qed.

Lemma pretty_char_not_space (d : N) : Js.is_space (pretty_N_char d) = false.
Proof.
  unfold pretty_N_char. by repeat case_match.
Qed.

Lemma digits_pretty_char (d : N) (acc : option Z) (s : string) :
  (d < 10)%N →
  Js.digits 10 acc (String (pretty_N_char d) s)
  = Js.digits 10 (Some (10 * from_option id 0 acc + Z.of_N d)) s.
Proof.
  intros Hd. cbn [Js.digits]. rewrite digit_val_pretty_char by exact Hd.
  destruct (Z.ltb_spec (Z.of_N d) 10); [reflexivity|lia].
Qed.

(** Reading back the digits that [pretty] wrote in front of [s]. *)
Lemma digits_pretty_go (x : N) (s : string) :
  Js.digits 10 None (pretty_N_go x s)
  = if decide (x = 0)%N then Js.digits 10 None s
    else Js.digits 10 (Some (Z.of_N x)) s.
Proof.
  revert s. induction (N.lt_wf_0 x) as [x _ IH]. intros s.
  destruct (decide (x = 0)%N) as [->|Hx]; [reflexivity|].
  rewrite pretty_N_go_step by lia.
  assert (Hlt : (x `div` 10 < x)%N) by (apply N.div_lt; lia).
  rewrite (IH _ Hlt).
  assert (Hmod : (x `mod` 10 < 10)%N) by (apply N.mod_lt; lia).
  pose proof (N.div_mod x 10 ltac:(lia)) as Hdm.
  rewrite !digits_pretty_char by exact Hmod.
  destruct (decide (x `div` 10 = 0)%N) as [H0|H0]; cbn [from_option id]; f_equal; f_equal; lia.
Qed.

(** The first characters of a printed positive number: one digit and then
    the rest given, or two digits. *)
Lemma pretty_go_head (x : N) (s : string) :
  (0 < x)%N →
  (∃ d, (d < 10)%N ∧ pretty_N_go x s = String (pretty_N_char d) s) ∨
  (∃ d1 d2 rest, (d1 < 10)%N ∧ (d2 < 10)%N ∧
     pretty_N_go x s = String (pretty_N_char d1) (String (pretty_N_char d2) rest)).
Proof.
  revert s. induction (N.lt_wf_0 x) as [x _ IH]. intros s Hx.
  rewrite pretty_N_go_step by exact Hx.
  assert (Hmod : (x `mod` 10 < 10)%N) by (apply N.mod_lt; lia).
  destruct (decide (x `div` 10 = 0)%N) as [H0|H0].
  - rewrite H0, pretty_N_go_0. left. eauto.
  - right.
    assert (Hlt : (x `div` 10 < x)%N) by (apply N.div_lt; lia).
    assert (Hpos : (0 < x `div` 10)%N) by (by apply N.neq_0_lt_0).
    destruct (IH _ Hlt (String (pretty_N_char (x `mod` 10)) s) Hpos)
      as [(d & Hd & ->) | (d1 & d2 & rest & Hd1 & Hd2 & ->)]; eauto 10.
Qed.

Lemma pretty_char_plain (d : N) (rest : string) :
  Js.skip_spaces (String (pretty_N_char d) rest) = String (pretty_N_char d) rest ∧
  Js.strip_sign (String (pretty_N_char d) rest) = (1, String (pretty_N_char d) rest) ∧
  Js.strip_hex (String (pretty_N_char d) "") = None ∧
  ∀ d' rest', Js.strip_hex (String (pretty_N_char d) (String (pretty_N_char d') rest')) = None.
Proof.
  unfold pretty_N_char. repeat split; intros; by repeat case_match.
Qed.

(** A printed positive number has no leading space, no sign and no hex
    prefix, and its digits read back as the number. *)
Lemma pretty_positive_plain (p : positive) :
  Js.skip_spaces (pretty (N.pos p)) = pretty (N.pos p) ∧
  Js.strip_sign (pretty (N.pos p)) = (1, pretty (N.pos p)) ∧
  Js.strip_hex (pretty (N.pos p)) = None ∧
  Js.digits 10 None (pretty (N.pos p)) = Some (Z.pos p).
Proof.
  assert (Hpretty : pretty (N.pos p) = pretty_N_go (N.pos p) "") by done.
  rewrite Hpretty.
  split; [|split; [|split]].
  - destruct (pretty_go_head (N.pos p) "" ltac:(done))
      as [(d & _ & ->) | (d1 & d2 & rest & _ & _ & ->)]; apply pretty_char_plain.
  - destruct (pretty_go_head (N.pos p) "" ltac:(done))
      as [(d & _ & ->) | (d1 & d2 & rest & _ & _ & ->)]; apply pretty_char_plain.
  - destruct (pretty_go_head (N.pos p) "" ltac:(done))
      as [(d & _ & ->) | (d1 & d2 & rest & _ & _ & ->)].
    + exact (proj1 (proj2 (proj2 (pretty_char_plain d "")))).
    + exact (proj2 (proj2 (proj2 (pretty_char_plain d1 ""))) d2 rest).
  - rewrite digits_pretty_go. by destruct (decide (N.pos p = 0%N)).
Qed.

(** [parseInt] undoes the printing of an integer, with radix 10 and with
    no radix given. *)
Lemma parseInt_pretty (z : Z) (radix : option Z) :
  radix = Some 10 ∨ radix = None →
  Js.parseInt (Js.str (pretty z)) radix = Js.num z.
Proof.
  intros Hradix. unfold Js.parseInt. cbn [Js.to_string].
  destruct z as [|p|p].
  - by destruct Hradix as [-> | ->].
  - change (pretty (Z.pos p)) with (pretty (N.pos p)).
    destruct (pretty_positive_plain p) as (-> & -> & -> & ->).
    by destruct Hradix as [-> | ->].
  - change (pretty (Z.neg p)) with (String "-"%char (pretty (N.pos p))).
    change (Js.skip_spaces (String "-"%char (pretty (N.pos p))))
      with (String "-"%char (pretty (N.pos p))).
    change (Js.strip_sign (String "-"%char (pretty (N.pos p))))
      with (-1, pretty (N.pos p)).
    cbn iota beta.
    destruct (pretty_positive_plain p) as (_ & _ & -> & ->).
    by destruct Hradix as [-> | ->].
Qed.

(** ** More on the client: sessions, headers, payloads *)

Lemma token_header_absent (w : World) :
  localStorage w !! "token" = None → token_header w = None.
Proof. intros Hnone. unfold token_header. by rewrite Hnone. Qed.

(** A client function never stores a token. *)
Lemma invoke_keeps_token_absent (c : ApiCall) (w : World) :
  localStorage w !! "token" = None → localStorage (invoke c w).1 !! "token" = None.
Proof.
  intros Hnone. destruct (invoke_run c w) as (req & _ & Hrun). cbn zeta in Hrun.
  rewrite Hrun. destruct (backend w (sent w) req) as [|r]; [exact Hnone|].
  destruct (api.validateStatus (status r)); [exact Hnone|].
  destruct (status r =? 401); [|exact Hnone].
  cbn. rewrite lookup_delete_ne by discriminate. apply lookup_delete_eq.
Qed.

(** X1. Once a call has been answered with 401, the next call of any
    client function goes out without an [Authorization] header, whatever
    token was stored before, and leaves the storage without a token. *)
Theorem cleared_session_sends_no_token (c1 c2 : ApiCall) (w : World)
    (req1 : Request) (r : Response) :
  trace (invoke c1 w).1 = (trace w ++ [EvRequest req1])%list →
  backend w (sent w) req1 = NetReply r →
  status r = 401 →
  ∃ req2,
    trace (invoke c2 (invoke c1 w).1).1
    = (trace w ++ [EvRequest req1; EvRequest req2])%list ∧
    headers req2 !! "Authorization" = None ∧
    localStorage (invoke c2 (invoke c1 w).1).1 !! "token" = None.
Proof.
  intros Htrace Hreply H401.
  destruct (invoke_run c1 w) as (req & _ & Hrun). cbn zeta in Hrun.
  assert (Hreq : req = req1).
  { assert (Ht : trace (invoke c1 w).1 = (trace w ++ [EvRequest req])%list).
    { rewrite Hrun. destruct (backend w (sent w) req) as [|r0]; [reflexivity|].
      destruct (api.validateStatus (status r0)); [reflexivity|].
      destruct (status r0 =? 401); reflexivity. }
    rewrite Htrace in Ht. apply app_inj_tail in Ht as [_ Ht]. congruence. }
  subst req. rewrite Hreply in Hrun.
  unfold api.validateStatus in Hrun. rewrite H401 in Hrun. cbn in Hrun.
  assert (Hgone : localStorage (invoke c1 w).1 !! "token" = None).
  { rewrite Hrun. cbn. rewrite lookup_delete_ne by discriminate. apply lookup_delete_eq. }
  destruct (invoke_run c2 (invoke c1 w).1) as (req2 & Hh & Hrun2). cbn zeta in Hrun2.
  exists req2. split; [|split].
  - assert (Ht : trace (invoke c2 (invoke c1 w).1).1
                 = (trace (invoke c1 w).1 ++ [EvRequest req2])%list).
    { rewrite Hrun2. destruct (backend _ _ req2) as [|r0]; [reflexivity|].
      destruct (api.validateStatus (status r0)); [reflexivity|].
      destruct (status r0 =? 401); reflexivity. }
    rewrite Ht, Htrace, <-app_assoc. reflexivity.
  - rewrite Hh. by apply token_header_absent.
  - by apply invoke_keeps_token_absent.
Qed.

Lemma cleared_session_sends_no_token_witness :
  ∃ req1 req2,
    backend signed_in (sent signed_in) req1
    = NetReply (mkResponse 401
                  (Js.obj [("detail", Js.str "Could not validate credentials")])) ∧
    headers req1 !! "Authorization" = Some "Bearer abc" ∧
    trace (invoke (schoolsAPI_getAll Js.null) (invoke dashboardAPI_getStats signed_in).1).1
    = [EvRequest req1; EvRequest req2] ∧
    headers req2 !! "Authorization" = None.
Proof.
  set (req1 := outgoing GET "/dashboard/stats" ∅ Js.undefined ∅ signed_in).
  assert (Htrace : trace (invoke dashboardAPI_getStats signed_in).1
                   = (trace signed_in ++ [EvRequest req1])%list).
  { vm_compute. reflexivity. }
  assert (Hreply : backend signed_in (sent signed_in) req1
                   = NetReply (mkResponse 401
                       (Js.obj [("detail", Js.str "Could not validate credentials")]))).
  { vm_compute. reflexivity. }
  destruct (cleared_session_sends_no_token dashboardAPI_getStats (schoolsAPI_getAll Js.null)
              signed_in req1 _ Htrace Hreply eq_refl) as (req2 & Ht & Hh & _).
  exists req1, req2. split; [exact Hreply|]. split; [vm_compute; reflexivity|].
  split; [exact Ht|exact Hh].
Defined.





(** X3. Called with form data (anything but [null] and [undefined]),
    [adminsAPI.invite] posts an object with exactly three fields: the name
    and the email of the form data as they are, and the school id read as
    an integer. Nothing else of the form data is sent (no role, no
    password). A school id that is a safe integer, given as a number or as
    its decimal string, arrives as that number; a missing or empty one
    arrives as NaN. *)
Theorem invite_sends_three_fields (adminData : Js.value) (w : World) :
  adminData ≠ Js.null →
  adminData ≠ Js.undefined →
  ∃ req,
    trace (adminsAPI.invite adminData w).1 = (trace w ++ [EvRequest req])%list ∧
    method req = POST ∧ url req = "/super/invite-admin" ∧
    Js.get "name" (body req) = Js.get "name" adminData ∧
    Js.get "email" (body req) = Js.get "email" adminData ∧
    (∀ k, k ≠ "name" → k ≠ "email" → k ≠ "school_id" →
          Js.get k (body req) = Js.undefined) ∧
    (∀ n, Js.isSafeInteger n = true →
          Js.get "school_id" adminData = Js.str (pretty n) ∨
          Js.get "school_id" adminData = Js.num n →
          Js.get "school_id" (body req) = Js.num n) ∧
    (Js.get "school_id" adminData = Js.undefined ∨
     Js.get "school_id" adminData = Js.str "" →
     Js.get "school_id" (body req) = Js.nan).
Proof.
  intros _ _.
  destruct (post_data_trace "/super/invite-admin"
              (Js.obj [("name", Js.get "name" adminData);
                       ("email", Js.get "email" adminData);
                       ("school_id", Js.parseInt (Js.get "school_id" adminData) None)]) w)
    as (req & Hm & Hu & Hb & Ht).
  exists req. split; [exact Ht|]. split; [exact Hm|]. split; [exact Hu|].
  rewrite Hb. split; [reflexivity|]. split; [reflexivity|]. split; [|split].
  - intros k Hn He Hs. cbn.
    destruct (String.eqb_spec k "school_id"); [contradiction|].
    destruct (String.eqb_spec k "email"); [contradiction|].
    destruct (String.eqb_spec k "name"); [contradiction|reflexivity].
  - intros n _ [Hid | Hid]; cbn; rewrite Hid.
    + apply parseInt_pretty. by right.
    + apply (parseInt_pretty n None). by right.
  - intros [Hid | Hid]; cbn; rewrite Hid; reflexivity.
Qed.

Lemma invite_sends_three_fields_witness :
  ∃ req,
    trace (adminsAPI.invite invitation signed_in).1 = [EvRequest req] ∧
    Js.get "name" (body req) = Js.str "Asha" ∧
    Js.get "school_id" (body req) = Js.num 3 ∧
    Js.get "role" (body req) = Js.undefined.
Proof.
  destruct (invite_sends_three_fields invitation signed_in)
    as (req & Htrace & _ & _ & Hname & _ & Hother & Hid & _);
    [discriminate | discriminate |].
  exists req. split; [exact Htrace|]. split; [exact Hname|].
  split; [|by apply Hother].
  apply (Hid 3); [reflexivity|]. by left.
Defined.

(** ** Ids chosen in the class form *)

(** X4. Choosing a subject and a teacher whose ids are safe integers puts
    the strings of those ids into the form, and the payload of
    [createClass] carries them as the same integers again; name and grade
    go as typed, and an academic year left empty goes as [null]. *)
Theorem selected_ids_reach_payload (s : ClassesManagement.State) (w : World)
    (subject teacher : Js.value) (n m : Z) (subject_text teacher_text : string) :
  Js.get "id" subject = Js.num n →
  Js.get "id" teacher = Js.num m →
  Js.isSafeInteger n = true →
  Js.isSafeInteger m = true →
  ∃ s' w',
    (ClassesManagement.onChange_subject_id
       (ClassesManagement.option_value
          (ClassesManagement.option_of (Js.get "id" subject) subject_text)) ;;
     ClassesManagement.onChange_teacher_id
       (ClassesManagement.option_value
          (ClassesManagement.option_of (Js.get "id" teacher) teacher_text))) (s, w)
    = ((s', w'), inr tt) ∧
    ClassesManagement.class_payload (ClassesManagement.formData s') =
    Js.obj [ ("name", Js.str (ClassesManagement.name (ClassesManagement.formData s)));
             ("grade", Js.str (ClassesManagement.grade (ClassesManagement.formData s)));
             ("subject_id", Js.num n);
             ("teacher_id", Js.num m);
             ("academic_year",
              if String.eqb (ClassesManagement.academic_year (ClassesManagement.formData s)) ""
              then Js.null
              else Js.str (ClassesManagement.academic_year (ClassesManagement.formData s))) ].
Proof.
  intros Hn Hm _ _. rewrite Hn, Hm. eexists _, _. split; [reflexivity|].
  unfold ClassesManagement.class_payload. cbn.
  rewrite !parseInt_pretty by by left.
  unfold Js.or. cbn.
  by destruct (String.eqb _ "").
Qed.

Lemma selected_ids_reach_payload_witness :
  Js.get "id" maths = Js.num 2 ∧
  Js.get "id" mrs_rao = Js.num 99 ∧
  ∃ s' w',
    (ClassesManagement.onChange_subject_id
       (ClassesManagement.option_value
          (ClassesManagement.option_of (Js.get "id" maths) "Maths")) ;;
     ClassesManagement.onChange_teacher_id
       (ClassesManagement.option_value
          (ClassesManagement.option_of (Js.get "id" mrs_rao) "Mrs Rao (rao@school.test)")))
      (class_view, signed_in)
    = ((s', w'), inr tt) ∧
    Js.get "subject_id" (ClassesManagement.class_payload (ClassesManagement.formData s'))
    = Js.num 2.
Proof.
  split; [reflexivity|]. split; [reflexivity|].
  destruct (selected_ids_reach_payload class_view signed_in maths mrs_rao 2 99
              "Maths" "Mrs Rao (rao@school.test)" eq_refl eq_refl eq_refl eq_refl)
    as (s' & w' & Hrun & Hpayload).
  exists s', w'. split; [exact Hrun|]. by rewrite Hpayload.
Defined.

(** ** The sidebar of the layout *)

Lemma append_nil (s : string) : "" ++ s = s.
Proof. reflexivity. Qed.

Lemma append_cons (a : ascii) (s t : string) : String a s ++ t = String a (s ++ t).
Proof. reflexivity. Qed.

Lemma string_app_assoc (a b c : string) : (a ++ b) ++ c = a ++ b ++ c.
Proof.
  induction a as [|x a IH]; [reflexivity|].
  change (String x ((a ++ b) ++ c) = String x (a ++ b ++ c)). by rewrite IH.
Qed.

Lemma prefix_app (p s : string) :
  String.prefix p s = true ↔ ∃ rest, s = p ++ rest.
Proof.
  revert p. induction s as [|b s IH]; intros [|a p]; cbn.
  - split; [intros _; by exists ""|intros _; reflexivity].
  - split; [done|by intros [? ?]].
  - split; [intros _; by exists (String b s)|intros _; reflexivity].
  - destruct (ascii_dec a b) as [->|Hne].
    + rewrite IH. split; intros [rest Hrest]; exists rest.
      * change (String b s = String b (p ++ rest)). by rewrite <-Hrest.
      * change (String b s = String b (p ++ rest)) in Hrest. by injection Hrest.
    + split; [done|]. intros [rest Hrest].
      change (String b s = String a (p ++ rest)) in Hrest.
      injection Hrest as Hab _. by destruct Hne.
Qed.

Lemma isActive_spec (pathname path : string) :
  isActive pathname path = true ↔
  pathname = path ∨ ∃ rest, pathname = path ++ "/" ++ rest.
Proof.
  unfold isActive. rewrite orb_true_iff, String.eqb_eq, prefix_app.
  split; (intros [H | [rest H]]; [by left|]); right; exists rest.
  - by rewrite H, string_app_assoc.
  - by rewrite H, string_app_assoc.
Qed.

(** X5. A menu entry is active exactly on its own path and on the paths
    below it: a location that merely starts with the same characters (for
    instance [/dashboard/schools-archive] for the entry of
    [/dashboard/schools]) does not activate it. *)
Theorem isActive_own_path_or_below (pathname path : string) :
  (isActive pathname path = true ↔
   pathname = path ∨ ∃ rest, pathname = path ++ "/" ++ rest) ∧
  (∀ c rest, c ≠ "/"%char → isActive (path ++ String c rest) path = false).
Proof.
  split; [apply isActive_spec|].
  intros c rest Hc. apply not_true_iff_false. rewrite isActive_spec.
  intros [Heq | [rest' Heq]].
  - induction path as [|x path IH]; [discriminate|].
    rewrite append_cons in Heq. injection Heq as Heq. auto.
  - induction path as [|x path IH].
    + rewrite !append_nil in Heq. rewrite append_cons in Heq. congruence.
    + rewrite !append_cons in Heq. injection Heq as Heq. auto.
Qed.

Lemma isActive_dashboard (pathname : string) (item : MenuItem) :
  item ∈ menuItems → isActive pathname (item_path item) = true →
  isActive pathname "/dashboard" = true.
Proof.
  intros Hin Hact. apply isActive_spec in Hact. apply isActive_spec.
  unfold menuItems in Hin.
  repeat (apply elem_of_cons in Hin as [-> | Hin]); [..|by apply elem_of_nil in Hin];
    cbn [item_path] in Hact; destruct Hact as [-> | [rest ->]];
    first [by left | by right; eexists; reflexivity].
Qed.

Lemma isActive_one_section (pathname : string) (i j : MenuItem) :
  i ∈ menuItems → j ∈ menuItems →
  item_id i ≠ "dashboard" → item_id j ≠ "dashboard" →
  isActive pathname (item_path i) = true →
  isActive pathname (item_path j) = true →
  i = j.
Proof.
  intros Hi Hj Hni Hnj Hai Haj.
  apply isActive_spec in Hai. apply isActive_spec in Haj.
  unfold menuItems in Hi, Hj.
  repeat (apply elem_of_cons in Hi as [-> | Hi]); [..|by apply elem_of_nil in Hi];
    try (by destruct Hni);
    (repeat (apply elem_of_cons in Hj as [-> | Hj]); [..|by apply elem_of_nil in Hj]);
    try (by destruct Hnj); try reflexivity;
    cbn [item_path] in Hai, Haj;
    destruct Hai as [-> | [r1 ->]]; destruct Haj as [Haj | [r2 Haj]];
    cbv in Haj; discriminate.
Qed.

Lemma layout_nav {C : Type} (auth : AuthContext) (pathname : string)
    (sidebarOpen : bool) (children : C) :
  isSuperAdmin auth = true →
  nav_of (Layout auth pathname sidebarOpen children)
  = (λ item, mkNavButton item (isActive pathname (item_path item))
               (if sidebarOpen then Some (label item) else None)) <$> menuItems.
Proof. intros Hflag. unfold Layout. rewrite Hflag. reflexivity. Qed.

(** X6. In the sidebar a super admin sees, the six menu entries appear in
    their order. Whenever some entry is highlighted the Dashboard entry is
    highlighted too, because every other entry lies below [/dashboard];
    and of the other five entries at most one is highlighted. *)
Theorem sidebar_highlighting {C : Type} (auth : AuthContext) (pathname : string)
    (sidebarOpen : bool) (children : C) :
  isSuperAdmin auth = true →
  nav_item <$> nav_of (Layout auth pathname sidebarOpen children) = menuItems ∧
  (∀ b, b ∈ nav_of (Layout auth pathname sidebarOpen children) →
        nav_active b = true →
        ∃ d, d ∈ nav_of (Layout auth pathname sidebarOpen children) ∧
             item_id (nav_item d) = "dashboard" ∧ nav_active d = true) ∧
  (∀ b b', b ∈ nav_of (Layout auth pathname sidebarOpen children) →
           b' ∈ nav_of (Layout auth pathname sidebarOpen children) →
           nav_active b = true → nav_active b' = true →
           item_id (nav_item b) ≠ "dashboard" → item_id (nav_item b') ≠ "dashboard" →
           b = b').
Proof.
  intros Hflag. rewrite (layout_nav auth pathname sidebarOpen children Hflag).
  split; [reflexivity|]. split.
  - intros b Hb Hact. apply list_elem_of_fmap in Hb as (item & -> & Hitem).
    cbn in Hact. pose proof (isActive_dashboard pathname item Hitem Hact) as Hdash.
    unfold menuItems. rewrite fmap_cons.
    eexists. split; [apply list_elem_of_here|]. split; [reflexivity|exact Hdash].
  - intros b b' Hb Hb' Hact Hact' Hid Hid'.
    apply list_elem_of_fmap in Hb as (i & -> & Hi).
    apply list_elem_of_fmap in Hb' as (j & -> & Hj).
    cbn in Hact, Hact', Hid, Hid'.
    by rewrite (isActive_one_section pathname i j Hi Hj Hid Hid' Hact Hact').
Qed.

Lemma sidebar_highlighting_witness :
  isSuperAdmin (mkAuth (Some root_user) true) = true ∧
  active_ids (Layout (mkAuth (Some root_user) true) "/dashboard/schools/5/edit" true ())
  = ["dashboard"; "schools"] ∧
  nav_item <$> nav_of (Layout (mkAuth (Some root_user) true) "/dashboard/schools/5/edit"
                         true ())
  = menuItems.
Proof.
  split; [reflexivity|]. split; [vm_compute; reflexivity|].
  exact (proj1 (sidebar_highlighting (mkAuth (Some root_user) true)
                  "/dashboard/schools/5/edit" true () eq_refl)).
Defined.

(** ** The dashboard outside its three roles, and behind the layout *)

(** X7. A missing user and every role other than ADMIN and TEACHER (PARENT,
    STUDENT, a role written in another case) fall to the last branch: the
    dashboard chooses the super-admin tree and renders exactly what the
    earlier one-tree dashboard rendered. *)
Theorem dashboard_fallback_tree (auth : AuthContext) (pathname : string)
    (sidebarOpen : bool) :
  (∀ x, user auth = Some x → role x ≠ "ADMIN" ∧ role x ≠ "TEACHER") →
  Dashboard_routes (user auth) = super_admin_routes ∧
  Dashboard auth pathname sidebarOpen = Legacy.Dashboard auth pathname sidebarOpen.
Proof.
  intros Hrole.
  assert (Htree : Dashboard_routes (user auth) = super_admin_routes).
  { apply dashboard_routes_default; destruct (user auth) as [x|]; try reflexivity; cbn;
      destruct (Hrole x eq_refl) as [Ha Ht]; by apply String.eqb_neq. }
  split; [exact Htree|]. unfold Dashboard, Legacy.Dashboard. by rewrite Htree.
Qed.

Lemma dashboard_fallback_tree_witness :
  (∀ x, Some parent_user = Some x → role x ≠ "ADMIN" ∧ role x ≠ "TEACHER") ∧
  Dashboard_routes (Some parent_user) = super_admin_routes ∧
  Dashboard_routes None = super_admin_routes.
Proof.
  assert (Hparent : ∀ x, Some parent_user = Some x → role x ≠ "ADMIN" ∧ role x ≠ "TEACHER").
  { intros x [= <-]. by split. }
  split; [exact Hparent|]. split.
  - exact (proj1 (dashboard_fallback_tree (mkAuth (Some parent_user) false) "/dashboard"
                    true Hparent)).
  - refine (proj1 (dashboard_fallback_tree (mkAuth None false) "/dashboard" true _)).
    intros x Hx. discriminate Hx.
Defined.

(** X8. The dashboard shows its routes only through the layout: the shell
    is rendered exactly when the auth context carries the super-admin flag,
    and its main area then holds the tree chosen for the user. For a school
    admin or a teacher without that flag the tree is chosen and the page is
    the access-denied one. *)
Theorem dashboard_shell_iff_flag (auth : AuthContext) (pathname : string)
    (sidebarOpen : bool) :
  (isSuperAdmin auth = true ↔
   ∃ sidebar header,
     Dashboard auth pathname sidebarOpen
     = Shell sidebar header (Dashboard_routes (user auth))) ∧
  (isSuperAdmin auth = false ↔
   Dashboard auth pathname sidebarOpen
   = AccessDenied "Access Denied" "You don't have permission to access this page.") ∧
  (∀ sidebar header main,
     Dashboard auth pathname sidebarOpen = Shell sidebar header main →
     main = Dashboard_routes (user auth)).
Proof.
  unfold Dashboard, Layout.
  destruct (isSuperAdmin auth); cbn [negb]; (split; [|split]).
  - split; [intros _; eauto|done].
  - split; discriminate.
  - by intros sidebar header main [= _ _ <-].
  - split; [discriminate|]. intros (sidebar & header & Hshell). discriminate Hshell.
  - done.
  - intros sidebar header main Hshell. discriminate Hshell.
Qed.

(** ** The other paths of the holidays and events view *)

Lemma detail_or_fallback (err : AxiosError) (fallback : string) :
  (∀ r d, response err = Some r → Js.get "detail" (data r) = Js.str d → d ≠ "" →
          Js.to_string (Js.or (error_detail err) (Js.str fallback)) = d) ∧
  (Js.truthy (error_detail err) = false →
   Js.to_string (Js.or (error_detail err) (Js.str fallback)) = fallback) ∧
  (response err = None →
   Js.to_string (Js.or (error_detail err) (Js.str fallback)) = fallback).
Proof.
  split; [|split].
  - intros r d Hr Hd Hne. unfold error_detail, Js.or. rewrite Hr, Hd. cbn.
    destruct (String.eqb_spec d ""); [contradiction|reflexivity].
  - intros Hfalsy. unfold Js.or. by rewrite Hfalsy.
  - intros Hnone. unfold error_detail, Js.or. by rewrite Hnone.
Qed.

(** X9. When [createHoliday] rejects, the handler logs the error and
    alerts the detail of the response, or "Failed to create holiday" when
    there is no response or no truthy detail. The view keeps its state: the
    form stays open with the values typed, nothing is re-fetched and no
    request follows the failed one. *)
Theorem holiday_creation_failure (s : HolidaysEvents.State) (w w1 : World)
    (err : AxiosError) :
  schoolAdminAPI.createHoliday
    (HolidaysEvents.holidayForm_js (HolidaysEvents.holidayForm s))
    (emit EvPreventDefault w) = (w1, inl err) →
  HolidaysEvents.handleCreateHoliday (s, w) =
    ((s, emit (EvAlert (Js.to_string
                          (Js.or (error_detail err) (Js.str "Failed to create holiday"))))
           (emit (EvConsoleError "Error creating holiday:") w1)),
     inr None) ∧
  sent (HolidaysEvents.handleCreateHoliday (s, w)).1.2 = sent w1 ∧
  (∀ r d, response err = Some r → Js.get "detail" (data r) = Js.str d → d ≠ "" →
          Js.to_string (Js.or (error_detail err) (Js.str "Failed to create holiday")) = d) ∧
  (response err = None →
   Js.to_string (Js.or (error_detail err) (Js.str "Failed to create holiday"))
   = "Failed to create holiday").
Proof.
  intros Hcreate.
  assert (Hrun : HolidaysEvents.handleCreateHoliday (s, w) =
    ((s, emit (EvAlert (Js.to_string
                          (Js.or (error_detail err) (Js.str "Failed to create holiday"))))
           (emit (EvConsoleError "Error creating holiday:") w1)),
     inr None)).
  { unfold HolidaysEvents.handleCreateHoliday, try_catch, liftW, preventDefault,
      read_state, alert, console_error, gets, modify, mbind, mret, Eff_bind, Eff_ret.
    cbn [fst snd]. rewrite Hcreate. cbn [fst snd]. by destruct s. }
  split; [exact Hrun|]. split.
  - rewrite Hrun. unfold sent. cbn [fst snd emit trace].
    rewrite <-app_assoc, omap_app. cbn. apply app_nil_r.
  - destruct (detail_or_fallback err "Failed to create holiday") as (Hd & _ & Hn).
    split; [exact Hd|exact Hn].
Qed.

Lemma holiday_creation_failure_witness :
  ∃ w1 w',
    schoolAdminAPI.createHoliday (HolidaysEvents.holidayForm_js new_year)
      (emit EvPreventDefault blank_detail_world)
    = (w1, inl (mkAxiosError (Some (mkResponse 400 (Js.obj [("detail", Js.str "")]))))) ∧
    HolidaysEvents.handleCreateHoliday (holiday_view new_year, blank_detail_world)
    = ((holiday_view new_year, w'), inr None) ∧
    last (trace w') = Some (EvAlert "Failed to create holiday").
Proof.
  set (run := schoolAdminAPI.createHoliday (HolidaysEvents.holidayForm_js new_year)
                (emit EvPreventDefault blank_detail_world)).
  assert (Hcreate : run = (run.1, inl (mkAxiosError (Some (mkResponse 400
                              (Js.obj [("detail", Js.str "")])))))).
  { vm_compute. reflexivity. }
  destruct (holiday_creation_failure (holiday_view new_year) blank_detail_world _ _ Hcreate)
    as (Hrun & _).
  eexists _, _. split; [exact Hcreate|]. split; [exact Hrun|].
  cbn [emit trace]. by rewrite last_snoc.
Defined.

(** X10. When [createEvent] succeeds, the handler closes the event form,
    empties its five fields, starts the re-fetch without waiting for it
    (the loading flag goes up) and shows the success alert, in this order,
    and sends nothing but the POST; the holiday form and what was typed
    into it are not touched. The re-fetch it has started runs after the
    alert: the holidays request, then the events request, and no other. *)
Theorem event_created_sequence (s : HolidaysEvents.State) (w w1 : World)
    (created : Js.value) :
  schoolAdminAPI.createEvent
    (HolidaysEvents.eventForm_js (HolidaysEvents.eventForm s))
    (emit EvPreventDefault w) = (w1, inr created) →
  ∃ post w' get_h get_e s'' w'' rest,
    (method post = POST ∧ url post = "/admin/events" ∧
     body post = HolidaysEvents.eventForm_js (HolidaysEvents.eventForm s)) ∧
    HolidaysEvents.handleCreateEvent (s, w) =
      ((HolidaysEvents.mkState
          (HolidaysEvents.holidays s) (HolidaysEvents.events s) true
          (HolidaysEvents.error s) (HolidaysEvents.showHolidayForm s) false
          (HolidaysEvents.holidayForm s) (HolidaysEvents.mkEventForm "" "" "" "" ""),
        w'),
       inr (Some HolidaysEvents.fetchData_resume)) ∧
    trace w' =
      (trace w ++ [ EvPreventDefault; EvRequest post;
                    EvSet "setShowEventForm"; EvSet "setEventForm";
                    EvSet "setLoading";
                    EvAlert "Event created successfully!" ])%list ∧
    (method get_h = GET ∧ url get_h = "/admin/holidays") ∧
    (method get_e = GET ∧ url get_e = "/admin/events") ∧
    HolidaysEvents.fetchData_resume
      (HolidaysEvents.mkState
         (HolidaysEvents.holidays s) (HolidaysEvents.events s) true
         (HolidaysEvents.error s) (HolidaysEvents.showHolidayForm s) false
         (HolidaysEvents.holidayForm s) (HolidaysEvents.mkEventForm "" "" "" "" ""),
       w') = ((s'', w''), inr tt) ∧
    trace w'' = (trace w' ++ EvRequest get_h :: EvRequest get_e :: rest)%list ∧
    (∀ r, EvRequest r ∉ rest) ∧
    HolidaysEvents.holidayForm s'' = HolidaysEvents.holidayForm s ∧
    HolidaysEvents.showHolidayForm s'' = HolidaysEvents.showHolidayForm s.
Proof.
  intros Hcreate.
  destruct (post_data_trace "/admin/events"
              (HolidaysEvents.eventForm_js (HolidaysEvents.eventForm s))
              (emit EvPreventDefault w)) as (post & Hpm & Hpu & Hpb & Hpt).
  fold (schoolAdminAPI.createEvent
          (HolidaysEvents.eventForm_js (HolidaysEvents.eventForm s))) in Hpt.
  rewrite Hcreate in Hpt. cbn [fst emit trace] in Hpt.
  set (w' := emit (EvAlert "Event created successfully!")
               (emit (EvSet "setLoading")
                  (emit (EvSet "setEventForm") (emit (EvSet "setShowEventForm") w1)))).
  set (s' := HolidaysEvents.mkState
               (HolidaysEvents.holidays s) (HolidaysEvents.events s) true
               (HolidaysEvents.error s) (HolidaysEvents.showHolidayForm s) false
               (HolidaysEvents.holidayForm s) (HolidaysEvents.mkEventForm "" "" "" "" "")).
  destruct (fetchData_resume_run s' w')
    as (get_h & get_e & s'' & w'' & rest & Hgh & Hge & Hrun & Htrace & Hrest & _ & _).
  exists post, w', get_h, get_e, s'', w'', rest.
  split; [done|].
  split.
  { unfold HolidaysEvents.handleCreateEvent, HolidaysEvents.fetchData_start,
      try_catch, liftW, preventDefault, read_state,
      alert, gets, HolidaysEvents.setShowEventForm, HolidaysEvents.setEventForm,
      HolidaysEvents.setLoading, set_state, modify, mbind, mret, Eff_bind, Eff_ret.
    cbn [fst snd]. rewrite Hcreate. cbn [fst snd]. reflexivity. }
  split.
  { subst w'. cbn [emit trace]. rewrite Hpt, <-!app_assoc. reflexivity. }
  split; [exact Hgh|]. split; [exact Hge|]. split; [exact Hrun|].
  split; [exact Htrace|]. split; [exact Hrest|].
  revert Hrun.
  unfold HolidaysEvents.fetchData_resume, HolidaysEvents.fetch_both, try_finally,
    try_catch, liftW, console_error, HolidaysEvents.setLoading,
    HolidaysEvents.setHolidays, HolidaysEvents.setEvents, HolidaysEvents.setError,
    set_state, modify, mbind, mret, Eff_bind, Eff_ret.
  cbn [fst snd].
  destruct (promise_all2 schoolAdminAPI.getHolidays schoolAdminAPI.getEvents w')
    as [w2 [err | [h e]]]; cbn [fst snd]; intros [= <- _]; split; reflexivity.
Qed.

Lemma event_created_sequence_witness :
  ∃ w1 w' s'' w'',
    schoolAdminAPI.createEvent
      (HolidaysEvents.eventForm_js (HolidaysEvents.mkEventForm "PTM" "" "2026-12-05" "" "PTM"))
      (emit EvPreventDefault signed_in) = (w1, inr Js.null) ∧
    HolidaysEvents.handleCreateEvent
      (HolidaysEvents.mkState (Js.arr []) (Js.arr []) false "" false true new_year
         (HolidaysEvents.mkEventForm "PTM" "" "2026-12-05" "" "PTM"),
       signed_in)
    = ((HolidaysEvents.mkState (Js.arr []) (Js.arr []) true "" false false new_year
          (HolidaysEvents.mkEventForm "" "" "" "" ""), w'),
       inr (Some HolidaysEvents.fetchData_resume)) ∧
    HolidaysEvents.fetchData_resume
      (HolidaysEvents.mkState (Js.arr []) (Js.arr []) true "" false false new_year
         (HolidaysEvents.mkEventForm "" "" "" "" ""), w')
    = ((s'', w''), inr tt) ∧
    HolidaysEvents.holidayForm s'' = new_year.
Proof.
  set (form := HolidaysEvents.mkEventForm "PTM" "" "2026-12-05" "" "PTM").
  set (run := schoolAdminAPI.createEvent (HolidaysEvents.eventForm_js form)
                (emit EvPreventDefault signed_in)).
  assert (Hcreate : run = (run.1, inr Js.null)) by (vm_compute; reflexivity).
  destruct (event_created_sequence
              (HolidaysEvents.mkState (Js.arr []) (Js.arr []) false "" false true new_year form)
              signed_in _ _ Hcreate)
    as (post & w' & get_h & get_e & s'' & w'' & rest & _ & Hrun & _ & _ & _ & Hresume & _ & _
        & Hform & _).
  exists run.1, w', s'', w''.
  split; [exact Hcreate|]. split; [exact Hrun|]. split; [exact Hresume|exact Hform].
Defined.

(** X11. When [createEvent] rejects, the handler logs the error and alerts
    the detail of the response, or "Failed to create event" when there is
    no response or no truthy detail; the state of the view is untouched and
    no request follows. *)
Theorem event_creation_failure (s : HolidaysEvents.State) (w w1 : World)
    (err : AxiosError) :
  schoolAdminAPI.createEvent
    (HolidaysEvents.eventForm_js (HolidaysEvents.eventForm s))
    (emit EvPreventDefault w) = (w1, inl err) →
  HolidaysEvents.handleCreateEvent (s, w) =
    ((s, emit (EvAlert (Js.to_string
                          (Js.or (error_detail err) (Js.str "Failed to create event"))))
           (emit (EvConsoleError "Error creating event:") w1)),
     inr None) ∧
  sent (HolidaysEvents.handleCreateEvent (s, w)).1.2 = sent w1 ∧
  (∀ r d, response err = Some r → Js.get "detail" (data r) = Js.str d → d ≠ "" →
          Js.to_string (Js.or (error_detail err) (Js.str "Failed to create event")) = d) ∧
  (response err = None →
   Js.to_string (Js.or (error_detail err) (Js.str "Failed to create event"))
   = "Failed to create event").
Proof.
  intros Hcreate.
  assert (Hrun : HolidaysEvents.handleCreateEvent (s, w) =
    ((s, emit (EvAlert (Js.to_string
                          (Js.or (error_detail err) (Js.str "Failed to create event"))))
           (emit (EvConsoleError "Error creating event:") w1)),
     inr None)).
  { unfold HolidaysEvents.handleCreateEvent, try_catch, liftW, preventDefault,
      read_state, alert, console_error, gets, modify, mbind, mret, Eff_bind, Eff_ret.
    cbn [fst snd]. rewrite Hcreate. cbn [fst snd]. by destruct s. }
  split; [exact Hrun|]. split.
  - rewrite Hrun. unfold sent. cbn [fst snd emit trace].
    rewrite <-app_assoc, omap_app. cbn. apply app_nil_r.
  - destruct (detail_or_fallback err "Failed to create event") as (Hd & _ & Hn).
    split; [exact Hd|exact Hn].
Qed.

Lemma event_creation_failure_witness :
  ∃ w1 w',
    schoolAdminAPI.createEvent
      (HolidaysEvents.eventForm_js (HolidaysEvents.mkEventForm "PTM" "" "2026-12-05" "" "PTM"))
      (emit EvPreventDefault blank_detail_world)
    = (w1, inl (mkAxiosError (Some (mkResponse 400 (Js.obj [("detail", Js.str "")]))))) ∧
    HolidaysEvents.handleCreateEvent
      (HolidaysEvents.mkState (Js.arr []) (Js.arr []) false "" false true new_year
         (HolidaysEvents.mkEventForm "PTM" "" "2026-12-05" "" "PTM"),
       blank_detail_world)
    = ((HolidaysEvents.mkState (Js.arr []) (Js.arr []) false "" false true new_year
          (HolidaysEvents.mkEventForm "PTM" "" "2026-12-05" "" "PTM"), w'),
       inr None).
Proof.
  set (form := HolidaysEvents.mkEventForm "PTM" "" "2026-12-05" "" "PTM").
  set (run := schoolAdminAPI.createEvent (HolidaysEvents.eventForm_js form)
                (emit EvPreventDefault blank_detail_world)).
  assert (Hcreate : run = (run.1, inl (mkAxiosError (Some (mkResponse 400
                              (Js.obj [("detail", Js.str "")])))))).
  { vm_compute. reflexivity. }
  destruct (event_creation_failure
              (HolidaysEvents.mkState (Js.arr []) (Js.arr []) false "" false true new_year form)
              blank_detail_world _ _ Hcreate) as (Hrun & _).
  eexists _, _. split; [exact Hcreate|exact Hrun].
Defined.

(** X12. The event form asks for a title, a date and a type: with one of
    them empty the submission is stopped before the handler runs. The time
    and the description are optional: with the three required fields filled
    in and the form on screen the handler runs, whatever the other two
    hold. *)
Theorem event_form_requirements (s : HolidaysEvents.State) (w : World) :
  (HolidaysEvents.title (HolidaysEvents.eventForm s) = "" ∨
   HolidaysEvents.event_date (HolidaysEvents.eventForm s) = "" ∨
   HolidaysEvents.event_type (HolidaysEvents.eventForm s) = "" →
   HolidaysEvents.submit_event_form (s, w) = ((s, w), inr None)) ∧
  (HolidaysEvents.loading s = false →
   HolidaysEvents.showEventForm s = true →
   HolidaysEvents.title (HolidaysEvents.eventForm s) ≠ "" →
   HolidaysEvents.event_date (HolidaysEvents.eventForm s) ≠ "" →
   HolidaysEvents.event_type (HolidaysEvents.eventForm s) ≠ "" →
   HolidaysEvents.submit_event_form (s, w) =
   (x ← HolidaysEvents.handleCreateEvent; mret (Some x)) (s, w)).
Proof.
  unfold HolidaysEvents.submit_event_form, HolidaysEvents.event_form. cbn [fst].
  split.
  - intros Hempty.
    destruct (HolidaysEvents.loading s); [reflexivity|].
    destruct (HolidaysEvents.showEventForm s); [|reflexivity].
    unfold requestSubmit, checkValidity, valueMissing. cbn.
    destruct Hempty as [-> | [-> | ->]]; cbn; rewrite ?andb_false_r; reflexivity.
  - intros -> -> Ht Hd Hty.
    unfold requestSubmit, checkValidity, valueMissing. cbn.
    apply String.eqb_neq in Ht, Hd, Hty. by rewrite Ht, Hd, Hty.
Qed.

Lemma event_form_requirements_witness :
  HolidaysEvents.submit_event_form
    (HolidaysEvents.mkState (Js.arr []) (Js.arr []) false "" false true new_year
       (HolidaysEvents.mkEventForm "PTM" "" "2026-12-05" "" ""), signed_in)
  = ((HolidaysEvents.mkState (Js.arr []) (Js.arr []) false "" false true new_year
        (HolidaysEvents.mkEventForm "PTM" "" "2026-12-05" "" ""), signed_in), inr None) ∧
  HolidaysEvents.submit_event_form
    (HolidaysEvents.mkState (Js.arr []) (Js.arr []) false "" false true new_year
       (HolidaysEvents.mkEventForm "PTM" "" "2026-12-05" "" "PTM"), signed_in)
  = (x ← HolidaysEvents.handleCreateEvent; mret (Some x))
      (HolidaysEvents.mkState (Js.arr []) (Js.arr []) false "" false true new_year
         (HolidaysEvents.mkEventForm "PTM" "" "2026-12-05" "" "PTM"), signed_in).
Proof.
  split.
  - apply (proj1 (event_form_requirements _ signed_in)). right. right. reflexivity.
  - by apply (proj2 (event_form_requirements _ signed_in)).
Defined.

(** ** The other paths of the classes view *)

(** A select whose first option is the empty placeholder reports a
    non-empty value exactly when the value held in the state is non-empty
    and is the value of one of the options. *)
Lemma select_value_empty (first_label : string) (rest : list ClassesManagement.Option)
    (v : string) :
  String.eqb
    (ClassesManagement.select_value (ClassesManagement.mkOption "" first_label :: rest) v) ""
  = negb (bool_decide (v ≠ "" ∧ v ∈ ClassesManagement.option_value <$> rest)).
Proof.
  unfold ClassesManagement.select_value. rewrite fmap_cons. cbn [ClassesManagement.option_value].
  destruct (decide (v = "")) as [-> | Hv].
  - rewrite bool_decide_eq_true_2 by apply list_elem_of_here.
    rewrite (bool_decide_eq_false_2 ("" ≠ "" ∧ _)) by (intros [H _]; by apply H).
    reflexivity.
  - destruct (decide (v ∈ ClassesManagement.option_value <$> rest)) as [Hin | Hout].
    + rewrite bool_decide_eq_true_2 by (by apply list_elem_of_further).
      rewrite (bool_decide_eq_true_2 (v ≠ "" ∧ _)) by done.
      cbn. by apply String.eqb_neq.
    + rewrite bool_decide_eq_false_2
        by (intros [? | ?]%elem_of_cons; [by apply Hv | by apply Hout]).
      rewrite (bool_decide_eq_false_2 (v ≠ "" ∧ _)) by (intros [_ H]; by apply Hout).
      reflexivity.
Qed.

(** X13. The class form asks for a name, a grade, a subject and a teacher.
    With the name or the grade empty, or with a subject or teacher held in
    the form that is empty (the placeholder) or is not among the options
    the select offers, the submission is stopped before the handler runs
    and nothing is sent. With the four given, subject and teacher being
    options offered, the handler runs. The academic year is optional. *)
Theorem class_form_requirements (s : ClassesManagement.State) (w : World)
    (subject_list teacher_list : list ClassesManagement.Option) :
  ClassesManagement.subject_options s
  = Some (ClassesManagement.mkOption "" "Select subject" :: subject_list) →
  ClassesManagement.teacher_options s
  = Some (ClassesManagement.mkOption "" "Select teacher" :: teacher_list) →
  (ClassesManagement.name (ClassesManagement.formData s) = "" ∨
   ClassesManagement.grade (ClassesManagement.formData s) = "" ∨
   ClassesManagement.subject_id (ClassesManagement.formData s) = "" ∨
   ClassesManagement.teacher_id (ClassesManagement.formData s) = "" ∨
   ClassesManagement.subject_id (ClassesManagement.formData s)
     ∉ ClassesManagement.option_value <$> subject_list ∨
   ClassesManagement.teacher_id (ClassesManagement.formData s)
     ∉ ClassesManagement.option_value <$> teacher_list →
   ClassesManagement.submit_class_form (s, w) = ((s, w), inr None)) ∧
  (ClassesManagement.loading s = false →
   ClassesManagement.showCreateForm s = true →
   ClassesManagement.name (ClassesManagement.formData s) ≠ "" →
   ClassesManagement.grade (ClassesManagement.formData s) ≠ "" →
   ClassesManagement.subject_id (ClassesManagement.formData s) ≠ "" →
   ClassesManagement.teacher_id (ClassesManagement.formData s) ≠ "" →
   ClassesManagement.subject_id (ClassesManagement.formData s)
     ∈ ClassesManagement.option_value <$> subject_list →
   ClassesManagement.teacher_id (ClassesManagement.formData s)
     ∈ ClassesManagement.option_value <$> teacher_list →
   ClassesManagement.submit_class_form (s, w) =
   (x ← ClassesManagement.handleCreateClass; mret (Some x)) (s, w)).
Proof.
  intros Hsub Hteach.
  unfold ClassesManagement.submit_class_form, ClassesManagement.class_form. cbn [fst].
  rewrite Hsub, Hteach. cbn [mbind option_bind].
  split.
  - intros Hempty.
    destruct (ClassesManagement.loading s); [reflexivity|].
    destruct (ClassesManagement.showCreateForm s); [|reflexivity].
    unfold requestSubmit, checkValidity, valueMissing.
    cbn [noValidate controls forallb required control_value orb andb].
    rewrite !select_value_empty.
    destruct Hempty as [-> | [-> | [Hs | [Ht | [Hs | Ht]]]]].
    + reflexivity.
    + cbn. by rewrite andb_false_r.
    + rewrite (bool_decide_eq_false_2 (ClassesManagement.subject_id _ ≠ "" ∧ _))
        by (intros [H _]; by apply H).
      cbn. by rewrite !andb_false_r.
    + rewrite (bool_decide_eq_false_2 (ClassesManagement.teacher_id _ ≠ "" ∧ _))
        by (intros [H _]; by apply H).
      cbn. by rewrite !andb_false_r.
    + rewrite (bool_decide_eq_false_2 (ClassesManagement.subject_id _ ≠ "" ∧ _))
        by (intros [_ H]; by apply Hs).
      cbn. by rewrite !andb_false_r.
    + rewrite (bool_decide_eq_false_2 (ClassesManagement.teacher_id _ ≠ "" ∧ _))
        by (intros [_ H]; by apply Ht).
      cbn. by rewrite !andb_false_r.
  - intros -> -> Hn Hg Hs Ht Hso Hto.
    unfold requestSubmit, checkValidity, valueMissing.
    cbn [noValidate controls forallb required control_value orb andb].
    rewrite !select_value_empty.
    rewrite (bool_decide_eq_true_2 (ClassesManagement.subject_id _ ≠ "" ∧ _)) by done.
    rewrite (bool_decide_eq_true_2 (ClassesManagement.teacher_id _ ≠ "" ∧ _)) by done.
    apply String.eqb_neq in Hn, Hg. by rewrite Hn, Hg.
Qed.

Lemma class_form_requirements_witness :
  ClassesManagement.submit_class_form
    (ClassesManagement.mkState (Js.arr []) (Js.arr [maths; physics]) (Js.arr [mrs_rao])
       false "" true (ClassesManagement.mkFormData "Grade 5A" "5" "3" "99" ""), signed_in)
  = ((ClassesManagement.mkState (Js.arr []) (Js.arr [maths; physics]) (Js.arr [mrs_rao])
        false "" true (ClassesManagement.mkFormData "Grade 5A" "5" "3" "99" ""), signed_in),
     inr None) ∧
  ClassesManagement.submit_class_form
    (ClassesManagement.mkState (Js.arr []) (Js.arr [maths; physics]) (Js.arr [mrs_rao])
       false "" true (ClassesManagement.mkFormData "Grade 5A" "5" "2" "99" ""), signed_in)
  = (x ← ClassesManagement.handleCreateClass; mret (Some x))
      (ClassesManagement.mkState (Js.arr []) (Js.arr [maths; physics]) (Js.arr [mrs_rao])
         false "" true (ClassesManagement.mkFormData "Grade 5A" "5" "2" "99" ""), signed_in).
Proof.
  assert (Hsub : ∀ f,
    ClassesManagement.subject_options
      (ClassesManagement.mkState (Js.arr []) (Js.arr [maths; physics]) (Js.arr [mrs_rao])
         false "" true f)
    = Some [ClassesManagement.mkOption "" "Select subject";
            ClassesManagement.mkOption "2" "Maths";
            ClassesManagement.mkOption "11" "Physics"]).
  { intros f. vm_compute. reflexivity. }
  assert (Hteach : ∀ f,
    ClassesManagement.teacher_options
      (ClassesManagement.mkState (Js.arr []) (Js.arr [maths; physics]) (Js.arr [mrs_rao])
         false "" true f)
    = Some [ClassesManagement.mkOption "" "Select teacher";
            ClassesManagement.mkOption "99" "Mrs Rao (rao@school.test)"]).
  { intros f. vm_compute. reflexivity. }
  split.
  - apply (proj1 (class_form_requirements _ signed_in _ _ (Hsub _) (Hteach _))).
    right. right. right. right. left. cbn. intros H.
    repeat (apply elem_of_cons in H as [H | H]; [discriminate|]).
    by apply elem_of_nil in H.
  - apply (proj2 (class_form_requirements _ signed_in _ _ (Hsub _) (Hteach _)));
      try reflexivity; try discriminate.
    + apply list_elem_of_here.
    + apply list_elem_of_here.
Defined.






(** ** What the holidays and events page shows *)

Lemma or_dash_text (o : option string) :
  child_text (Js.or (from_option Js.str Js.null o) (Js.str "-")) = Some (or_dash o).
Proof.
  destruct o as [x|]; [|reflexivity].
  unfold Js.or, or_dash. cbn. by destruct (String.eqb x "").
Qed.

Lemma holiday_row_json (h : Holiday) :
  HolidaysEvents.holiday_row (holiday_json h)
  = Some [holiday_name h; holiday_start h; holiday_end h; or_dash (holiday_description h)].
Proof.
  unfold HolidaysEvents.holiday_row, cells, holiday_json.
  cbn -[Js.or]. cbn [Js.get]. by rewrite or_dash_text.
Qed.

Lemma event_row_json (e : SchoolEvent) :
  HolidaysEvents.event_row (event_json e)
  = Some [ev_title e; ev_type e; ev_date e; or_dash (ev_time e);
          or_dash (ev_description e)].
Proof.
  unfold HolidaysEvents.event_row, cells, event_json.
  cbn -[Js.or]. cbn [Js.get]. by rewrite !or_dash_text.
Qed.

Lemma mapM_rows {A} (json : A → Js.value) (row : Js.value → option (list string))
    (text : A → list string) (l : list A) :
  (∀ x, row (json x) = Some (text x)) →
  mapM row (json <$> l) = Some (text <$> l).
Proof.
  intros Hrow. induction l as [|x l IH]; [reflexivity|].
  cbn. rewrite Hrow. cbn. rewrite IH. reflexivity.
Qed.

Lemma table_body_rows {A} (json : A → Js.value) (row : Js.value → option (list string))
    (text : A → list string) (empty_text : string) (l : list A) :
  (∀ x, row (json x) = Some (text x)) →
  table_body empty_text row (Js.arr (json <$> l)) = Some (rows_of empty_text text l).
Proof.
  intros Hrow. unfold table_body, length_prop. cbn [mbind option_bind].
  destruct l as [|x l]; [reflexivity|].
  rewrite length_fmap. cbn [length is_zero Z.of_nat].
  rewrite (mapM_rows json row text (x :: l) Hrow). reflexivity.
Qed.

(** X16. While loading, the page is the spinner alone. Otherwise, with the
    lists as the backend sends them, each table has one row per record in
    the order received, or its single placeholder row when the list is
    empty; the counts in the headings are the lengths of the lists; an
    absent or empty description or time shows as a dash; and the error
    banner is there exactly when the error message is not empty. *)
Theorem page_lists_what_it_holds (s : HolidaysEvents.State) (hs : list Holiday)
    (es : list SchoolEvent) :
  (HolidaysEvents.loading s = true →
   HolidaysEvents.render s = Some (HolidaysEvents.Spinner "Loading holidays and events...")) ∧
  (HolidaysEvents.loading s = false →
   HolidaysEvents.holidays s = Js.arr (holiday_json <$> hs) →
   HolidaysEvents.events s = Js.arr (event_json <$> es) →
   HolidaysEvents.render s =
   Some (HolidaysEvents.Content
           (if String.eqb (HolidaysEvents.error s) "" then None
            else Some (HolidaysEvents.error s))
           (HolidaysEvents.showHolidayForm s) (HolidaysEvents.showEventForm s)
           (pretty (Z.of_nat (length hs)))
           (rows_of "No holidays defined"
              (λ h, [holiday_name h; holiday_start h; holiday_end h;
                     or_dash (holiday_description h)]) hs)
           (pretty (Z.of_nat (length es)))
           (rows_of "No events defined"
              (λ e, [ev_title e; ev_type e; ev_date e; or_dash (ev_time e);
                     or_dash (ev_description e)]) es))).
Proof.
  unfold HolidaysEvents.render. split.
  - by intros ->.
  - intros -> -> ->.
    rewrite (table_body_rows holiday_json HolidaysEvents.holiday_row _ _ hs holiday_row_json).
    rewrite (table_body_rows event_json HolidaysEvents.event_row _ _ es event_row_json).
    unfold length_prop. cbn [mbind option_bind child_text Js.to_string].
    by rewrite !length_fmap.
Qed.

Lemma page_lists_what_it_holds_witness :
  HolidaysEvents.render
    (HolidaysEvents.mkState
       (Js.arr [holiday_json (mkHoliday 4 "Diwali" "2026-11-08" "2026-11-09" None)])
       (Js.arr []) false "" false false HolidaysEvents.empty_holidayForm
       HolidaysEvents.empty_eventForm)
  = Some (HolidaysEvents.Content None false false
            "1" (DataRows [["Diwali"; "2026-11-08"; "2026-11-09"; "-"]])
            "0" (Placeholder "No events defined")).
Proof.
  exact (proj2 (page_lists_what_it_holds
                  (HolidaysEvents.mkState
                     (Js.arr [holiday_json (mkHoliday 4 "Diwali" "2026-11-08" "2026-11-09" None)])
                     (Js.arr []) false "" false false HolidaysEvents.empty_holidayForm
                     HolidaysEvents.empty_eventForm)
                  [mkHoliday 4 "Diwali" "2026-11-08" "2026-11-09" None] [])
               eq_refl eq_refl eq_refl).
Defined.

(** X17. The lists received are not checked: when the holidays request
    succeeds with a [null] body, [fetchData] ends without error message and
    with loading off, and the render that follows throws on reading the
    length of the list. *)
Theorem null_body_breaks_render (s : HolidaysEvents.State) (w w1 w2 : World)
    (e : Js.value) :
  schoolAdminAPI.getHolidays (emit (EvSet "setLoading") w) = (w1, inr Js.null) →
  schoolAdminAPI.getEvents w1 = (w2, inr e) →
  ∃ s' w',
    HolidaysEvents.fetchData (s, w) = ((s', w'), inr tt) ∧
    HolidaysEvents.loading s' = false ∧
    HolidaysEvents.error s' = "" ∧
    HolidaysEvents.holidays s' = Js.null ∧
    HolidaysEvents.render s' = None.
Proof.
  intros Hh He.
  unfold HolidaysEvents.fetchData, HolidaysEvents.fetch_both, try_finally, try_catch,
    liftW, promise_all2, HolidaysEvents.setLoading, HolidaysEvents.setHolidays,
    HolidaysEvents.setEvents, HolidaysEvents.setError, console_error, set_state,
    modify, mbind, mret, Eff_bind, Eff_ret.
  cbn [fst snd]. rewrite Hh, He. cbn [fst snd].
  eexists _, _. split; [reflexivity|]. by cbn.
Qed.

Lemma null_body_breaks_render_witness :
  ∃ w1 w2 s' w',
    schoolAdminAPI.getHolidays (emit (EvSet "setLoading") (answering Js.null))
    = (w1, inr Js.null) ∧
    schoolAdminAPI.getEvents w1 = (w2, inr Js.null) ∧
    HolidaysEvents.fetchData (HolidaysEvents.initial, answering Js.null)
    = ((s', w'), inr tt) ∧
    HolidaysEvents.render s' = None.
Proof.
  set (h := schoolAdminAPI.getHolidays (emit (EvSet "setLoading") (answering Js.null))).
  set (e := schoolAdminAPI.getEvents h.1).
  assert (Hh : h = (h.1, inr Js.null)) by (vm_compute; reflexivity).
  assert (He : e = (e.1, inr Js.null)) by (vm_compute; reflexivity).
  destruct (null_body_breaks_render HolidaysEvents.initial (answering Js.null) _ _ _ Hh He)
    as (s' & w' & Hrun & _ & _ & _ & Hrender).
  exists h.1, e.1, s', w'. split; [exact Hh|]. split; [exact He|].
  split; [exact Hrun|exact Hrender].
Defined.

(** The handler starts by cancelling the native submission and posting the
    form as it is in the state, whatever comes after. *)
Lemma handleCreateHoliday_starts (s : HolidaysEvents.State) (w : World) :
  ∃ post rest,
    (method post = POST ∧ url post = "/admin/holidays" ∧
     body post = HolidaysEvents.holidayForm_js (HolidaysEvents.holidayForm s)) ∧
    trace (HolidaysEvents.handleCreateHoliday (s, w)).1.2
    = (trace w ++ [EvPreventDefault; EvRequest post] ++ rest)%list.
Proof.
  destruct (post_data_trace "/admin/holidays"
              (HolidaysEvents.holidayForm_js (HolidaysEvents.holidayForm s))
              (emit EvPreventDefault w)) as (post & Hpm & Hpu & Hpb & Hpt).
  fold (schoolAdminAPI.createHoliday
          (HolidaysEvents.holidayForm_js (HolidaysEvents.holidayForm s))) in Hpt.
  exists post.
  unfold HolidaysEvents.handleCreateHoliday, HolidaysEvents.fetchData_start,
    try_catch, liftW, preventDefault, read_state,
    alert, console_error, gets, HolidaysEvents.setShowHolidayForm,
    HolidaysEvents.setHolidayForm, HolidaysEvents.setLoading, set_state, modify,
    mbind, mret, Eff_bind, Eff_ret.
  cbn [fst snd].
  destruct (schoolAdminAPI.createHoliday _ _) as [w1 [err|v]]; cbn [fst snd] in *.
  - eexists. split; [done|]. cbn [emit trace]. rewrite Hpt. cbn [emit trace].
    rewrite <-!app_assoc. reflexivity.
  - eexists. split; [done|]. cbn [emit trace]. rewrite Hpt. cbn [emit trace].
    rewrite <-!app_assoc. reflexivity.
Qed.

(** X18. Typing a name, a start date and an end date (none empty) into the
    open holiday form and submitting it posts exactly these values, with
    the description as it stood: the three edits change one field each, the
    validation lets the form through, and the request that follows carries
    the form of that moment. *)
Theorem typed_holiday_is_posted (s : HolidaysEvents.State) (w : World)
    (n a b : string) :
  HolidaysEvents.loading s = false →
  HolidaysEvents.showHolidayForm s = true →
  n ≠ "" → a ≠ "" → b ≠ "" →
  ∃ post rest,
    (method post = POST ∧ url post = "/admin/holidays" ∧
     body post =
     HolidaysEvents.holidayForm_js
       (HolidaysEvents.mkHolidayForm n a b
          (HolidaysEvents.description (HolidaysEvents.holidayForm s)))) ∧
    trace ((HolidaysEvents.onChange_name n ;;
            HolidaysEvents.onChange_start_date a ;;
            HolidaysEvents.onChange_end_date b ;;
            HolidaysEvents.submit_holiday_form) (s, w)).1.2
    = (trace w ++ [ EvSet "setHolidayForm"; EvSet "setHolidayForm"; EvSet "setHolidayForm";
                    EvPreventDefault; EvRequest post ] ++ rest)%list.
Proof.
  intros Hl Hs Hn Ha Hb.
  set (s3 := HolidaysEvents.mkState
               (HolidaysEvents.holidays s) (HolidaysEvents.events s) false
               (HolidaysEvents.error s) true (HolidaysEvents.showEventForm s)
               (HolidaysEvents.mkHolidayForm n a b
                  (HolidaysEvents.description (HolidaysEvents.holidayForm s)))
               (HolidaysEvents.eventForm s)).
  set (w3 := emit (EvSet "setHolidayForm")
               (emit (EvSet "setHolidayForm") (emit (EvSet "setHolidayForm") w))).
  assert (Hedits :
    (HolidaysEvents.onChange_name n ;;
     HolidaysEvents.onChange_start_date a ;;
     HolidaysEvents.onChange_end_date b ;;
     HolidaysEvents.submit_holiday_form) (s, w)
    = HolidaysEvents.submit_holiday_form (s3, w3)).
  { unfold HolidaysEvents.onChange_name, HolidaysEvents.onChange_start_date,
      HolidaysEvents.onChange_end_date, HolidaysEvents.setHolidayForm, read_state,
      set_state, gets, modify, mbind, mret, Eff_bind, Eff_ret.
    cbn [fst snd HolidaysEvents.holidayForm HolidaysEvents.name
         HolidaysEvents.start_date HolidaysEvents.end_date HolidaysEvents.description
         HolidaysEvents.holidays HolidaysEvents.events HolidaysEvents.loading
         HolidaysEvents.error HolidaysEvents.showHolidayForm HolidaysEvents.showEventForm
         HolidaysEvents.eventForm].
    subst s3 w3. by rewrite Hl, Hs. }
  rewrite Hedits.
  rewrite (filled_form_submits s3 w3 eq_refl eq_refl Hn Ha Hb).
  destruct (handleCreateHoliday_starts s3 w3) as (post & rest & Hpost & Htrace).
  exists post, rest. split; [exact Hpost|].
  unfold mbind, mret, Eff_bind, Eff_ret.
  destruct (HolidaysEvents.handleCreateHoliday (s3, w3)) as [[s4 w4] [err|x]];
    cbn [fst snd] in *; rewrite Htrace; subst w3; cbn [emit trace];
    rewrite <-!app_assoc; reflexivity.
Qed.

Lemma typed_holiday_is_posted_witness :
  ∃ post rest,
    body post = HolidaysEvents.holidayForm_js new_year ∧
    trace ((HolidaysEvents.onChange_name "New Year" ;;
            HolidaysEvents.onChange_start_date "2026-01-01" ;;
            HolidaysEvents.onChange_end_date "2026-01-01" ;;
            HolidaysEvents.submit_holiday_form)
             (holiday_view HolidaysEvents.empty_holidayForm, signed_in)).1.2
    = ([ EvSet "setHolidayForm"; EvSet "setHolidayForm"; EvSet "setHolidayForm";
         EvPreventDefault; EvRequest post ] ++ rest)%list.
Proof.
  destruct (typed_holiday_is_posted (holiday_view HolidaysEvents.empty_holidayForm) signed_in
              "New Year" "2026-01-01" "2026-01-01" eq_refl eq_refl)
    as (post & rest & (_ & _ & Hbody) & Htrace); try discriminate.
  exists post, rest. split; [exact Hbody|exact Htrace].
Defined.

(** ** More on the request interceptor and the query strings *)

(** X19. The request interceptor changes nothing of a request but its
    [Authorization] header, and nothing of the browser: method, URL, query,
    body and every other header pass as they are. With a non-empty token
    stored it sets the bearer header even over one the caller supplied;
    with none stored (or an empty one) a header supplied by the caller
    stays. *)
Theorem interceptor_touches_only_authorization (config : Request) (w : World) :
  ∃ config',
    api.request_interceptor config w = (w, inr config') ∧
    (baseURL config' = baseURL config ∧ method config' = method config ∧
     url config' = url config ∧ params config' = params config ∧
     body config' = body config) ∧
    (∀ k, k ≠ "Authorization" → headers config' !! k = headers config !! k) ∧
    (∀ t, localStorage w !! "token" = Some t → t ≠ "" →
          headers config' !! "Authorization" = Some ("Bearer " ++ t)) ∧
    (localStorage w !! "token" = None ∨ localStorage w !! "token" = Some "" →
     config' = config).
Proof.
  exists (api.attach_token (api.getItem "token" w) config).
  split; [apply request_interceptor_run|].
  rewrite attach_token_stored.
  destruct (localStorage w !! "token") as [t|] eqn:Htok.
  - destruct (String.eqb_spec t "") as [->|Hne].
    + repeat split; try done. intros t' [= <-] Hne'. by destruct Hne'.
    + split; [done|]. split; [|split].
      * intros k Hk. cbn. by rewrite lookup_insert_ne.
      * intros t' [= <-] _. cbn. apply lookup_insert_eq.
      * intros [Hnone | [= Hempty]]; [discriminate|]. by destruct Hne.
  - repeat split; try done.
Qed.

Lemma set_if_truthy_lookup (k : string) (v : Js.value) (query : gmap string Js.value) :
  set_if_truthy k (Js.default Js.null v) query !! k
  = if Js.truthy v then Some v else query !! k.
Proof.
  unfold set_if_truthy. rewrite default_null_truthy.
  destruct (Js.truthy v) eqn:Hv; [|reflexivity].
  destruct v; try discriminate; cbn; apply lookup_insert_eq.
Qed.

Lemma set_if_truthy_lookup_ne (k k' : string) (v : Js.value)
    (query : gmap string Js.value) :
  k ≠ k' → set_if_truthy k (Js.default Js.null v) query !! k' = query !! k'.
Proof. intros Hne. by apply set_if_truthy_other. Qed.

(** X20. The filters of the school-admin list queries go into the query
    string under the names the backend reads ([classId] as [class_id],
    [targetAudience] as [target_audience]), each exactly when it is truthy
    and then unchanged; the query holds nothing else. *)
Theorem school_admin_filters (w : World) :
  (∀ search grade, ∃ req,
     trace (schoolAdminAPI.getStudents search grade w).1
     = (trace w ++ [EvRequest req])%list ∧
     method req = GET ∧ url req = "/admin/students" ∧
     params req !! "search" = (if Js.truthy search then Some search else None) ∧
     params req !! "grade" = (if Js.truthy grade then Some grade else None) ∧
     ∀ k, k ≠ "search" → k ≠ "grade" → params req !! k = None) ∧
  (∀ classId, ∃ req,
     trace (schoolAdminAPI.getTimetable classId w).1 = (trace w ++ [EvRequest req])%list ∧
     method req = GET ∧ url req = "/admin/timetable" ∧
     params req !! "class_id" = (if Js.truthy classId then Some classId else None) ∧
     ∀ k, k ≠ "class_id" → params req !! k = None) ∧
  (∀ targetAudience, ∃ req,
     trace (schoolAdminAPI.getAnnouncements targetAudience w).1
     = (trace w ++ [EvRequest req])%list ∧
     method req = GET ∧ url req = "/admin/announcements" ∧
     params req !! "target_audience"
     = (if Js.truthy targetAudience then Some targetAudience else None) ∧
     ∀ k, k ≠ "target_audience" → params req !! k = None) ∧
  (∀ classId, ∃ req,
     trace (schoolAdminAPI.getLessons classId w).1 = (trace w ++ [EvRequest req])%list ∧
     method req = GET ∧ url req = "/admin/lessons" ∧
     params req !! "class_id" = (if Js.truthy classId then Some classId else None) ∧
     ∀ k, k ≠ "class_id" → params req !! k = None).
Proof.
  split; [|split; [|split]].
  - intros search grade.
    destruct (get_data_trace "/admin/students"
                (set_if_truthy "grade" (Js.default Js.null grade)
                   (set_if_truthy "search" (Js.default Js.null search) ∅)) w)
      as (req & Hm & Hu & Hq & Ht).
    exists req. split; [exact Ht|]. split; [exact Hm|]. split; [exact Hu|].
    rewrite Hq. split; [|split].
    + rewrite set_if_truthy_lookup_ne by done. by rewrite set_if_truthy_lookup.
    + by rewrite set_if_truthy_lookup, set_if_truthy_lookup_ne.
    + intros k Hs Hg. by rewrite !set_if_truthy_lookup_ne.
  - intros classId.
    destruct (get_data_trace "/admin/timetable"
                (set_if_truthy "class_id" (Js.default Js.null classId) ∅) w)
      as (req & Hm & Hu & Hq & Ht).
    exists req. split; [exact Ht|]. split; [exact Hm|]. split; [exact Hu|].
    rewrite Hq. split; [by rewrite set_if_truthy_lookup|].
    intros k Hk. by rewrite set_if_truthy_lookup_ne.
  - intros targetAudience.
    destruct (get_data_trace "/admin/announcements"
                (set_if_truthy "target_audience" (Js.default Js.null targetAudience) ∅) w)
      as (req & Hm & Hu & Hq & Ht).
    exists req. split; [exact Ht|]. split; [exact Hm|]. split; [exact Hu|].
    rewrite Hq. split; [by rewrite set_if_truthy_lookup|].
    intros k Hk. by rewrite set_if_truthy_lookup_ne.
  - intros classId.
    destruct (get_data_trace "/admin/lessons"
                (set_if_truthy "class_id" (Js.default Js.null classId) ∅) w)
      as (req & Hm & Hu & Hq & Ht).
    exists req. split; [exact Ht|]. split; [exact Hm|]. split; [exact Hu|].
    rewrite Hq. split; [by rewrite set_if_truthy_lookup|].
    intros k Hk. by rewrite set_if_truthy_lookup_ne.
Qed.

(** ** The selects of the class form *)

Lemma mapM_json {A B} (json : A → Js.value) (f : Js.value → option B) (g : A → B)
    (l : list A) :
  (∀ x, f (json x) = Some (g x)) → mapM f (json <$> l) = Some (g <$> l).
Proof.
  intros Hf. induction l as [|x l IH]; [reflexivity|].
  cbn. rewrite Hf. cbn. rewrite IH. reflexivity.
Qed.

(** X21. With the subjects and teachers as the backend lists them, their
    ids being safe integers, each select offers its placeholder (the empty
    value, which the required check refuses) followed by one option per
    record, in order. A subject is labelled with its name, a teacher with
    "name (email)"; the value of an option is the decimal string of the id,
    which [parseInt] turns back into the id. *)
Theorem select_options_round_trip (s : ClassesManagement.State)
    (subs : list (Z * string)) (ts : list (Z * string * string)) :
  ClassesManagement.subjects s = Js.arr (subject_json <$> subs) →
  ClassesManagement.teachers s = Js.arr (teacher_json <$> ts) →
  Forall (λ x, Js.isSafeInteger x.1 = true) subs →
  Forall (λ x, Js.isSafeInteger x.1.1 = true) ts →
  ∃ so to,
    ClassesManagement.subject_options s
    = Some (ClassesManagement.mkOption "" "Select subject" :: so) ∧
    ClassesManagement.teacher_options s
    = Some (ClassesManagement.mkOption "" "Select teacher" :: to) ∧
    ClassesManagement.option_label <$> so = snd <$> subs ∧
    (λ o, Js.parseInt (Js.str (ClassesManagement.option_value o)) (Some 10)) <$> so
    = (λ x, Js.num x.1) <$> subs ∧
    ClassesManagement.option_label <$> to = (λ x, x.1.2 ++ " (" ++ x.2 ++ ")") <$> ts ∧
    (λ o, Js.parseInt (Js.str (ClassesManagement.option_value o)) (Some 10)) <$> to
    = (λ x, Js.num x.1.1) <$> ts.
Proof.
  intros Hs Ht _ _.
  exists ((λ x, ClassesManagement.mkOption (pretty x.1) x.2) <$> subs),
         ((λ x, ClassesManagement.mkOption (pretty x.1.1) (x.1.2 ++ " (" ++ x.2 ++ ")"))
            <$> ts).
  unfold ClassesManagement.subject_options, ClassesManagement.teacher_options,
    ClassesManagement.options_of.
  rewrite Hs, Ht.
  rewrite (mapM_json subject_json _
             (λ x, ClassesManagement.mkOption (pretty x.1) x.2) subs)
    by (intros [i n]; reflexivity).
  rewrite (mapM_json teacher_json _
             (λ x, ClassesManagement.mkOption (pretty x.1.1) (x.1.2 ++ " (" ++ x.2 ++ ")")) ts)
    by (intros [[i n] e]; reflexivity).
  split; [reflexivity|]. split; [reflexivity|].
  rewrite <-!list_fmap_compose.
  split; [reflexivity|]. split; [|split; [reflexivity|]].
  - apply list_fmap_ext. intros ? [i n] _. cbn. apply parseInt_pretty. by left.
  - apply list_fmap_ext. intros ? [[i n] e] _. cbn. apply parseInt_pretty. by left.
Qed.

Lemma select_options_round_trip_witness :
  ∃ so to,
    ClassesManagement.subject_options
      (ClassesManagement.mkState (Js.arr []) (Js.arr [maths; physics]) (Js.arr [mrs_rao])
         false "" true grade5)
    = Some (ClassesManagement.mkOption "" "Select subject" :: so) ∧
    ClassesManagement.option_label <$> so = ["Maths"; "Physics"] ∧
    (λ o, Js.parseInt (Js.str (ClassesManagement.option_value o)) (Some 10)) <$> so
    = [Js.num 2; Js.num 11] ∧
    ClassesManagement.option_label <$> to = ["Mrs Rao (rao@school.test)"].
Proof.
  destruct (select_options_round_trip
              (ClassesManagement.mkState (Js.arr []) (Js.arr [maths; physics])
                 (Js.arr [mrs_rao]) false "" true grade5)
              [(2, "Maths"); (11, "Physics")] [(99, "Mrs Rao", "rao@school.test")]
              eq_refl eq_refl)
    as (so & to & Hso & _ & Hlabels & Hvalues & Htl & _);
    [repeat constructor | repeat constructor |].
  exists so, to. split; [exact Hso|]. split; [exact Hlabels|].
  split; [exact Hvalues|exact Htl].
Defined.

(** ** Collapsing the sidebar, and the URLs of records *)

(** X22. For a super admin, collapsing or expanding the sidebar changes
    neither the children shown, nor the header, nor which entries are
    highlighted. Collapsed, no entry shows its label and the user box shows
    a single character: the first letter of the role, or "A" without one.
    Toggling twice gives the first view back. *)
Theorem sidebar_collapse {C : Type} (auth : AuthContext) (pathname : string)
    (sidebarOpen : bool) (children : C) :
  isSuperAdmin auth = true →
  (∃ wide narrow header,
     Layout auth pathname true children = Shell wide header children ∧
     Layout auth pathname false children = Shell narrow header children ∧
     nav_active <$> nav wide = nav_active <$> nav narrow ∧
     nav_item <$> nav wide = nav_item <$> nav narrow ∧
     Forall (λ b, nav_label b = None) (nav narrow) ∧
     Forall (λ b, nav_label b = Some (label (nav_item b))) (nav wide) ∧
     String.length (user_info narrow) = 1%nat) ∧
  Layout auth pathname (toggle_sidebar (toggle_sidebar sidebarOpen)) children
  = Layout auth pathname sidebarOpen children.
Proof.
  intros Hflag. split.
  - unfold Layout. rewrite Hflag. cbn [negb].
    eexists _, _, _. split; [reflexivity|]. split; [reflexivity|].
    cbn [nav user_info]. rewrite <-!list_fmap_compose.
    split; [reflexivity|]. split; [reflexivity|].
    split; [|split].
    + apply Forall_fmap, Forall_true. done.
    + apply Forall_fmap, Forall_true. done.
    + unfold role_initial. destruct (user auth) as [x|]; [|reflexivity].
      by destruct (role x).
  - unfold toggle_sidebar. by rewrite negb_involutive.
Qed.

Lemma sidebar_collapse_witness :
  isSuperAdmin (mkAuth (Some root_user) true) = true ∧
  ∃ narrow header,
    Layout (mkAuth (Some root_user) true) "/dashboard/users" false ()
    = Shell narrow header () ∧
    user_info narrow = "S" ∧
    nav_active <$> nav narrow = [true; false; false; false; false; true].
Proof.
  split; [reflexivity|].
  destruct (sidebar_collapse (mkAuth (Some root_user) true) "/dashboard/users" false ()
              eq_refl) as ((wide & narrow & header & _ & Hnarrow & _) & _).
  exists narrow, header. split; [exact Hnarrow|].
  injection Hnarrow as <- _. split; vm_compute; reflexivity.
Defined.

Lemma append_inj_l (p x y : string) : p ++ x = p ++ y → x = y.
Proof.
  induction p as [|c p IH]; [by rewrite !append_nil|].
  rewrite !append_cons. intros [= H]. auto.
Qed.

Lemma get_trace_url (path : string) (w : World) (req : Request) :
  trace ((response ← api.get path ∅; mret (data response)) w).1
  = (trace w ++ [EvRequest req])%list →
  method req = GET ∧ url req = path.
Proof.
  intros Ht. destruct (get_data_trace path ∅ w) as (req' & Hm & Hu & _ & Ht').
  rewrite Ht in Ht'. apply app_inj_tail in Ht' as [_ [= ->]]. done.
Qed.

Lemma delete_trace_url (path : string) (w : World) (req : Request) :
  trace ((api.delete path ;; mret (Js.bool true)) w).1
  = (trace w ++ [EvRequest req])%list →
  method req = DELETE ∧ url req = path.
Proof.
  intros Ht. destruct (delete_run path w) as (req' & Hm & Hu & Hrun).
  assert (Ht' : trace ((api.delete path ;; mret (Js.bool true)) w).1
                = (trace w ++ [EvRequest req'])%list).
  { rewrite Hrun. destruct (backend w (sent w) req') as [|r]; [reflexivity|].
    destruct (api.validateStatus (status r)); [reflexivity|].
    destruct (status r =? 401); reflexivity. }
  rewrite Ht in Ht'. apply app_inj_tail in Ht' as [_ [= ->]]. done.
Qed.

(** X23. Reading a school and deleting a school address the same URL
    exactly when the two ids have the same string; for integer ids, exactly
    when the ids are equal. So a delete of one school never goes to the
    URL of another. *)
Theorem school_urls_tell_ids_apart (a b : Js.value) (w : World) (ra rb : Request) :
  trace (schoolsAPI.getById a w).1 = (trace w ++ [EvRequest ra])%list →
  trace (schoolsAPI.delete b w).1 = (trace w ++ [EvRequest rb])%list →
  (method ra = GET ∧ method rb = DELETE) ∧
  (url ra = url rb ↔ Js.to_string a = Js.to_string b) ∧
  (∀ m n, a = Js.num m → b = Js.num n → (url ra = url rb ↔ m = n)).
Proof.
  intros Ha Hb.
  apply get_trace_url in Ha as [Hma Hua].
  apply delete_trace_url in Hb as [Hmb Hub].
  split; [done|]. rewrite Hua, Hub.
  assert (Hiff : "/schools/" ++ Js.to_string a = "/schools/" ++ Js.to_string b
                 ↔ Js.to_string a = Js.to_string b).
  { split; [apply append_inj_l|by intros ->]. }
  split; [exact Hiff|].
  intros m n -> ->. rewrite Hiff. cbn [Js.to_string].
  split; [apply pretty_Z_inj|by intros ->].
Qed.

Lemma school_urls_tell_ids_apart_witness :
  ∃ ra rb,
    trace (schoolsAPI.getById (Js.num 5) signed_in).1 = [EvRequest ra] ∧
    trace (schoolsAPI.delete (Js.num 6) signed_in).1 = [EvRequest rb] ∧
    url ra ≠ url rb.
Proof.
  set (ra := outgoing GET "/schools/5" ∅ Js.undefined ∅ signed_in).
  set (rb := outgoing DELETE "/schools/6" ∅ Js.undefined ∅ signed_in).
  assert (Ha : trace (schoolsAPI.getById (Js.num 5) signed_in).1
               = (trace signed_in ++ [EvRequest ra])%list) by (vm_compute; reflexivity).
  assert (Hb : trace (schoolsAPI.delete (Js.num 6) signed_in).1
               = (trace signed_in ++ [EvRequest rb])%list) by (vm_compute; reflexivity).
  destruct (school_urls_tell_ids_apart (Js.num 5) (Js.num 6) signed_in ra rb Ha Hb)
    as (_ & _ & Hids).
  exists ra, rb. split; [exact Ha|]. split; [exact Hb|].
  intros Heq. by apply (Hids 5 6 eq_refl eq_refl) in Heq.
Defined.
